(** * ShiftMate scheduling engine: a shallow embedding and its properties

    The development follows the Python sources under [App/controllers/scheduling]:
    - [schedule_client.py]: catalog generation, balance validation, the
      [ScheduleClient] registry and [auto_populate];
    - [Scheduler.py]: the [Scheduler] registry;
    - [PreferenceBasedStrategy.py] and [DayNightDistributeStrategy.py].

    Conventions of the embedding.
    - A Python exception is a value of [exn]; a call that may raise returns a
      [result].  The one [while] loop of the sources runs on fuel; [OutOfFuel]
      is the outcome of a run that needs more, it is no Python exception and no
      [except] clause catches it.
    - A [datetime.date] is its proleptic Gregorian ordinal ([date.toordinal()]),
      a [datetime.datetime] is a record of that ordinal and the time fields.
    - Hours ([total_hours], durations, [max_hours_per_week]) are Python floats
      (or ints) in the source.  A number is the rational [Q] it denotes, and a
      float operation of the source gives the double nearest to the exact
      result, ties to even ([PyFloat.round64]): [total_seconds() / 3600],
      [total_hours += duration], [current_hours + shift_hours] and the
      difference and product of the balance validation.  Infinities, NaN and
      the sign of zero are outside the model: a result beyond the largest
      double is not turned into an infinity.  The two score formulas and the
      summary helper of the absent base class are kept in exact arithmetic.
    - Staff and shift objects are mutated in place by the strategies.  The
      object graph is a [heap] with one finite map per mutable attribute, keyed
      by object identity; an absent key is an absent attribute, as probed by
      [hasattr]/[getattr] in the source.  A roster or a shift list is a list of
      references and may name the same object more than once.
    - The base class [SchedulingStrategy] and the strategy classes
      [EvenDistributeStrategy], [MinimizeDaysStrategy] and [ShiftTypeStrategy]
      are not among the sources: the three helpers of the base class that the
      two strategies at hand call follow the specification, and the three
      strategy classes are parameters of the registries.  The preference
      provider [get_preferences] is a parameter as well. *)

From Stdlib Require Import ZArith QArith Qabs Qround Lqa String Ascii List.
From stdpp Require Import base decidable option list gmap strings sorting.

Local Open Scope string_scope.
Local Open Scope Z_scope.

(** ** Exceptions and results *)

Inductive exn : Type :=
| ValueError (msg : string)
| OverflowError (msg : string)
| AttributeError (msg : string)
| DatabaseError (msg : string).

(** [str(e)] *)
Definition exn_str (e : exn) : string :=
  match e with
  | ValueError m => m
  | OverflowError m => m
  | AttributeError m => m
  | DatabaseError m => m
  end.

Inductive result (A : Type) : Type :=
| Return (a : A)
| Raise (e : exn)
| OutOfFuel.
Arguments Return {A} a.
Arguments Raise {A} e.
Arguments OutOfFuel {A}.

#[global] Instance result_bind : MBind result := fun A B k r =>
  match r with
  | Return a => k a
  | Raise e => Raise e
  | OutOfFuel => OutOfFuel
  end.

Definition raises {A} (r : result A) : bool :=
  match r with Raise _ => true | _ => false end.

(** ** Floats *)

Module PyFloat.

(** [2^k] for an integer [k]. *)
Definition pow2 (k : Z) : Q :=
  if 0 <=? k then inject_Z (2 ^ k) else (1 / inject_Z (2 ^ (- k)))%Q.

(** The nearest integer, the even one of two equally near. *)
Definition round_half_even (q : Q) : Z :=
  let f := Qfloor q in
  match (q - inject_Z f ?= 1 # 2)%Q with
  | Lt => f
  | Gt => f + 1
  | Eq => if Z.even f then f else f + 1
  end.

(** The [k] with [2^k <= q < 2^(k+1)], for [0 < q]. *)
Definition ilog2 (q : Q) : Z :=
  let k := Z.log2 (Qnum q) - Z.log2 (Zpos (Qden q)) in
  if Qle_bool (pow2 k) q then k else k - 1.

(** The double nearest to [q], ties to even: 53 significant bits, the
    smallest spacing [2^-1074] of the subnormal numbers.  This is what
    [float(q)] gives for an int or a decimal literal [q], and what an
    arithmetic operation on floats gives for its exact result [q]. *)
Definition round64 (q : Q) : Q :=
  if Qeq_bool q 0 then 0%Q
  else
    let a := Qabs q in
    let e := Z.max (ilog2 a - 52) (-1074) in
    let r := Qred (inject_Z (round_half_even (a / pow2 e)) * pow2 e) in
    if Qle_bool 0 q then r else Qred (- r).

(** [x + y], [x - y], [x * y] and [x / y] where an operand is a float: either
    operand is read as a float, the exact result is rounded. *)
Definition float_add (x y : Q) : Q := round64 (round64 x + round64 y).

Definition float_sub (x y : Q) : Q := round64 (round64 x - round64 y).

Definition float_mul (x y : Q) : Q := round64 (round64 x * round64 y).

Definition float_div (x y : Q) : Q := round64 (round64 x / round64 y).

(** [a / b] on two ints: the exact quotient, rounded once. *)
Definition int_true_div (a b : Z) : Q := round64 (inject_Z a / inject_Z b).

#[global] Arguments round64 : simpl never.
#[global] Arguments float_add : simpl never.
#[global] Arguments float_sub : simpl never.
#[global] Arguments float_mul : simpl never.
#[global] Arguments float_div : simpl never.
#[global] Arguments int_true_div : simpl never.

End PyFloat.
Export PyFloat.

(** ** Dates and datetimes *)

Module Datetime.

(** [date.max.toordinal()], the ordinal of 9999-12-31; [date.min] is 1. *)
Definition MAXORDINAL : Z := 3652059.

Record datetime : Type := mk_datetime {
  dt_ordinal : Z;
  dt_hour : Z;
  dt_minute : Z;
  dt_second : Z;
  dt_microsecond : Z
}.

(** [datetime.min] *)
Definition datetime_min : datetime := mk_datetime 1 0 0 0 0.

(** [datetime.combine(d, datetime.min.time())] *)
Definition combine_min (d : Z) : datetime := mk_datetime d 0 0 0 0.

(** [datetime.combine(d, datetime.max.time())] *)
Definition combine_max (d : Z) : datetime := mk_datetime d 23 59 59 999999.

(** [d + timedelta(days=n)]: [OverflowError] outside [date.min .. date.max]. *)
Definition date_add_days (d n : Z) : result Z :=
  if decide (1 <= d + n <= MAXORDINAL) then Return (d + n)
  else Raise (OverflowError "date value out of range").

(** [dt.replace(hour=h)] *)
Definition replace_hour (dt : datetime) (h : Z) : result datetime :=
  if decide (0 <= h <= 23)
  then Return (mk_datetime (dt_ordinal dt) h (dt_minute dt) (dt_second dt)
                           (dt_microsecond dt))
  else Raise (ValueError "hour must be in 0..23").

(** [dt.replace(hour=h, minute=m)] *)
Definition replace_hour_minute (dt : datetime) (h m : Z) : result datetime :=
  if decide (0 <= h <= 23) then
    if decide (0 <= m <= 59)
    then Return (mk_datetime (dt_ordinal dt) h m (dt_second dt) (dt_microsecond dt))
    else Raise (ValueError "minute must be in 0..59")
  else Raise (ValueError "hour must be in 0..23").

(** Microseconds since the start of ordinal 0; orders datetimes. *)
Definition micros (dt : datetime) : Z :=
  (((dt_ordinal dt * 24 + dt_hour dt) * 60 + dt_minute dt) * 60
   + dt_second dt) * 1000000 + dt_microsecond dt.

Definition dt_leb (a b : datetime) : bool := micros a <=? micros b.

(** [(b - a).total_seconds()]: the microseconds of the difference, an int,
    divided by [10**6]. *)
Definition total_seconds (a b : datetime) : Q :=
  int_true_div (micros b - micros a) 1000000.

(** [(b - a).total_seconds() / 3600] *)
Definition hours_between (a b : datetime) : Q :=
  float_div (total_seconds a b) 3600.

#[global] Arguments hours_between : simpl never.

(** [dt.weekday()]: Monday is 0; ordinal 1 is a Monday. *)
Definition weekday (dt : datetime) : Z := (dt_ordinal dt + 6) mod 7.

End Datetime.
Export Datetime.

(** ** Shift objects *)

(** The attributes of a shift object that no strategy writes.  [None] is an
    absent attribute. *)
Record Shift : Type := mk_Shift {
  start_time : option datetime;
  end_time : option datetime;
  required_staff : option Z;
  duration_hours : option Q;
  required_skills : option (list string);
  shift_type : option string
}.

(** ** Catalog generation ([schedule_client.py]) *)

Module Catalog.

(** The [{'start': ..., 'end': ...}] dict of [_get_shift_times]. *)
Record shift_times : Type := mk_times { st_start : datetime; st_end : datetime }.

(** [ScheduleClient._get_shift_times].  The dict literal evaluates its
    ['start'] entry before its ['end'] entry. *)
Definition _get_shift_times (date : Z) (shift_num : Z) (shifts_per_day : Z)
    (shift_type : string) : result shift_times :=
  let base_date := combine_min date in
  if String.eqb shift_type "day" then
    let start_hour := 8 + shift_num in
    s ← replace_hour base_date start_hour;
    e ← replace_hour base_date (start_hour + 8);
    Return (mk_times s e)
  else if String.eqb shift_type "night" then
    let start_hour := 22 + shift_num in
    end_date ← date_add_days date 1;
    s ← replace_hour base_date start_hour;
    e ← replace_hour (combine_min end_date) ((start_hour + 8) mod 24);
    Return (mk_times s e)
  else
    if shift_num =? 0 then
      s ← replace_hour base_date 8;
      e ← replace_hour base_date 16;
      Return (mk_times s e)
    else
      s ← replace_hour base_date 16;
      e ← replace_hour_minute base_date 23 59;
      Return (mk_times s e).

(** [MockShift(start_time, end_time)]; [assigned_staff = []] is heap state. *)
Definition MockShift (shift_type : string) (s e : datetime) : Shift :=
  {| start_time := Some s;
     end_time := Some e;
     required_staff := Some 1;
     duration_hours := Some (hours_between s e);
     required_skills := Some [];
     shift_type := Some shift_type |}.

(** [range(n)] *)
Definition range (n : Z) : list Z := map Z.of_nat (seq 0 (Z.to_nat n)).

(** The [for shift_num in range(shifts_per_day)] loop of one day, appending
    to [shifts]. *)
Fixpoint day_loop (date : Z) (shifts_per_day : Z) (shift_type : string)
    (nums : list Z) (shifts : list Shift) : result (list Shift) :=
  match nums with
  | [] => Return shifts
  | shift_num :: rest =>
      t ← _get_shift_times date shift_num shifts_per_day shift_type;
      day_loop date shifts_per_day shift_type rest
               (shifts ++ [MockShift shift_type (st_start t) (st_end t)])%list
  end.

(** The [while current_date <= end_date] loop, on [fuel] iterations. *)
Fixpoint period_loop (fuel : nat) (current_date end_date : Z)
    (shifts_per_day : Z) (shift_type : string) (shifts : list Shift)
    : result (list Shift) :=
  if decide (current_date <= end_date) then
    match fuel with
    | O => OutOfFuel
    | S fuel' =>
        shifts' ← day_loop current_date shifts_per_day shift_type
                           (range shifts_per_day) shifts;
        next ← date_add_days current_date 1;
        period_loop fuel' next end_date shifts_per_day shift_type shifts'
    end
  else Return shifts.

(** Iterations the loop can need: one per day of the range. *)
Definition period_fuel (start_date end_date : Z) : nat :=
  Z.to_nat (end_date - start_date + 1).

(** [ScheduleClient._generate_shifts_for_period]. *)
Definition _generate_shifts_for_period (schedule_id : Z) (start_date end_date : Z)
    (shifts_per_day : Z) (shift_type : string) : result (list Shift) :=
  period_loop (period_fuel start_date end_date) start_date end_date
              shifts_per_day shift_type [].

End Catalog.

(** ** The object graph *)

(** Staff objects are identified by their [id], shift objects by a reference.
    [total_hours], [assigned_shifts] (per staff object) and [assigned_staff]
    (per shift object) are the attributes the strategies write. *)
Record heap : Type := mk_heap {
  shift_attrs : gmap nat Shift;
  next_ref : nat;
  assigned_staff : gmap nat (list Z);
  total_hours : gmap Z Q;
  assigned_shifts : gmap Z (list nat)
}.

(** [getattr(shift, name, None)] for the attributes of [Shift]. *)
Definition shift_attr {A} (h : heap) (shift : nat) (f : Shift -> option A) : option A :=
  shift_attrs h !! shift ≫= f.

(** A new shift object with [assigned_staff = []]. *)
Definition alloc_shift (h : heap) (obj : Shift) : nat * heap :=
  (next_ref h,
   {| shift_attrs := <[next_ref h := obj]> (shift_attrs h);
      next_ref := S (next_ref h);
      assigned_staff := <[next_ref h := []]> (assigned_staff h);
      total_hours := total_hours h;
      assigned_shifts := assigned_shifts h |}).

Fixpoint alloc_shifts (h : heap) (objs : list Shift) : list nat * heap :=
  match objs with
  | [] => ([], h)
  | obj :: rest =>
      let '(r, h1) := alloc_shift h obj in
      let '(rs, h2) := alloc_shifts h1 rest in
      (r :: rs, h2)
  end.

(** ** The preference provider ([App.controllers.preferences], external) *)

(** A preference dict; [None] is an absent key. *)
Record Prefs : Type := mk_Prefs {
  preferred_shift_types : option (list string);
  unavailable_days : option (list Z);
  max_hours_per_week : option Q;
  skills : option (list string)
}.

(** The empty dict [{}]. *)
Definition empty_prefs : Prefs := mk_Prefs None None None None.

(** An outcome of [get_preferences(staff_id)]: it raises, or returns [None]
    or a dict. *)
Inductive pref_lookup : Type :=
| PrefRaises
| PrefReturns (r : option Prefs).

(** Truthiness of a returned value: [None] and [{}] are falsy. *)
Definition prefs_truthy (r : option Prefs) : bool :=
  match r with
  | None => false
  | Some (mk_Prefs None None None None) => false
  | Some _ => true
  end.

(** [r or alt] *)
Definition prefs_or (r : option Prefs) (alt : Prefs) : Prefs :=
  match r with
  | Some p => if prefs_truthy r then p else alt
  | None => alt
  end.

(** ** Python list helpers *)

(** Stable insertion into a list sorted by [leb]; [leb x y] is [not (y < x)]. *)
Fixpoint insert_sorted {A} (leb : A -> A -> bool) (x : A) (l : list A) : list A :=
  match l with
  | [] => [x]
  | y :: l' => if leb x y then x :: l else y :: insert_sorted leb x l'
  end.

(** [sorted(l, key=...)] and [l.sort(key=...)]: a stable sort. *)
Definition sorted_by {A} (leb : A -> A -> bool) (l : list A) : list A :=
  foldr (insert_sorted leb) [] l.

(** [l.remove(x)] for an [x] known to be in [l]: drops the first occurrence. *)
Fixpoint remove_first (x : Z) (l : list Z) : list Z :=
  match l with
  | [] => []
  | y :: l' => if decide (x = y) then l' else y :: remove_first x l'
  end.

Definition Qlt_bool (a b : Q) : bool := negb (Qle_bool b a).

(** ** Results of a strategy *)

Record schedule_entry : Type := mk_entry {
  entry_start : option datetime;
  entry_end : option datetime;
  entry_staff : list Z
}.

(** The dict returned by [generate_schedule]: ["strategy"], ["schedule"],
    ["summary"], and the remaining numeric keys in [res_scores]. *)
Record ScheduleResult : Type := mk_result {
  res_strategy : string;
  res_schedule : list schedule_entry;
  res_summary : option (gmap string Q);
  res_scores : list (string * Q)
}.

(** ** [SchedulingStrategy]: the helpers of the base class *)

Module SchedulingStrategy.

(** Modelled from the spec: [SchedulingStrategy._reset_assignments] is not
    among the sources.  "Zero every staff member's total_hours, clear
    assigned_shifts and every shift's assigned_staff." *)
Definition _reset_assignments (h : heap) (staff : list Z) (shifts : list nat) : heap :=
  {| shift_attrs := shift_attrs h;
     next_ref := next_ref h;
     assigned_staff := foldl (fun m shift => <[shift := []]> m) (assigned_staff h) shifts;
     total_hours := foldl (fun m person => <[person := 0%Q]> m) (total_hours h) staff;
     assigned_shifts := foldl (fun m person => <[person := []]> m) (assigned_shifts h) staff |}.

Definition hours_of (h : heap) (person : Z) : Q := default 0%Q (total_hours h !! person).

Definition Qmin_list (x : Q) (l : list Q) : Q :=
  foldl (fun m y => if Qlt_bool y m then y else m) x l.

Definition Qmax_list (x : Q) (l : list Q) : Q :=
  foldl (fun m y => if Qlt_bool m y then y else m) x l.

Definition Qsum (l : list Q) : Q := foldl Qplus 0%Q l.

(** Modelled from the spec: [SchedulingStrategy._generate_summary] is not
    among the sources.  "Produces min/average/max total_hours across the
    roster and count of staff with ≥1 assigned shift", under the keys
    [schedule_client.py] reads, with the total of assigned shifts; an empty
    roster gives the empty summary. *)
Definition _generate_summary (h : heap) (staff : list Z) : gmap string Q :=
  match map (hours_of h) staff with
  | [] => ∅
  | x :: rest =>
      let shifts_of person := length (default [] (assigned_shifts h !! person)) in
      let count n := inject_Z (Z.of_nat n) in
      <["min_hours" := Qmin_list x rest]>
      (<["max_hours" := Qmax_list x rest]>
      (<["average_hours_per_staff" := (Qsum (x :: rest) / count (length staff))%Q]>
      (<["total_shifts_assigned" := count (foldl Nat.add O (map shifts_of staff))]>
      (<["staff_with_shifts" :=
           count (length (filter (fun person => shifts_of person ≠ O) staff))]> ∅))))
  end.

(** Modelled from the spec: [SchedulingStrategy._format_schedule] is not
    among the sources.  "Produces a serializable per-shift listing of
    assigned staff identifiers and times, independent of strategy." *)
Definition _format_schedule (h : heap) (shifts : list nat) : list schedule_entry :=
  map (fun shift =>
         {| entry_start := shift_attr h shift start_time;
            entry_end := shift_attr h shift end_time;
            entry_staff := default [] (assigned_staff h !! shift) |}) shifts.

End SchedulingStrategy.
Import SchedulingStrategy.

(** ** [PreferenceBasedStrategy] *)

Module PreferenceBasedStrategy.
Section WithProvider.

Variable get_preferences : Z -> pref_lookup.

(** The dict assigned when the lookup is falsy or raises. *)
Definition default_prefs : Prefs :=
  {| preferred_shift_types := Some [];
     unavailable_days := Some [];
     max_hours_per_week := Some 40%Q;
     skills := Some [] |}.

(** The first loop of [generate_schedule]: [staff_preferences], keyed by
    staff object. *)
Definition load_preferences (staff : list Z) : gmap Z Prefs :=
  foldl (fun d person =>
           <[person := match get_preferences person with
                       | PrefReturns r => prefs_or r default_prefs
                       | PrefRaises => default_prefs
                       end]> d) ∅ staff.

Definition _get_shift_type (h : heap) (shift : nat) : string :=
  match shift_attr h shift start_time with
  | None => "regular"
  | Some t =>
      let hour := dt_hour t in
      if (6 <=? hour) && (hour <? 14) then "morning"
      else if (14 <=? hour) && (hour <? 22) then "evening"
      else "night"
  end.

Definition _can_work_shift (h : heap) (staff : Z) (shift : nat)
    (preferences : gmap Z Prefs) : bool :=
  match shift_attr h shift start_time with
  | None => false
  | Some t =>
      let prefs := default empty_prefs (preferences !! staff) in
      let unavailable := default [] (unavailable_days prefs) in
      let staff_skills := default [] (skills prefs) in
      let required := default [] (shift_attr h shift required_skills) in
      if bool_decide (weekday t ∈ unavailable) then false
      else if negb (bool_decide (required = []))
              && negb (forallb (fun skill => bool_decide (skill ∈ staff_skills)) required)
      then false
      else true
  end.

Definition _calculate_preference_score (staff : Z) (day : Z) (shift_type : string)
    (preferences : gmap Z Prefs) : Z :=
  let prefs := default empty_prefs (preferences !! staff) in
  let preferred := default [] (preferred_shift_types prefs) in
  let unavailable := default [] (unavailable_days prefs) in
  let score := 0 in
  let score := if bool_decide (shift_type ∈ preferred) then score + 3 else score in
  let score := if bool_decide (day ∈ unavailable) then score - 10 else score in
  score.

(** The duration computed inline in [_assign_shift]. *)
Definition shift_duration (h : heap) (shift : nat) : Q :=
  match shift_attr h shift start_time, shift_attr h shift end_time with
  | Some s, Some e => hours_between s e
  | _, _ => default 8%Q (shift_attr h shift duration_hours)
  end.

Definition _assign_shift (h : heap) (staff : Z) (shift : nat) : heap :=
  {| shift_attrs := shift_attrs h;
     next_ref := next_ref h;
     assigned_staff :=
       <[shift := (default [] (assigned_staff h !! shift) ++ [staff])%list]> (assigned_staff h);
     total_hours :=
       <[staff := float_add (default 0%Q (total_hours h !! staff)) (shift_duration h shift)]>
         (total_hours h);
     assigned_shifts :=
       <[staff := (default [] (assigned_shifts h !! staff) ++ [shift])%list]>
         (assigned_shifts h) |}.

(** [needed] of one shift. *)
Definition needed (h : heap) (shift : nat) : Z :=
  default 1 (shift_attr h shift required_staff)
  - Z.of_nat (length (default [] (assigned_staff h !! shift))).

(** The candidate triples [(person, preference_score, current_hours)] of
    one shift, in roster order.  [staff_preferences[person]] is present for
    every person of the roster. *)
Definition candidates_of (h : heap) (staff : list Z) (shift : nat)
    (staff_preferences : gmap Z Prefs) : list (Z * Z * Q) :=
  let shift_type := _get_shift_type h shift in
  let shift_day := from_option weekday 0 (shift_attr h shift start_time) in
  flat_map (fun person =>
    if negb (_can_work_shift h person shift staff_preferences) then []
    else
      let preference_score :=
        _calculate_preference_score person shift_day shift_type staff_preferences in
      let current_hours := default 0%Q (total_hours h !! person) in
      let max_hours :=
        default 40%Q (max_hours_per_week (default empty_prefs (staff_preferences !! person))) in
      if Qlt_bool current_hours max_hours
      then [(person, preference_score, current_hours)] else []) staff.

(** Order of the keys [(-x[1], x[2])]. *)
Definition candidate_leb (x y : Z * Z * Q) : bool :=
  let '(_, sx, hx) := x in
  let '(_, sy, hy) := y in
  if decide (- sx = - sy) then Qle_bool hx hy else - sx <? - sy.

(** The body of the loop over [sorted_shifts]. *)
Definition fill_shift (staff : list Z) (staff_preferences : gmap Z Prefs)
    (h : heap) (shift : nat) : heap :=
  if needed h shift <=? 0 then h
  else
    let candidates := sorted_by candidate_leb (candidates_of h staff shift staff_preferences) in
    foldl (fun h '(person, _, _) => _assign_shift h person shift) h
          (take (Z.to_nat (needed h shift)) candidates).

Definition shift_leb (h : heap) (x y : nat) : bool :=
  dt_leb (default datetime_min (shift_attr h x start_time))
         (default datetime_min (shift_attr h y start_time)).

Definition _calculate_overall_preference_score (h : heap) (staff : list Z) : Q :=
  match staff with
  | [] => 0%Q
  | _ =>
      let '(total_score, staff_count) :=
        foldl (fun '(total_score, staff_count) person =>
                 let assigned := default [] (assigned_shifts h !! person) in
                 match assigned, get_preferences person with
                 | [], _ => (total_score, staff_count)
                 | _, PrefRaises => (total_score, staff_count)
                 | _, PrefReturns r =>
                     let prefs := prefs_or r empty_prefs in
                     let preferred_types := default [] (preferred_shift_types prefs) in
                     let preferred_count :=
                       length (filter (fun shift => _get_shift_type h shift ∈ preferred_types)
                                      assigned) in
                     ((total_score
                       + inject_Z (Z.of_nat preferred_count)
                         / inject_Z (Z.of_nat (length assigned)) * 100)%Q,
                      staff_count + 1)
                 end) (0%Q, 0) staff in
      if 0 <? staff_count then (total_score / inject_Z staff_count)%Q else 0%Q
  end.

Definition _create_schedule_result (h : heap) (staff : list Z) (shifts : list nat)
    : ScheduleResult :=
  {| res_strategy := "Preference Based";
     res_schedule := _format_schedule h shifts;
     res_summary := Some (_generate_summary h staff);
     res_scores := [("preference_score", _calculate_overall_preference_score h staff)] |}.

(** The assignment loops of [generate_schedule], after the reset. *)
Definition assign_all (h : heap) (staff : list Z) (shifts : list nat) : heap :=
  let staff_preferences := load_preferences staff in
  let sorted_shifts := sorted_by (shift_leb h) shifts in
  foldl (fill_shift staff staff_preferences) h sorted_shifts.

Definition generate_schedule (h : heap) (staff : list Z) (shifts : list nat)
    (start_date end_date : Z) : ScheduleResult * heap :=
  let h := _reset_assignments h staff shifts in
  let h := assign_all h staff shifts in
  (_create_schedule_result h staff shifts, h).

End WithProvider.
End PreferenceBasedStrategy.

(** ** [DayNightDistributeStrategy] *)

Module DayNightDistributeStrategy.
Section WithProvider.

Variable get_preferences : Z -> pref_lookup.

Definition _get_shift_type (h : heap) (shift : nat) : string :=
  match shift_attr h shift start_time with
  | None => "regular"
  | Some t =>
      let hour := dt_hour t in
      if (6 <=? hour) && (hour <? 18)
      then (if hour <? 14 then "day" else "evening")
      else "night"
  end.

(** [shift_type in ['morning', 'evening']] of the bucket loop. *)
Definition in_day_bucket (h : heap) (shift : nat) : bool :=
  bool_decide (_get_shift_type h shift ∈ ["morning"; "evening"]).

Definition day_shifts (h : heap) (shifts : list nat) : list nat :=
  filter (fun shift => in_day_bucket h shift = true) shifts.

Definition night_shifts (h : heap) (shifts : list nat) : list nat :=
  filter (fun shift => in_day_bucket h shift = false) shifts.

Inductive category : Type := DayStaff | NightStaff | NeutralStaff.

#[global] Instance category_eq_dec : EqDecision category.
Proof. solve_decision. Defined.

(** The body of the grouping loop, for one person. *)
Definition categorize (person : Z) : category :=
  match get_preferences person with
  | PrefRaises => NeutralStaff
  | PrefReturns r =>
      let prefs := prefs_or r empty_prefs in
      let preferred_types := default [] (preferred_shift_types prefs) in
      let day_pref :=
        existsb (fun t => bool_decide (t ∈ ["morning"; "evening"])) preferred_types in
      let night_pref := bool_decide ("night" ∈ preferred_types) in
      if day_pref && negb night_pref then DayStaff
      else if night_pref && negb day_pref then NightStaff
      else NeutralStaff
  end.

Definition staff_of (c : category) (staff : list Z) : list Z :=
  filter (fun person => categorize person = c) staff.

Definition _can_work_shift (h : heap) (staff : Z) (shift : nat) : bool :=
  match shift_attr h shift start_time with
  | None => false
  | Some t =>
      let prefs :=
        match get_preferences staff with
        | PrefReturns r => prefs_or r empty_prefs
        | PrefRaises => empty_prefs
        end in
      let unavailable := default [] (unavailable_days prefs) in
      let staff_skills := default [] (skills prefs) in
      let required := default [] (shift_attr h shift required_skills) in
      negb (bool_decide (weekday t ∈ unavailable))
      && forallb (fun skill => bool_decide (skill ∈ staff_skills)) required
  end.

Definition _get_shift_duration (h : heap) (shift : nat) : Q :=
  match shift_attr h shift start_time, shift_attr h shift end_time with
  | Some s, Some e => hours_between s e
  | _, _ => default 8%Q (shift_attr h shift duration_hours)
  end.

Definition _assign_shift (h : heap) (staff : Z) (shift : nat) : heap :=
  {| shift_attrs := shift_attrs h;
     next_ref := next_ref h;
     assigned_staff :=
       <[shift := (default [] (assigned_staff h !! shift) ++ [staff])%list]> (assigned_staff h);
     total_hours :=
       <[staff := float_add (default 0%Q (total_hours h !! staff))
                            (_get_shift_duration h shift)]>
         (total_hours h);
     assigned_shifts :=
       <[staff := (default [] (assigned_shifts h !! staff) ++ [shift])%list]>
         (assigned_shifts h) |}.

(** [max_hours] as read by [_assign_if_available]. *)
Definition max_hours_of (staff : Z) : Q :=
  match get_preferences staff with
  | PrefReturns r => default 40%Q (max_hours_per_week (prefs_or r empty_prefs))
  | PrefRaises => 40%Q
  end.

Definition _assign_if_available (h : heap) (staff : Z) (shift : nat) : bool * heap :=
  let max_hours := max_hours_of staff in
  let current_hours := default 0%Q (total_hours h !! staff) in
  let shift_hours := _get_shift_duration h shift in
  if Qle_bool (float_add current_hours shift_hours) max_hours
  then (true, _assign_shift h staff shift)
  else (false, h).

Definition needed (h : heap) (shift : nat) : Z :=
  default 1 (shift_attr h shift required_staff)
  - Z.of_nat (length (default [] (assigned_staff h !! shift))).

Definition hours_leb (h : heap) (x y : Z) : bool :=
  Qle_bool (default 0%Q (total_hours h !! x)) (default 0%Q (total_hours h !! y)).

(** The loop [for person in candidates[:needed]] over the state
    [(heap, neutral_staff)]. *)
Definition commit (shift : nat) (st : heap * list Z) (person : Z) : heap * list Z :=
  let '(h, neutral_staff) := st in
  let '(ok, h') := _assign_if_available h person shift in
  if ok then
    if bool_decide (person ∈ neutral_staff)
    then (h', remove_first person neutral_staff)
    else (h', neutral_staff)
  else (h', neutral_staff).

(** The body of either assignment loop; [preferring] is [day_staff] or
    [night_staff]. *)
Definition fill_shift (preferring : list Z) (st : heap * list Z) (shift : nat)
    : heap * list Z :=
  let '(h, neutral_staff) := st in
  if needed h shift <=? 0 then st
  else
    let candidates := (preferring ++ neutral_staff)%list in
    let candidates := filter (fun s => _can_work_shift h s shift = true) candidates in
    let candidates := sorted_by (hours_leb h) candidates in
    foldl (commit shift) st (take (Z.to_nat (needed h shift)) candidates).

Definition _calculate_distribution_score (day_shifts night_shifts day_staff night_staff : Z)
    : Q :=
  if day_shifts + night_shifts =? 0 then 0%Q
  else
    let total_staff := day_staff + night_staff in
    if total_staff =? 0 then 0%Q
    else
      let ideal_day_ratio := (inject_Z day_staff / inject_Z total_staff)%Q in
      let actual_day_ratio :=
        if 0 <? day_shifts + night_shifts
        then (inject_Z day_shifts / inject_Z (day_shifts + night_shifts))%Q else 0%Q in
      let deviation := Qabs (ideal_day_ratio - actual_day_ratio) in
      let v := (100 - deviation * 200)%Q in
      if Qlt_bool 0 v then v else 0%Q.

Definition has_assignee (h : heap) (shift : nat) : bool :=
  match assigned_staff h !! shift with
  | Some (_ :: _) => true
  | _ => false
  end.

Definition _create_schedule_result (h : heap) (staff : list Z) (shifts : list nat)
    (day_staff_count night_staff_count : Z) : ScheduleResult :=
  let summary := _generate_summary h staff in
  let day_shifts :=
    Z.of_nat (length (filter (fun s =>
      bool_decide (_get_shift_type h s ∈ ["day"; "evening"]) && has_assignee h s = true)
        shifts)) in
  let night_shifts :=
    Z.of_nat (length (filter (fun s =>
      bool_decide (_get_shift_type h s = "night") && has_assignee h s = true) shifts)) in
  let summary :=
    <["night_shifts_assigned" := inject_Z night_shifts]>
    (<["day_shifts_assigned" := inject_Z day_shifts]>
    (<["night_staff_count" := inject_Z night_staff_count]>
    (<["day_staff_count" := inject_Z day_staff_count]> summary))) in
  {| res_strategy := "Day/Night Distribution";
     res_schedule := _format_schedule h shifts;
     res_summary := Some summary;
     res_scores :=
       [("distribution_score",
         _calculate_distribution_score day_shifts night_shifts
                                       day_staff_count night_staff_count)] |}.

(** The two assignment loops of [generate_schedule], after the reset; the
    second component is [neutral_staff] as the run leaves it. *)
Definition assign_all (h : heap) (staff : list Z) (shifts : list nat) : heap * list Z :=
  let day_staff := staff_of DayStaff staff in
  let night_staff := staff_of NightStaff staff in
  let neutral_staff := staff_of NeutralStaff staff in
  let st := foldl (fill_shift day_staff) (h, neutral_staff) (day_shifts h shifts) in
  foldl (fill_shift night_staff) st (night_shifts h shifts).

Definition generate_schedule (h : heap) (staff : list Z) (shifts : list nat)
    (start_date end_date : Z) : ScheduleResult * heap :=
  let h := _reset_assignments h staff shifts in
  let '(h, _) := assign_all h staff shifts in
  (_create_schedule_result h staff shifts
     (Z.of_nat (length (staff_of DayStaff staff)))
     (Z.of_nat (length (staff_of NightStaff staff))), h).

End WithProvider.
End DayNightDistributeStrategy.

(** ** Strategy registries *)

(** A strategy object's [generate_schedule]: a call runs to completion, it
    returns ([inr]) or raises ([inl]), and it mutates the object graph. *)
Definition strategy : Type :=
  heap -> list Z -> list nat -> Z -> Z -> (exn + ScheduleResult) * heap.

(** A strategy of the sources, which never raises. *)
Definition total_strategy (f : heap -> list Z -> list nat -> Z -> Z -> ScheduleResult * heap)
    : strategy :=
  fun h staff shifts start_date end_date =>
    let '(r, h') := f h staff shifts start_date end_date in (inr r, h').

(** The outcome of calling a strategy object. *)
Definition call (s : strategy) (h : heap) (staff : list Z) (shifts : list nat)
    (start_date end_date : Z) : result ScheduleResult * heap :=
  match s h staff shifts start_date end_date with
  | (inr r, h') => (Return r, h')
  | (inl e, h') => (Raise e, h')
  end.

(** [dict.get(name)] on a dict kept in insertion order. *)
Fixpoint dict_get {A} (d : list (string * A)) (name : string) : option A :=
  match d with
  | [] => None
  | (k, v) :: d' => if String.eqb k name then Some v else dict_get d' name
  end.

(** [list(d.keys())] *)
Definition dict_keys {A} (d : list (string * A)) : list string := map fst d.

(** [repr] of a string without quotes or escapes, and [str] of a list of such
    strings, as an f-string prints it. *)
Definition repr_str (s : string) : string := "'" ++ s ++ "'".

Fixpoint join (sep : string) (l : list string) : string :=
  match l with
  | [] => ""
  | [x] => x
  | x :: rest => x ++ sep ++ join sep rest
  end.

Definition str_list (l : list string) : string :=
  "[" ++ join ", " (map repr_str l) ++ "]".

(** [needle in haystack] on strings. *)
Fixpoint occurs (needle haystack : string) : bool :=
  String.prefix needle haystack
  || match haystack with
     | EmptyString => false
     | String _ rest => occurs needle rest
     end.

(** ** The persistence collaborator ([db.session], [Shift.query]) *)

(** A persisted [Shift] row. *)
Record Row : Type := mk_Row {
  row_schedule_id : Z;
  row_staff_id : Z;
  row_start : datetime;
  row_end : datetime
}.

(** [committed] is the persisted table; [session] is the table as the open
    transaction sees it, with the pending additions and deletions applied.
    [commit_faults] scripts the environment: the head tells whether the next
    [commit()] fails, and an empty script has no failure left. *)
Record database : Type := mk_database {
  committed : list Row;
  session : list Row;
  commit_faults : list bool
}.

(** [db.session.add(row)] *)
Definition session_add (row : Row) (d : database) : database :=
  {| committed := committed d; session := (session d ++ [row])%list;
     commit_faults := commit_faults d |}.

(** [db.session.commit()] *)
Definition session_commit (d : database) : result unit * database :=
  match commit_faults d with
  | true :: faults =>
      (Raise (DatabaseError "commit failed"),
       {| committed := committed d; session := session d; commit_faults := faults |})
  | false :: faults =>
      (Return (), {| committed := session d; session := session d; commit_faults := faults |})
  | [] =>
      (Return (), {| committed := session d; session := session d; commit_faults := [] |})
  end.

(** [db.session.rollback()] *)
Definition session_rollback (d : database) : database :=
  {| committed := committed d; session := committed d; commit_faults := commit_faults d |}.

(** The outcome dict of [auto_populate]. *)
Record assignment : Type := mk_assignment {
  a_staff_id : Z;
  a_start_time : option datetime;
  a_end_time : option datetime
}.

Inductive populate_outcome : Type :=
| Success (schedule_id shifts_created shifts_deleted : Z) (score : Q)
          (summary : gmap string Q) (assignments : list assignment)
          (strategy_used : string)
| Failure (message : string).

(** The ["success"] entry. *)
Definition success (o : populate_outcome) : bool :=
  match o with Success _ _ _ _ _ _ _ => true | Failure _ => false end.

(** The state [auto_populate] runs in, and its computations. *)
Record world : Type := mk_world { db : database; objects : heap }.

Definition M (A : Type) : Type := world -> result A * world.

#[global] Instance M_ret : MRet M := fun A a w => (Return a, w).

#[global] Instance M_bind : MBind M := fun A B k m w =>
  match m w with
  | (Return a, w') => k a w'
  | (Raise e, w') => (Raise e, w')
  | (OutOfFuel, w') => (OutOfFuel, w')
  end.

Definition raise {A} (e : exn) : M A := fun w => (Raise e, w).

Definition lift {A} (r : result A) : M A := fun w => (r, w).

Definition on_db {A} (f : database -> result A * database) : M A := fun w =>
  let '(r, d) := f (db w) in (r, {| db := d; objects := objects w |}).

Definition on_heap {A} (f : heap -> result A * heap) : M A := fun w =>
  let '(r, h) := f (objects w) in (r, {| db := db w; objects := h |}).

Definition read_heap {A} (f : heap -> result A) : M A := fun w => (f (objects w), w).

(** [try: body except Exception as e: handler(e)] *)
Definition try_except {A} (body : M A) (handler : exn -> M A) : M A := fun w =>
  match body w with
  | (Raise e, w') => handler e w'
  | other => other
  end.

Section Registries.

Variable get_preferences : Z -> pref_lookup.

(** The strategy classes whose modules are not among the sources. *)
Variable EvenDistributeStrategy : strategy.
Variable MinimizeDaysStrategy : strategy.
Variable ShiftTypeStrategy : strategy.

Definition PreferenceBased : strategy :=
  total_strategy (PreferenceBasedStrategy.generate_schedule get_preferences).

Definition DayNightDistribute : strategy :=
  total_strategy (DayNightDistributeStrategy.generate_schedule get_preferences).

(** [Scheduler.__init__] *)
Definition Scheduler_strategies : list (string * strategy) :=
  [("even_distribute", EvenDistributeStrategy);
   ("minimize_days", MinimizeDaysStrategy);
   ("shift_type_optimize", ShiftTypeStrategy);
   ("preference_based", PreferenceBased);
   ("day_night_distribute", DayNightDistribute)].

(** [Scheduler.generate_schedule]; a strategy object is truthy. *)
Definition Scheduler_generate_schedule (h : heap) (strategy_name : string)
    (staff : list Z) (shifts : list nat) (start_date end_date : Z)
    : result ScheduleResult * heap :=
  match dict_get Scheduler_strategies strategy_name with
  | None =>
      let available := dict_keys Scheduler_strategies in
      (Raise (ValueError ("Unknown strategy: " ++ strategy_name
                          ++ ". Available strategies: " ++ str_list available)), h)
  | Some strategy => call strategy h staff shifts start_date end_date
  end.

(** [ScheduleClient.__init__] *)
Definition ScheduleClient_strategies : list (string * strategy) :=
  [("even-distribute", EvenDistributeStrategy);
   ("minimize-days", MinimizeDaysStrategy);
   ("preference-based", PreferenceBased);
   ("day-night-distribute", DayNightDistribute)].

(** [ScheduleClient.generate_schedule] *)
Definition ScheduleClient_generate_schedule (h : heap) (strategy_name : string)
    (staff : list Z) (shifts : list nat) (start_date end_date : Z)
    : result ScheduleResult * heap :=
  match dict_get ScheduleClient_strategies strategy_name with
  | None => (Raise (ValueError ("Unknown strategy: " ++ strategy_name)), h)
  | Some strategy => call strategy h staff shifts start_date end_date
  end.

(** *** [ScheduleClient]: validation, persistence, [auto_populate] *)

Definition summary_get (summary : gmap string Q) (key : string) : Q :=
  default 0%Q (summary !! key).

(** [summary.get(key, 0)] for an entry of hours: the double nearest to it. *)
Definition summary_float (summary : gmap string Q) (key : string) : Q :=
  round64 (summary_get summary key).

(** [ScheduleClient._validate_schedule_results]; [1.5] is the double [3 # 2]. *)
Definition _validate_schedule_results (summary : gmap string Q) (staff_count : Z)
    : result unit :=
  if decide (summary = ∅) then Return ()
  else if Qlt_bool 20 (float_sub (summary_float summary "max_hours")
                                 (summary_float summary "min_hours"))
  then Raise (ValueError "Schedule too unbalanced - hour difference exceeds 20 hours")
  else if Qlt_bool (summary_get summary "total_shifts_assigned") (inject_Z staff_count)
  then Raise (ValueError "Not enough shifts assigned - some staff may have no shifts")
  else if Qlt_bool (float_mul (summary_float summary "average_hours_per_staff") (3 # 2))
                   (summary_float summary "max_hours")
  then Raise (ValueError "Schedule distribution too uneven")
  else Return ().

(** The filter of [_clear_existing_shifts]. *)
Definition in_window (schedule_id : Z) (start_date end_date : Z) (row : Row) : bool :=
  (row_schedule_id row =? schedule_id)
  && dt_leb (combine_min start_date) (row_start row)
  && dt_leb (row_start row) (combine_max end_date).

(** [ScheduleClient._clear_existing_shifts] *)
Definition _clear_existing_shifts (schedule_id : Z) (start_date end_date : Z)
    (d : database) : result Z * database :=
  let shifts := filter (fun row => in_window schedule_id start_date end_date row = true)
                       (session d) in
  let d := {| committed := committed d;
              session :=
                filter (fun row => in_window schedule_id start_date end_date row = false)
                       (session d);
              commit_faults := commit_faults d |} in
  let '(r, d) := session_commit d in
  (_ ← r; Return (Z.of_nat (length shifts)), d).

(** The rows [_save_shifts_to_db] adds: one per assignee of each shift with
    assignees; an assignee whose row cannot be built (a shift without
    [start_time] or [end_time]) is skipped by the inner [except]. *)
Definition rows_to_save (h : heap) (schedule_id : Z) (shifts : list nat) : list Row :=
  flat_map (fun shift =>
    flat_map (fun staff_id =>
      match shift_attr h shift start_time, shift_attr h shift end_time with
      | Some s, Some e => [mk_Row schedule_id staff_id s e]
      | _, _ => []
      end) (default [] (assigned_staff h !! shift))) shifts.

(** [ScheduleClient._save_shifts_to_db] *)
Definition _save_shifts_to_db (schedule_id : Z) (shifts : list nat) : M Z := fun w =>
  let rows := rows_to_save (objects w) schedule_id shifts in
  let shifts_created := Z.of_nat (length rows) in
  let d := foldl (fun d row => session_add row d) (db w) rows in
  match session_commit d with
  | (Return _, d) => (Return shifts_created, {| db := d; objects := objects w |})
  | (Raise e, d) => (Raise e, {| db := session_rollback d; objects := objects w |})
  | (OutOfFuel, d) => (OutOfFuel, {| db := d; objects := objects w |})
  end.

(** The entries [_get_assignments_list] appends for one shift: none when
    [assigned_staff] is absent or empty; otherwise [shift.start_time] and
    [shift.end_time] are read for the first assignee, and an absent attribute
    raises [AttributeError].  The shifts [auto_populate] passes are
    [MockShift] objects. *)
Definition assignments_of (h : heap) (shift : nat) : result (list assignment) :=
  match default [] (assigned_staff h !! shift) with
  | [] => Return []
  | staff =>
      match shift_attr h shift start_time, shift_attr h shift end_time with
      | Some s, Some e =>
          Return (map (fun staff_id => mk_assignment staff_id (Some s) (Some e)) staff)
      | None, _ =>
          Raise (AttributeError "'MockShift' object has no attribute 'start_time'")
      | Some _, None =>
          Raise (AttributeError "'MockShift' object has no attribute 'end_time'")
      end
  end.

(** [ScheduleClient._get_assignments_list] *)
Fixpoint _get_assignments_list (h : heap) (shifts : list nat) : result (list assignment) :=
  match shifts with
  | [] => Return []
  | shift :: rest =>
      entries ← assignments_of h shift;
      more ← _get_assignments_list h rest;
      Return (entries ++ more)%list
  end.

(** The body of the [try] of [auto_populate]. *)
Definition populate (schedule_id : Z) (strategy_name : string) (staff_list : list Z)
    (start_date end_date : Z) (shifts_per_day : Z) (shift_type : string)
    : M populate_outcome :=
  deleted_count ← on_db (_clear_existing_shifts schedule_id start_date end_date);
  objs ← lift (Catalog._generate_shifts_for_period schedule_id start_date end_date
                                                   shifts_per_day shift_type);
  shifts ← on_heap (fun h => let '(refs, h') := alloc_shifts h objs in (Return refs, h'));
  result ← on_heap (fun h =>
    ScheduleClient_generate_schedule h strategy_name staff_list shifts start_date end_date);
  shifts_created ← _save_shifts_to_db schedule_id shifts;
  let summary := default ∅ (res_summary result) in
  _ ← lift (_validate_schedule_results summary (Z.of_nat (length staff_list)));
  assignments ← read_heap (fun h => _get_assignments_list h shifts);
  mret (Success schedule_id shifts_created deleted_count
                (default 0%Q (dict_get (res_scores result) "score"))
                summary assignments strategy_name).

(** [ScheduleClient.auto_populate] *)
Definition auto_populate (admin_id schedule_id : Z) (strategy_name : string)
    (staff_list : list Z) (start_date end_date : Z) (shifts_per_day : Z)
    (shift_type : string) : M populate_outcome :=
  if decide (staff_list = []) then raise (ValueError "Staff list cannot be empty")
  else if start_date >? end_date then raise (ValueError "Start date must be before end date")
  else if shifts_per_day <=? 0 then raise (ValueError "Shifts per day must be positive")
  else
    try_except
      (populate schedule_id strategy_name staff_list start_date end_date
                shifts_per_day shift_type)
      (fun e =>
         _ ← on_db (fun d => (Return (), session_rollback d));
         mret (Failure ("Failed to auto-generate schedule: " ++ exn_str e))).

End Registries.
(** ** The catalog as the specification words it *)

Module CatalogSpec.

(** The datetime [hours] whole hours after midnight of [day]; past hour 23
    it falls on a later day. *)
Definition at_hour (day hours : Z) : datetime :=
  mk_datetime (day + hours / 24) (hours mod 24) 0 0 0.

(** The time-slicing rule: "day" starts at hour [8 + shift_num] and lasts 8
    hours; "night" starts at hour [22 + shift_num], wraps past midnight and
    lasts 8 hours; any other type gives 08:00-16:00 for [shift_num = 0] and
    16:00-23:59 otherwise. *)
Definition slot (shift_type : string) (day shift_num : Z) : Catalog.shift_times :=
  if String.eqb shift_type "day" then
    Catalog.mk_times (at_hour day (8 + shift_num)) (at_hour day (8 + shift_num + 8))
  else if String.eqb shift_type "night" then
    Catalog.mk_times (at_hour day (22 + shift_num)) (at_hour day (22 + shift_num + 8))
  else if shift_num =? 0 then
    Catalog.mk_times (mk_datetime day 8 0 0 0) (mk_datetime day 16 0 0 0)
  else
    Catalog.mk_times (mk_datetime day 16 0 0 0) (mk_datetime day 23 59 0 0).

Definition slot_shift (shift_type : string) (day shift_num : Z) : Shift :=
  let t := slot shift_type day shift_num in
  Catalog.MockShift shift_type (Catalog.st_start t) (Catalog.st_end t).

(** The days of [[start_date, end_date]], in order. *)
Definition days (start_date end_date : Z) : list Z :=
  map (fun i => start_date + i) (Catalog.range (end_date - start_date + 1)).

(** One shift for each day of the range and each [shift_num] of
    [[0, shifts_per_day)], day by day. *)
Definition catalog (start_date end_date shifts_per_day : Z) (shift_type : string)
    : list Shift :=
  flat_map (fun day => map (slot_shift shift_type day) (Catalog.range shifts_per_day))
           (days start_date end_date).

(** The range of parameters in which every hour the rule computes is an
    hour of the day and every date is a date. *)
Definition in_range (start_date end_date shifts_per_day : Z) (shift_type : string) : Prop :=
  1 <= start_date /\ end_date < MAXORDINAL
  /\ (shift_type = "day" -> shifts_per_day <= 8)
  /\ (shift_type = "night" -> shifts_per_day <= 2).

End CatalogSpec.

(** ** Eligibility as the specification words it *)

(** A shift is workable for a staff member with the given unavailable
    weekdays and skills: it has a start time, its weekday is not unavailable,
    and no required skill is missing. *)
Definition workable (h : heap) (shift : nat) (unavailable : list Z)
    (staff_skills : list string) : Prop :=
  exists t, shift_attr h shift start_time = Some t
            /\ (weekday t ∉ unavailable)
            /\ forall skill, skill ∈ default [] (shift_attr h shift required_skills) ->
                             skill ∈ staff_skills.

(** The preference dict a lookup leaves [DayNightDistributeStrategy] with. *)
Definition prefs_of_lookup (l : pref_lookup) : Prefs :=
  match l with
  | PrefReturns r => prefs_or r empty_prefs
  | PrefRaises => empty_prefs
  end.

(** ** The unknown-strategy contract *)

(** Every name of [names] is printed in [msg]. *)
Definition lists_names (msg : string) (names : list string) : bool :=
  forallb (fun name => occurs (repr_str name) msg) names.

(** A call failed with an "unknown strategy" error whose message lists the
    registered names, and left the object graph as it was. *)
Definition unknown_strategy_failure (names : list string) (h : heap)
    (run : result ScheduleResult * heap) : Prop :=
  exists msg, run = (Raise (ValueError msg), h)
              /\ occurs "Unknown strategy" msg = true
              /\ lists_names msg names = true.

(** The number of assignments a staff member holds: [len(assigned_shifts)]. *)
Definition shift_count (h : heap) (person : Z) : nat :=
  length (default [] (assigned_shifts h !! person)).

(** ** Balance conditions, as the specification words them *)

Definition too_unbalanced (summary : gmap string Q) : Prop :=
  (20 < summary_get summary "max_hours" - summary_get summary "min_hours")%Q.

Definition not_enough_shifts (summary : gmap string Q) (staff_count : Z) : Prop :=
  (summary_get summary "total_shifts_assigned" < inject_Z staff_count)%Q.

Definition too_uneven (summary : gmap string Q) : Prop :=
  (summary_get summary "average_hours_per_staff" * (3 # 2) < summary_get summary "max_hours")%Q.

(** Balance validation fails exactly when one of the three conditions
    holds. *)
Definition fails_exactly_when_worded (summary : gmap string Q) (staff_count : Z) : Prop :=
  raises (_validate_schedule_results summary staff_count) = true
  <-> too_unbalanced summary \/ not_enough_shifts summary staff_count \/ too_uneven summary.

(** ** Balance conditions, in the arithmetic of the code *)

(** The difference of the two doubles, rounded, exceeds 20. *)
Definition spread_exceeds_20 (summary : gmap string Q) : Prop :=
  (20 < float_sub (summary_float summary "max_hours") (summary_float summary "min_hours"))%Q.

(** The maximum exceeds the product of the average and 1.5, rounded. *)
Definition exceeds_rounded_average (summary : gmap string Q) : Prop :=
  (float_mul (summary_float summary "average_hours_per_staff") (3 # 2)
   < summary_float summary "max_hours")%Q.

(** ** Outcomes of [auto_populate] *)

(** The inputs [auto_populate] rejects before its [try]. *)
Definition rejected (staff_list : list Z) (start_date end_date shifts_per_day : Z) : Prop :=
  staff_list = [] \/ end_date < start_date \/ shifts_per_day <= 0.

(** A run that did not report success. *)
Definition failed (run : result populate_outcome * world) : Prop :=
  match run.1 with
  | Return o => success o = false
  | _ => True
  end.

(** What is asked of a failing run started in [w]: a structured failure
    outcome, and the persisted rows as they were. *)
Definition failing_run_contract (w : world) (run : result populate_outcome * world)
    : Prop :=
  (exists msg, run.1 = Return (Failure msg))
  /\ committed (db run.2) = committed (db w).

(** ** Invariants of the strategies *)

(** Two heaps that the reset maps to the same heap. *)
Definition reset_equal (staff : list Z) (shifts : list nat) (h h' : heap) : Prop :=
  _reset_assignments h' staff shifts = _reset_assignments h staff shifts.

(** Both loops of [DayNightDistributeStrategy] keep the pool within the
    roster and write only what the reset forgets. *)
Definition pool_ok (staff : list Z) (shifts : list nat) (h0 : heap) (st : heap * list Z)
    : Prop :=
  reset_equal staff shifts h0 st.1 /\ forall person, person ∈ st.2 -> person ∈ staff.

(** Whoever is in the pool is neutral, on the roster and without an
    assignment; no neutral roster member holds two. *)
Definition pool_inv (get_preferences : Z -> pref_lookup) (staff : list Z)
    (st : heap * list Z) : Prop :=
  NoDup st.2
  /\ (forall p, p ∈ st.2 ->
        DayNightDistributeStrategy.categorize get_preferences p
        = DayNightDistributeStrategy.NeutralStaff
        /\ p ∈ staff /\ shift_count st.1 p = O)
  /\ (forall p, p ∈ staff ->
        DayNightDistributeStrategy.categorize get_preferences p
        = DayNightDistributeStrategy.NeutralStaff ->
        (shift_count st.1 p <= 1)%nat).

(** Every roster member with a non-negative cap is within it. *)
Definition within_cap (get_preferences : Z -> pref_lookup) (staff : list Z) (h : heap)
    : Prop :=
  forall p, p ∈ staff ->
    (0 <= DayNightDistributeStrategy.max_hours_of get_preferences p)%Q ->
    (hours_of h p <= DayNightDistributeStrategy.max_hours_of get_preferences p)%Q.

(** ** Concrete rosters and shifts *)

Module Examples.

(** Monday 2024-01-01. *)
Definition day0 : Z := 738886.

Definition empty_heap : heap := mk_heap ∅ 0 ∅ ∅ ∅.

Definition empty_db : database := mk_database [] [] [].

(** A provider without any record. *)
Definition no_prefs : Z -> pref_lookup := fun _ => PrefReturns None.

(** A strategy class standing in for a module that is not among the sources. *)
Definition absent_strategy : strategy :=
  fun h _ _ _ _ => (inl (ValueError "strategy not available"), h).

Definition at_time (d hour minute : Z) : datetime := mk_datetime d hour minute 0 0.

(** A shift for one person, without skill requirements. *)
Definition plain_shift (s e : datetime) : Shift :=
  mk_Shift (Some s) (Some e) (Some 1) None (Some []) None.

(** Four shifts of twelve hours, 08:00-20:00, on four consecutive days. *)
Definition long_shifts_heap : heap :=
  (alloc_shifts empty_heap
     (map (fun i => plain_shift (at_time (day0 + i) 8 0) (at_time (day0 + i) 20 0))
          [0; 1; 2; 3])).2.

(** One shift 08:00-16:00. *)
Definition morning_shift_heap : heap :=
  (alloc_shifts empty_heap [plain_shift (at_time day0 8 0) (at_time day0 16 0)]).2.

(** Staff 1 prefers mornings, staff 2 prefers nights. *)
Definition day_and_night_prefs : Z -> pref_lookup := fun person =>
  if person =? 1 then PrefReturns (Some (mk_Prefs (Some ["morning"]) None None None))
  else if person =? 2 then PrefReturns (Some (mk_Prefs (Some ["night"]) None None None))
  else PrefReturns None.

(** The two shifts of a one-day "mixed" catalog. *)
Definition mixed_day_heap : heap :=
  (alloc_shifts empty_heap
     [plain_shift (at_time day0 8 0) (at_time day0 16 0);
      plain_shift (at_time day0 16 0) (at_time day0 23 59)]).2.

(** A persisted shift of schedule 1 inside the window of [day0]. *)
Definition old_row : Row := mk_Row 1 7 (at_time day0 9 0) (at_time day0 17 0).

Definition world_with_old_row : world :=
  mk_world (mk_database [old_row] [old_row] []) empty_heap.

Definition auto_populate_example (strategy_name : string) (staff_list : list Z)
    (shifts_per_day : Z) (shift_type : string) (w : world)
    : result populate_outcome * world :=
  auto_populate no_prefs absent_strategy absent_strategy
                0 1 strategy_name staff_list day0 day0 shifts_per_day shift_type w.

(** The summary of scenario D: one member at 0 hours, one at 24. *)
(** A maximum of 16.0 hours and an average of 10.666666666666666, the
    double [6004799503160661 / 2^49]: the exact product of the average and 1.5
    is half a unit in the last place below 16 and rounds to 16.0. *)
Definition rounding_summary : gmap string Q :=
  <["max_hours" := 16%Q]>
  (<["min_hours" := 10%Q]>
  (<["average_hours_per_staff" := (6004799503160661 # 562949953421312)%Q]>
  (<["total_shifts_assigned" := 3%Q]> ∅))).

Definition scenario_d : gmap string Q :=
  <["max_hours" := 24%Q]> (<["min_hours" := 0%Q]> ∅).

Definition client_generate_example (strategy_name : string)
    : result ScheduleResult * heap :=
  ScheduleClient_generate_schedule no_prefs absent_strategy absent_strategy
    empty_heap strategy_name [] [] day0 day0.

End Examples.

(** ** The claims whose wording the code does not meet, as worded *)

(** The catalog of a period follows the time-slicing rule. *)
Definition catalog_follows_rule (schedule_id start_date end_date shifts_per_day : Z)
    (shift_type : string) : Prop :=
  Catalog._generate_shifts_for_period schedule_id start_date end_date shifts_per_day shift_type
  = Return (CatalogSpec.catalog start_date end_date shifts_per_day shift_type).

(** No neutral member of the roster holds more than one assignment after a
    run of [DayNightDistributeStrategy]. *)
Definition neutral_at_most_once (get_preferences : Z -> pref_lookup) (h : heap)
    (staff : list Z) (shifts : list nat) (start_date end_date : Z) : Prop :=
  forall p,
    p ∈ DayNightDistributeStrategy.staff_of get_preferences
          DayNightDistributeStrategy.NeutralStaff staff ->
    (shift_count (DayNightDistributeStrategy.generate_schedule
                    get_preferences h staff shifts start_date end_date).2 p <= 1)%nat.


(** ** Further vocabulary for the properties of the code *)

(** The time fields of a [datetime] are those of a time of day. *)
Definition valid_time (t : datetime) : Prop :=
  0 <= dt_hour t <= 23 /\ 0 <= dt_minute t <= 59
  /\ 0 <= dt_second t <= 59 /\ 0 <= dt_microsecond t <= 999999.

(** A catalog shift of type [shift_type] for the window
    [[start_date, end_date]]: a [MockShift] that starts on a day of the window
    and ends later, at most 8 hours later. *)
Definition catalog_shift (shift_type : string) (start_date end_date : Z) (s : Shift)
    : Prop :=
  exists a b,
    s = Catalog.MockShift shift_type a b
    /\ start_date <= dt_ordinal a <= end_date
    /\ valid_time a /\ valid_time b
    /\ micros a < micros b
    /\ (hours_between a b <= 8)%Q.

(** A persisted row belongs to the schedule and starts on a day of the
    window. *)
Definition row_in_days (schedule_id start_date end_date : Z) (row : Row) : Prop :=
  row_schedule_id row = schedule_id
  /\ start_date <= dt_ordinal (row_start row) <= end_date.

(** The row [_save_shifts_to_db] builds for an entry of
    [_get_assignments_list], when the entry has both times. *)
Definition row_of_assignment (schedule_id : Z) (a : assignment) : option Row :=
  match a_start_time a, a_end_time a with
  | Some s, Some e => Some (mk_Row schedule_id (a_staff_id a) s e)
  | _, _ => None
  end.

(** [Scheduler.get_available_strategies] *)
Definition Scheduler_get_available_strategies (get_preferences : Z -> pref_lookup)
    (EvenDistributeStrategy MinimizeDaysStrategy ShiftTypeStrategy : strategy)
    : list string :=
  dict_keys (Scheduler_strategies get_preferences EvenDistributeStrategy
               MinimizeDaysStrategy ShiftTypeStrategy).

(** [ScheduleClient.get_available_strategies] *)
Definition ScheduleClient_get_available_strategies (get_preferences : Z -> pref_lookup)
    (EvenDistributeStrategy MinimizeDaysStrategy : strategy) : list string :=
  dict_keys (ScheduleClient_strategies get_preferences EvenDistributeStrategy
               MinimizeDaysStrategy).


(** Further concrete runs. *)
Module MoreExamples.

(** Two members without preference records, one "mixed" day, schedule 1. *)
Definition success_run : result populate_outcome * world :=
  Examples.auto_populate_example "preference-based" [1; 2] 2 "mixed"
    Examples.world_with_old_row.

(** The same call with a strategy name that is not registered. *)
Definition failure_run : result populate_outcome * world :=
  Examples.auto_populate_example "nope" [1] 2 "mixed" Examples.world_with_old_row.

(** A persisted shift of schedule 2 inside the window of [day0]. *)
Definition other_row : Row :=
  mk_Row 2 7 (Examples.at_time Examples.day0 9 0) (Examples.at_time Examples.day0 17 0).

Definition world_with_two_schedules : world :=
  mk_world (mk_database [Examples.old_row; other_row] [Examples.old_row; other_row] [])
           Examples.empty_heap.

(** The object graph after [DayNightDistributeStrategy] on the "mixed" day,
    staff 1 preferring mornings and staff 2 nights. *)
Definition day_night_run : heap :=
  (DayNightDistributeStrategy.generate_schedule Examples.day_and_night_prefs
     Examples.mixed_day_heap [1; 2] [0; 1]%nat Examples.day0 Examples.day0).2.

(** Every member has a cap of 2 hours. *)
Definition cap_two_prefs : Z -> pref_lookup := fun _ =>
  PrefReturns (Some (mk_Prefs None None (Some 2%Q) None)).

(** Seven shifts of twenty minutes, 08:00-08:20, on seven consecutive days. *)
Definition twenty_minute_heap : heap :=
  (alloc_shifts Examples.empty_heap
     (map (fun i => Examples.plain_shift (Examples.at_time (Examples.day0 + i) 8 0)
                                         (Examples.at_time (Examples.day0 + i) 8 20))
          [0; 1; 2; 3; 4; 5; 6])).2.

(** The object graph after [PreferenceBasedStrategy] on these shifts and one
    member: six shifts add up to 1.9999999999999998 hours, below the cap, and
    the seventh is assigned as well. *)
Definition preference_based_run : heap :=
  (PreferenceBasedStrategy.generate_schedule cap_two_prefs twenty_minute_heap [1]
     [0; 1; 2; 3; 4; 5; 6]%nat Examples.day0 (Examples.day0 + 6)).2.

Definition loaded_prefs : gmap Z Prefs :=
  PreferenceBasedStrategy.load_preferences Examples.day_and_night_prefs [1; 2].

(** One fill of the morning shift of the "mixed" day by either strategy. *)
Definition preference_based_fill : heap :=
  PreferenceBasedStrategy.fill_shift [1; 2] loaded_prefs Examples.mixed_day_heap 0%nat.

Definition day_night_fill : heap * list Z :=
  DayNightDistributeStrategy.fill_shift Examples.no_prefs []
    (Examples.mixed_day_heap, [1; 2]) 0%nat.

End MoreExamples.


(** ** The assignments a strategy run makes *)

(** [shift.assigned_staff] and [staff.assigned_shifts], absent read as empty. *)
Definition assigned_to (h : heap) (shift : nat) : list Z :=
  default [] (assigned_staff h !! shift).

Definition shifts_of (h : heap) (person : Z) : list nat :=
  default [] (assigned_shifts h !! person).

(** [getattr(shift, 'required_staff', 1)] *)
Definition capacity (h : heap) (shift : nat) : Z :=
  default 1 (shift_attr h shift required_staff).

(** The hours of a list of shifts, added up in order from 0 as
    [total_hours += duration] adds them. *)
Definition hours_sum (h : heap) (l : list nat) : Q :=
  foldl float_add 0%Q (map (DayNightDistributeStrategy._get_shift_duration h) l).

(** [h'] comes from [h] by a sequence of [_assign_shift] calls, each made in
    a heap where the guard [G] holds of the member and the shift. *)
Inductive assigns (G : heap -> Z -> nat -> Prop) : heap -> heap -> Prop :=
| assigns_none h : assigns G h h
| assigns_more h h' person shift :
    assigns G h h' -> G h' person shift ->
    assigns G h (DayNightDistributeStrategy._assign_shift h' person shift).

(** What holds whenever either strategy assigns: the member is on the roster,
    the shift is on the list and has room left, and [can_work] accepts the
    pair. *)
Definition guard_basic (staff : list Z) (shifts : list nat)
    (can_work : heap -> Z -> nat -> bool) (h : heap) (person : Z) (shift : nat) : Prop :=
  person ∈ staff /\ shift ∈ shifts /\ can_work h person shift = true
  /\ Z.of_nat (length (assigned_to h shift)) < capacity h shift.

(** The cap [PreferenceBasedStrategy.generate_schedule] reads for a member. *)
Definition preference_based_cap (get_preferences : Z -> pref_lookup) (staff : list Z)
    (person : Z) : Q :=
  default 40%Q
    (max_hours_per_week
       (default empty_prefs
          (PreferenceBasedStrategy.load_preferences get_preferences staff !! person))).

(** The guard of [PreferenceBasedStrategy]: on a roster without repetition,
    the member is under the cap when assigned. *)
Definition guard_preference_based (get_preferences : Z -> pref_lookup)
    (staff : list Z) (shifts : list nat) (h : heap) (person : Z) (shift : nat) : Prop :=
  guard_basic staff shifts
    (fun h person shift =>
       PreferenceBasedStrategy._can_work_shift h person shift
         (PreferenceBasedStrategy.load_preferences get_preferences staff))
    h person shift
  /\ (NoDup staff ->
      (hours_of h person < preference_based_cap get_preferences staff person)%Q).

(** The guard of [DayNightDistributeStrategy]: the shift fits under the cap,
    day-preferring members meet day-bucket shifts only and night-preferring
    members night-bucket shifts only. *)
Definition guard_day_night (get_preferences : Z -> pref_lookup)
    (staff : list Z) (shifts : list nat) (h : heap) (person : Z) (shift : nat) : Prop :=
  guard_basic staff shifts (DayNightDistributeStrategy._can_work_shift get_preferences)
    h person shift
  /\ (float_add (hours_of h person)
                 (DayNightDistributeStrategy._get_shift_duration h shift)
      <= DayNightDistributeStrategy.max_hours_of get_preferences person)%Q
  /\ (DayNightDistributeStrategy.categorize get_preferences person
      = DayNightDistributeStrategy.DayStaff ->
      DayNightDistributeStrategy.in_day_bucket h shift = true)
  /\ (DayNightDistributeStrategy.categorize get_preferences person
      = DayNightDistributeStrategy.NightStaff ->
      DayNightDistributeStrategy.in_day_bucket h shift = false).

(** A pool of neutral roster members. *)
Definition neutral_pool (get_preferences : Z -> pref_lookup) (staff pool : list Z) : Prop :=
  forall p, p ∈ pool ->
    p ∈ staff /\ DayNightDistributeStrategy.categorize get_preferences p
                 = DayNightDistributeStrategy.NeutralStaff.

(** A member a pass over the day bucket ([b = true]) or the night bucket
    ([b = false]) may assign: of the roster, and not of the opposite
    preference. *)
Definition fits (get_preferences : Z -> pref_lookup) (staff : list Z) (b : bool) (p : Z)
    : Prop :=
  p ∈ staff
  /\ (DayNightDistributeStrategy.categorize get_preferences p
      = DayNightDistributeStrategy.DayStaff -> b = true)
  /\ (DayNightDistributeStrategy.categorize get_preferences p
      = DayNightDistributeStrategy.NightStaff -> b = false).

(** * Properties *)

(** ** Floats *)

(** [round64] on the numbers the examples meet: [1/3] and [0.1] as doubles,
    an integer above [2^53], the tie of [10.666666666666666 * 1.5], the sum
    [38.40000000000001 + 1.6] and the product [0.7 * 1.5]. *)
Lemma round64_samples :
  round64 (1 # 3) = (6004799503160661 # 18014398509481984)%Q
  /\ round64 (1 # 10) = (3602879701896397 # 36028797018963968)%Q
  /\ round64 9007199254740993 = 9007199254740992%Q
  /\ float_mul (6004799503160661 # 562949953421312) (3 # 2) = 16%Q
  /\ float_add (5404319552844597 # 140737488355328) (8 # 5)
     = (2814749767106561 # 70368744177664)%Q
  /\ float_mul (7 # 10) (3 # 2) = (1182194902184755 # 1125899906842624)%Q.
Proof. vm_compute. repeat split; reflexivity. Qed.

(** ** Catalog generation *)

Section CatalogFacts.
Import Catalog CatalogSpec.

Lemma range_spec n x : x ∈ range n <-> 0 <= x < n.
Proof.
  unfold range. rewrite list_elem_of_fmap. split.
  - intros (k & -> & Hk). apply elem_of_seq in Hk. lia.
  - intros H. exists (Z.to_nat x). split; [lia|]. apply elem_of_seq. lia.
Qed.

Lemma replace_hour_ok dt h :
  0 <= h <= 23 ->
  replace_hour dt h
  = Return (mk_datetime (dt_ordinal dt) h (dt_minute dt) (dt_second dt) (dt_microsecond dt)).
Proof. intros H. unfold replace_hour. by rewrite decide_True. Qed.

Lemma replace_hour_bad dt h :
  ~ 0 <= h <= 23 -> replace_hour dt h = Raise (ValueError "hour must be in 0..23").
Proof. intros H. unfold replace_hour. by rewrite decide_False. Qed.

Lemma date_add_days_ok d n :
  1 <= d + n <= MAXORDINAL -> date_add_days d n = Return (d + n).
Proof. intros H. unfold date_add_days. by rewrite decide_True. Qed.

(** No branch of [_get_shift_times] loops. *)
Lemma get_shift_times_completes date n spd ty :
  _get_shift_times date n spd ty <> OutOfFuel.
Proof.
  unfold _get_shift_times, replace_hour, replace_hour_minute, date_add_days.
  repeat (case_match || case_decide); simpl;
    repeat (case_match || case_decide); simpl; congruence.
Qed.

(** In range, the code computes the slot of the rule. *)
Lemma get_shift_times_slot date n spd ty :
  1 <= date < MAXORDINAL -> 0 <= n ->
  (ty = "day" -> n < 8) -> (ty = "night" -> n < 2) ->
  _get_shift_times date n spd ty = Return (slot ty date n).
Proof.
  intros Hd Hn Hday Hnight. unfold _get_shift_times, slot.
  destruct (String.eqb_spec ty "day") as [->|Hne1].
  - specialize (Hday eq_refl).
    rewrite !replace_hour_ok by lia. simpl. unfold at_hour, combine_min. simpl.
    rewrite !Z.div_small, !Z.mod_small by lia. by rewrite !Z.add_0_r.
  - destruct (String.eqb_spec ty "night") as [->|Hne2].
    + specialize (Hnight eq_refl).
      rewrite date_add_days_ok by lia. simpl.
      rewrite (replace_hour_ok _ (22 + n)) by lia. simpl.
      rewrite replace_hour_ok
        by (pose proof (Z.mod_pos_bound (22 + n + 8) 24 eq_refl); lia).
      simpl.
      unfold at_hour, combine_min. simpl.
      rewrite (Z.div_small (22 + n)), (Z.mod_small (22 + n)) by lia.
      replace (22 + n + 8) with ((6 + n) + 1 * 24) by lia.
      rewrite Z.div_add, Z.mod_add by lia.
      rewrite (Z.div_small (6 + n)), (Z.mod_small (6 + n)) by lia.
      by rewrite Z.add_0_r.
    + destruct (n =? 0); reflexivity.
Qed.

Lemma get_shift_times_night_hour date n spd :
  2 <= n -> raises (_get_shift_times date n spd "night") = true.
Proof.
  intros Hn. unfold _get_shift_times. simpl.
  unfold date_add_days. case_decide; simpl; [|done].
  by rewrite (replace_hour_bad _ (22 + n)) by lia.
Qed.

Lemma get_shift_times_night_defined date n spd t :
  _get_shift_times date n spd "night" = Return t -> -22 <= n <= 1.
Proof.
  intros H. unfold _get_shift_times in H. simpl in H.
  unfold date_add_days in H. case_decide; simpl in H; [|done].
  destruct (decide (0 <= 22 + n <= 23)) as [|Hbad]; [lia|].
  by rewrite (replace_hour_bad _ (22 + n)) in H.
Qed.

Lemma day_loop_slots date spd ty nums acc :
  (forall n, n ∈ nums -> _get_shift_times date n spd ty = Return (slot ty date n)) ->
  day_loop date spd ty nums acc = Return (acc ++ map (slot_shift ty date) nums)%list.
Proof.
  revert acc. induction nums as [|n nums IH]; intros acc H; simpl.
  - by rewrite app_nil_r.
  - rewrite (H n) by left. simpl. rewrite IH.
    + by rewrite <- app_assoc.
    + intros m Hm. apply H. by right.
Qed.

Lemma day_loop_raises date spd ty nums acc n :
  n ∈ nums -> raises (_get_shift_times date n spd ty) = true ->
  raises (day_loop date spd ty nums acc) = true.
Proof.
  revert acc. induction nums as [|m nums IH]; intros acc Hin Hr.
  - by apply elem_of_nil in Hin.
  - simpl. destruct (_get_shift_times date m spd ty) as [t| |] eqn:E; simpl.
    + apply elem_of_cons in Hin as [->|Hin]; [by rewrite E in Hr|]. by apply IH.
    + done.
    + by apply get_shift_times_completes in E.
Qed.

Lemma period_loop_catalog fuel cur end_date spd ty acc :
  1 <= cur -> end_date < MAXORDINAL ->
  (ty = "day" -> spd <= 8) -> (ty = "night" -> spd <= 2) ->
(Z.to_nat (end_date - cur + 1) <= fuel)%nat ->
  period_loop fuel cur end_date spd ty acc
  = Return (acc ++ catalog cur end_date spd ty)%list.
Proof.
  revert cur acc. induction fuel as [|fuel IH]; intros cur acc Hc He Hday Hnight Hf.
  - simpl. rewrite decide_False by lia.
    unfold catalog, days, range. replace (Z.to_nat (end_date - cur + 1)) with O by lia.
    simpl. by rewrite app_nil_r.
  - simpl. case_decide as Hle.
    + rewrite day_loop_slots.
      2:{ intros n Hn. apply range_spec in Hn.
          apply get_shift_times_slot;
            [lia | lia | intros E; specialize (Hday E); lia
            | intros E; specialize (Hnight E); lia]. }
      simpl. rewrite date_add_days_ok by lia. simpl.
      rewrite IH by first [assumption | lia]. f_equal. rewrite <- app_assoc. f_equal.
      unfold catalog, days, range.
      replace (Z.to_nat (end_date - cur + 1))
        with (S (Z.to_nat (end_date - (cur + 1) + 1))) by lia.
      simpl. rewrite Z.add_0_r. f_equal.
      rewrite <- seq_shift, !map_map. f_equal.
      apply map_ext. intros a. lia.
    + unfold catalog, days, range. replace (Z.to_nat (end_date - cur + 1)) with O by lia.
      simpl. by rewrite app_nil_r.
Qed.

End CatalogFacts.

Section CatalogTermination.
Import Catalog.

Lemma day_loop_completes date spd ty nums acc :
  day_loop date spd ty nums acc <> OutOfFuel.
Proof.
  revert acc. induction nums as [|n nums IH]; intros acc; simpl; [done|].
  destruct (_get_shift_times date n spd ty) eqn:E; simpl; [apply IH|done|].
  by apply get_shift_times_completes in E.
Qed.

(** One unit of fuel per day of the range is enough for the loop. *)
Lemma period_loop_completes fuel cur end_date spd ty acc :
  (Z.to_nat (end_date - cur + 1) <= fuel)%nat ->
  period_loop fuel cur end_date spd ty acc <> OutOfFuel.
Proof.
  revert cur acc. induction fuel as [|fuel IH]; intros cur acc Hf; simpl.
  - by rewrite decide_False by lia.
  - case_decide; [|done].
    destruct (day_loop cur spd ty (range spd) acc) eqn:E; simpl; [|done|].
    + unfold date_add_days. case_decide; simpl; [|done]. apply IH. lia.
    + by apply day_loop_completes in E.
Qed.

Lemma generate_shifts_completes sid start_date end_date spd ty :
  _generate_shifts_for_period sid start_date end_date spd ty <> OutOfFuel.
Proof. apply period_loop_completes. unfold period_fuel. lia. Qed.

Lemma period_loop_first_day_raises fuel cur end_date spd ty acc :
  cur <= end_date -> fuel <> O ->
  raises (day_loop cur spd ty (range spd) acc) = true ->
  raises (period_loop fuel cur end_date spd ty acc) = true.
Proof.
  intros Hle Hf Hr. destruct fuel as [|fuel]; [done|]. simpl.
  rewrite decide_True by done.
  by destruct (day_loop cur spd ty (range spd) acc).
Qed.

Lemma generate_night_shifts_raises sid start_date end_date spd :
  start_date <= end_date -> 3 <= spd ->
  raises (_generate_shifts_for_period sid start_date end_date spd "night") = true.
Proof.
  intros Hle Hspd. apply period_loop_first_day_raises; [done|unfold period_fuel; lia|].
  apply (day_loop_raises _ _ _ _ _ 2).
  - apply range_spec. lia.
  - by apply get_shift_times_night_hour.
Qed.

End CatalogTermination.

Section ClientFacts.

Variable get_preferences : Z -> pref_lookup.
Variables EvenDistributeStrategy MinimizeDaysStrategy : strategy.

Local Notation "'run_populate'" :=
  (populate get_preferences EvenDistributeStrategy MinimizeDaysStrategy).
Local Notation "'run_auto_populate'" :=
  (auto_populate get_preferences EvenDistributeStrategy MinimizeDaysStrategy).
Local Notation "'client_generate'" :=
  (ScheduleClient_generate_schedule get_preferences EvenDistributeStrategy
     MinimizeDaysStrategy).

Lemma call_completes s h staff shifts sd ed h' :
  call s h staff shifts sd ed <> (OutOfFuel, h').
Proof. unfold call. by destruct (s h staff shifts sd ed) as [[e|r] h1]. Qed.

Lemma client_generate_completes h name staff shifts sd ed h' :
  client_generate h name staff shifts sd ed <> (OutOfFuel, h').
Proof.
  unfold ScheduleClient_generate_schedule.
  destruct (dict_get _ name); [apply call_completes|done].
Qed.

Lemma session_commit_completes d d' : session_commit d <> (OutOfFuel, d').
Proof. unfold session_commit. by destruct (commit_faults d) as [|[] ?]. Qed.

Lemma validate_completes summary n : _validate_schedule_results summary n <> OutOfFuel.
Proof. unfold _validate_schedule_results. by repeat case_match. Qed.

Ltac no_fuel_needed :=
  match goal with
  | E : _ = (OutOfFuel, _) |- _ =>
      first [ by apply session_commit_completes in E
            | by apply client_generate_completes in E ]
  | E : _ = OutOfFuel |- _ =>
      first [ by apply generate_shifts_completes in E
            | by apply validate_completes in E ]
  end.

Ltac open_populate :=
  unfold populate, mbind, M_bind, on_db, on_heap, lift, read_heap,
    mret, M_ret, _clear_existing_shifts, _save_shifts_to_db.

Lemma get_assignments_completes h shifts : _get_assignments_list h shifts <> OutOfFuel.
Proof.
  induction shifts as [|s shifts IH]; simpl; [done|].
  unfold assignments_of.
  destruct (default [] (assigned_staff h !! s)) as [|p l];
    [|destruct (shift_attr h s start_time), (shift_attr h s end_time)]; simpl; try done;
    by destruct (_get_assignments_list h shifts).
Qed.

(** The body of the [try] returns or raises. *)
Lemma populate_completes sid name staff sd ed spd ty w :
  (run_populate sid name staff sd ed spd ty w).1 <> OutOfFuel.
Proof.
  open_populate.
  destruct (session_commit _) as [[[]| |] d1] eqn:E1; simpl; try done; try no_fuel_needed.
  destruct (Catalog._generate_shifts_for_period sid sd ed spd ty) as [objs| |] eqn:E2;
    simpl; try done; try no_fuel_needed.
  destruct (alloc_shifts _ objs) as [refs h1]. simpl.
  destruct (client_generate h1 name staff refs sd ed) as [[r| |] h2] eqn:E3;
    simpl; try done; try no_fuel_needed.
  destruct (session_commit (foldl _ _ _)) as [[[]| |] d2] eqn:E4;
    simpl; try done; try no_fuel_needed.
  destruct (_validate_schedule_results _ _) as [[]| |] eqn:E5;
    simpl; try done; try no_fuel_needed.
  destruct (_get_assignments_list h2 refs) as [l| |] eqn:E6; simpl; try done.
  by apply get_assignments_completes in E6.
Qed.

(** A run of the [try] body that returns reports success. *)
Lemma populate_returns_success sid name staff sd ed spd ty w o w' :
  run_populate sid name staff sd ed spd ty w = (Return o, w') -> success o = true.
Proof.
  open_populate.
  destruct (session_commit _) as [[[]| |] d1] eqn:E1; simpl; try done.
  destruct (Catalog._generate_shifts_for_period sid sd ed spd ty) as [objs| |];
    simpl; try done.
  destruct (alloc_shifts _ objs) as [refs h1]. simpl.
  destruct (client_generate h1 name staff refs sd ed) as [[r| |] h2]; simpl; try done.
  destruct (session_commit (foldl _ _ _)) as [[[]| |] d2]; simpl; try done.
  destruct (_validate_schedule_results _ _) as [[]| |]; simpl; try done.
  destruct (_get_assignments_list h2 refs) as [l| |]; simpl; try done.
  by intros [= <- _].
Qed.

Lemma populate_night_raises sid name staff sd ed spd w :
  sd <= ed -> 3 <= spd ->
  raises (run_populate sid name staff sd ed spd "night" w).1 = true.
Proof.
  intros Hle Hspd.
  pose proof (generate_night_shifts_raises sid sd ed spd Hle Hspd) as Hr.
  open_populate.
  destruct (session_commit _) as [[[]| |] d1] eqn:E1; simpl; try done; try no_fuel_needed.
  by destruct (Catalog._generate_shifts_for_period sid sd ed spd "night").
Qed.

Lemma auto_populate_rejected aid sid name staff sd ed spd ty w :
  rejected staff sd ed spd ->
  exists msg, run_auto_populate aid sid name staff sd ed spd ty w
              = (Raise (ValueError msg), w).
Proof.
  intros Hrej. unfold auto_populate, raise.
  case_decide; [by eexists|].
  destruct (sd >? ed) eqn:E1; [by eexists|].
  destruct (spd <=? 0) eqn:E2; [by eexists|].
  destruct Hrej as [?|[?|?]]; [done|lia|lia].
Qed.

Lemma auto_populate_accepted aid sid name staff sd ed spd ty w :
  ~ rejected staff sd ed spd ->
  run_auto_populate aid sid name staff sd ed spd ty w
  = match run_populate sid name staff sd ed spd ty w with
    | (Raise e, w') =>
        (Return (Failure ("Failed to auto-generate schedule: " ++ exn_str e)),
         {| db := session_rollback (db w'); objects := objects w' |})
    | other => other
    end.
Proof.
  intros Hrej. unfold rejected in Hrej. unfold auto_populate.
  rewrite decide_False by tauto.
  destruct (sd >? ed) eqn:E1; [lia|].
  destruct (spd <=? 0) eqn:E2; [lia|].
  unfold try_except. by destruct (run_populate _ _ _ _ _ _ _ w) as [[o|e|] w'].
Qed.

End ClientFacts.

(** ** Balance validation *)

Lemma Qlt_bool_iff a b : Qlt_bool a b = true <-> (a < b)%Q.
Proof.
  unfold Qlt_bool. rewrite negb_true_iff. split.
  - intros H. apply Qnot_le_lt. intros Hle. apply Qle_bool_iff in Hle. congruence.
  - intros H. destruct (Qle_bool b a) eqn:E; [|done].
    apply Qle_bool_iff in E. by apply Qlt_not_le in H.
Qed.

Lemma Qlt_bool_false a b : Qlt_bool a b = false <-> ~ (a < b)%Q.
Proof. rewrite <- Qlt_bool_iff. by destruct (Qlt_bool a b). Qed.

Lemma validate_cases summary staff_count :
  summary <> ∅ ->
  (spread_exceeds_20 summary ->
   _validate_schedule_results summary staff_count
   = Raise (ValueError "Schedule too unbalanced - hour difference exceeds 20 hours"))
  /\ (~ spread_exceeds_20 summary -> not_enough_shifts summary staff_count ->
      _validate_schedule_results summary staff_count
      = Raise (ValueError "Not enough shifts assigned - some staff may have no shifts"))
  /\ (~ spread_exceeds_20 summary -> ~ not_enough_shifts summary staff_count ->
      exceeds_rounded_average summary ->
      _validate_schedule_results summary staff_count
      = Raise (ValueError "Schedule distribution too uneven"))
  /\ (~ spread_exceeds_20 summary -> ~ not_enough_shifts summary staff_count ->
      ~ exceeds_rounded_average summary ->
      _validate_schedule_results summary staff_count = Return ()).
Proof.
  intros Hne.
  unfold _validate_schedule_results, spread_exceeds_20, not_enough_shifts,
    exceeds_rounded_average.
  rewrite decide_False by done.
  repeat split.
  - intros HA. apply Qlt_bool_iff in HA. by rewrite HA.
  - intros HA HB. apply Qlt_bool_false in HA. apply Qlt_bool_iff in HB. by rewrite HA, HB.
  - intros HA HB HC. apply Qlt_bool_false in HA, HB. apply Qlt_bool_iff in HC.
    by rewrite HA, HB, HC.
  - intros HA HB HC. apply Qlt_bool_false in HA, HB, HC. by rewrite HA, HB, HC.
Qed.

(** ** Eligibility *)

Lemma forallb_elem_of {A} (f : A -> bool) (l : list A) :
  forallb f l = true <-> forall x, x ∈ l -> f x = true.
Proof.
  rewrite forallb_forall. split; intros H x Hx; apply H; by apply list_elem_of_In.
Qed.

Lemma preference_based_can_work h staff shift preferences :
  PreferenceBasedStrategy._can_work_shift h staff shift preferences = true
  <-> workable h shift
        (default [] (unavailable_days (default empty_prefs (preferences !! staff))))
        (default [] (skills (default empty_prefs (preferences !! staff)))).
Proof.
  unfold PreferenceBasedStrategy._can_work_shift, workable.
  destruct (shift_attr h shift start_time) as [t|]; [|split; [done|by intros (t & ? & _)]].
  set (unavailable := default [] (unavailable_days _)).
  set (staff_skills := default [] (skills _)).
  set (required := default [] (shift_attr h shift required_skills)).
  destruct (bool_decide_reflect (weekday t ∈ unavailable)) as [Hin|Hout].
  { split; [done|]. by intros (t' & [= <-] & Hn & _). }
  destruct (forallb _ required) eqn:Hall; simpl.
  - rewrite andb_false_r. split; [|done]. intros _. exists t. repeat split; [done|].
    intros skill Hs. eapply forallb_elem_of in Hall; [|exact Hs].
    by apply bool_decide_eq_true in Hall.
  - destruct (bool_decide_reflect (required = [])) as [Hnil|Hne]; simpl.
    + by rewrite Hnil in Hall.
    + split; [done|]. intros (t' & _ & _ & Hskills).
      assert (forallb (fun skill => bool_decide (skill ∈ staff_skills)) required = true)
        as Ht.
      { apply forallb_elem_of. intros x Hx. apply bool_decide_eq_true. by apply Hskills. }
      congruence.
Qed.

Lemma day_night_can_work get_preferences h staff shift :
  DayNightDistributeStrategy._can_work_shift get_preferences h staff shift = true
  <-> workable h shift
        (default [] (unavailable_days (prefs_of_lookup (get_preferences staff))))
        (default [] (skills (prefs_of_lookup (get_preferences staff)))).
Proof.
  unfold DayNightDistributeStrategy._can_work_shift, workable, prefs_of_lookup.
  destruct (shift_attr h shift start_time) as [t|]; [|split; [done|by intros (t & ? & _)]].
  rewrite andb_true_iff, negb_true_iff, bool_decide_eq_false, forallb_elem_of.
  split.
  - intros [Hn Hall]. exists t. repeat split; [done|].
    intros skill Hs. specialize (Hall skill Hs). by apply bool_decide_eq_true in Hall.
  - intros (t' & [= <-] & Hn & Hall). split; [done|].
    intros skill Hs. apply bool_decide_eq_true. by apply Hall.
Qed.

(** ** Unknown strategy names *)

Lemma dict_get_None {A} (d : list (string * A)) name :
  name ∉ dict_keys d -> dict_get d name = None.
Proof.
  induction d as [|[k v] d IH]; simpl; [done|].
  intros Hn. destruct (String.eqb_spec k name) as [->|Hne].
  - exfalso. apply Hn. left.
  - apply IH. intros Hin. apply Hn. by right.
Qed.

Lemma occurs_app_r needle a b : occurs needle b = true -> occurs needle (a ++ b) = true.
Proof.
  intros H. induction a as [|c a IH]; simpl; [done|].
  rewrite IH. apply orb_true_r.
Qed.

Lemma occurs_app_l needle a : occurs needle (needle ++ a) = true.
Proof.
  assert (String.prefix needle (needle ++ a) = true) as Hp.
  { induction needle as [|c n IH]; simpl; [by destruct a|].
    destruct (Ascii.ascii_dec c c); [done|congruence]. }
  destruct needle; simpl in *; [by destruct a|]. by rewrite Hp.
Qed.

(** ** Sorting and list helpers *)

Lemma insert_sorted_perm {A} (leb : A -> A -> bool) x l :
  insert_sorted leb x l ≡ₚ x :: l.
Proof.
  induction l as [|y l IH]; simpl; [done|].
  destruct (leb x y); [done|]. rewrite IH. apply Permutation_swap.
Qed.

Lemma sorted_by_perm {A} (leb : A -> A -> bool) l : sorted_by leb l ≡ₚ l.
Proof.
  unfold sorted_by. induction l as [|x l IH]; simpl; [done|].
  by rewrite insert_sorted_perm, IH.
Qed.

Lemma elem_of_sorted_by {A} (leb : A -> A -> bool) l x : x ∈ sorted_by leb l <-> x ∈ l.
Proof. by rewrite sorted_by_perm. Qed.

Lemma elem_of_take_inv {A} (l : list A) n x : x ∈ take n l -> x ∈ l.
Proof. intros H. eapply subseteq_take; eauto. Qed.

(** ** Re-running a strategy: what the reset forgets *)

Section ResetMaps.
Context `{Countable K} {V : Type}.
Implicit Types (m : gmap K V) (ks : list K).

Lemma foldl_insert_absorb ks k x v m :
  k ∈ ks ->
  foldl (fun m k => <[k := v]> m) (<[k := x]> m) ks = foldl (fun m k => <[k := v]> m) m ks.
Proof.
  revert m. induction ks as [|k' ks IH]; intros m Hin; [by apply elem_of_nil in Hin|].
  simpl. destruct (decide (k' = k)) as [->|Hne].
  - by rewrite insert_insert_eq.
  - rewrite insert_insert_ne by done. apply IH.
    apply elem_of_cons in Hin as [?|?]; [congruence|done].
Qed.

Lemma foldl_insert_twice ks' ks v m :
  (forall k, k ∈ ks' -> k ∈ ks) ->
  foldl (fun m k => <[k := v]> m) (foldl (fun m k => <[k := v]> m) m ks') ks
  = foldl (fun m k => <[k := v]> m) m ks.
Proof.
  revert m. induction ks' as [|k ks' IH]; intros m Hsub; simpl; [done|].
  rewrite IH by (intros k' Hk'; apply Hsub; by right).
  apply foldl_insert_absorb, Hsub. by left.
Qed.
End ResetMaps.

Section Rerun.
Variables (staff : list Z) (shifts : list nat).

Lemma reset_equal_refl h : reset_equal staff shifts h h.
Proof. done. Qed.

Lemma reset_equal_trans h1 h2 h3 :
  reset_equal staff shifts h1 h2 -> reset_equal staff shifts h2 h3 ->
  reset_equal staff shifts h1 h3.
Proof. unfold reset_equal. congruence. Qed.

Lemma reset_twice h : reset_equal staff shifts h (_reset_assignments h staff shifts).
Proof.
  unfold reset_equal, _reset_assignments. simpl.
  by rewrite !foldl_insert_twice.
Qed.

(** Writing the three assignment attributes of a listed staff member and a
    listed shift is forgotten by the reset. *)
Lemma reset_forgets_assignment h person shift a b c :
  person ∈ staff -> shift ∈ shifts ->
  reset_equal staff shifts h {| shift_attrs := shift_attrs h;
                   next_ref := next_ref h;
                   assigned_staff := <[shift := a]> (assigned_staff h);
                   total_hours := <[person := b]> (total_hours h);
                   assigned_shifts := <[person := c]> (assigned_shifts h) |}.
Proof.
  intros Hp Hs. unfold reset_equal, _reset_assignments. simpl.
  by rewrite !foldl_insert_absorb.
Qed.

Section PreferenceBased.
Import PreferenceBasedStrategy.
Variable get_preferences : Z -> pref_lookup.

Lemma candidates_of_staff h shift prefs x :
  x ∈ candidates_of h staff shift prefs -> x.1.1 ∈ staff.
Proof.
  unfold candidates_of. rewrite list_elem_of_In, in_flat_map.
  intros (person & Hp & Hx). apply list_elem_of_In in Hp.
  repeat case_match; simpl in Hx; try tauto.
  destruct Hx as [<-|[]]. done.
Qed.

Lemma assign_candidates_reset_equal shift (l : list (Z * Z * Q)) h :
  shift ∈ shifts -> (forall x, x ∈ l -> x.1.1 ∈ staff) ->
  reset_equal staff shifts h
    (foldl (fun h '(person, _, _) => _assign_shift h person shift) h l).
Proof.
  intros Hs. revert h. induction l as [|[[person score] hours] l IH]; intros h Hl; simpl.
  - apply reset_equal_refl.
  - eapply reset_equal_trans; [|apply IH; intros x Hx; apply Hl; by right].
    apply reset_forgets_assignment; [|done]. apply (Hl (person, score, hours)). by left.
Qed.

Lemma fill_shift_reset_equal prefs h shift :
  shift ∈ shifts -> reset_equal staff shifts h (fill_shift staff prefs h shift).
Proof.
  intros Hs. unfold fill_shift. case_match; [apply reset_equal_refl|].
  apply assign_candidates_reset_equal; [done|].
  intros x Hx. apply elem_of_take_inv, elem_of_sorted_by in Hx.
  by apply candidates_of_staff in Hx.
Qed.

Lemma assign_all_reset_equal h :
  reset_equal staff shifts h (assign_all get_preferences h staff shifts).
Proof.
  unfold assign_all.
  assert (forall s, s ∈ sorted_by (shift_leb h) shifts -> s ∈ shifts) as Hl.
  { intros s. by rewrite elem_of_sorted_by. }
  revert Hl. generalize (sorted_by (shift_leb h) shifts) as l.
  generalize (load_preferences get_preferences staff) as prefs. intros prefs l.
  revert h. induction l as [|s l IH]; intros h Hl; simpl.
  - apply reset_equal_refl.
  - eapply reset_equal_trans; [|apply IH; intros x Hx; apply Hl; by right].
    apply fill_shift_reset_equal, Hl. by left.
Qed.

(** A second run on the heap the first run left repeats the first run. *)
Lemma preference_based_rerun h sd ed sd' ed' :
  generate_schedule get_preferences
    (generate_schedule get_preferences h staff shifts sd ed).2 staff shifts sd' ed'
  = generate_schedule get_preferences h staff shifts sd ed.
Proof.
  unfold generate_schedule. simpl.
  pose proof (assign_all_reset_equal (_reset_assignments h staff shifts)) as H1.
  pose proof (reset_twice h) as H2. unfold reset_equal in H1, H2.
  by rewrite H1, H2.
Qed.
End PreferenceBased.

Section DayNight.
Import DayNightDistributeStrategy.
Variable get_preferences : Z -> pref_lookup.

Lemma elem_of_remove_first x y l : x ∈ remove_first y l -> x ∈ l.
Proof.
  induction l as [|z l IH]; simpl; [done|].
  case_decide; intros Hx; [by right|].
  apply elem_of_cons in Hx as [->|Hx]; [left|right; auto].
Qed.

Lemma elem_of_staff_of c person :
  person ∈ staff_of get_preferences c staff -> person ∈ staff.
Proof. unfold staff_of. rewrite list_elem_of_filter. tauto. Qed.

Lemma commit_pool_ok h0 shift st person :
  shift ∈ shifts -> person ∈ staff -> pool_ok staff shifts h0 st ->
  pool_ok staff shifts h0 (commit get_preferences shift st person).
Proof.
  intros Hs Hp [Hr Hn]. destruct st as [h neutral]. unfold commit, _assign_if_available.
  simpl in *. destruct (Qle_bool _ _); [|done].
  assert (reset_equal staff shifts h0 (_assign_shift h person shift)) as Hr'.
  { eapply reset_equal_trans; [exact Hr|]. by apply reset_forgets_assignment. }
  destruct (bool_decide _); split; simpl; try done.
  intros p Hin. by apply elem_of_remove_first, Hn in Hin.
Qed.

Lemma fill_shift_pool_ok h0 preferring st shift :
  shift ∈ shifts -> (forall person, person ∈ preferring -> person ∈ staff) ->
  pool_ok staff shifts h0 st ->
  pool_ok staff shifts h0 (fill_shift get_preferences preferring st shift).
Proof.
  intros Hs Hpref Hok. unfold fill_shift. destruct st as [h neutral].
  case_match; [done|].
  set (l := take _ _).
  assert (forall person, person ∈ l -> person ∈ staff) as Hl.
  { intros person Hx. apply elem_of_take_inv, elem_of_sorted_by in Hx.
    apply list_elem_of_filter in Hx as [_ Hx].
    apply elem_of_app in Hx as [Hx|Hx]; [by apply Hpref|by apply Hok]. }
  clearbody l. revert Hok. generalize (h, neutral) as st.
  induction l as [|person l IH]; intros st Hok; simpl; [done|].
  apply IH; [intros p Hp; apply Hl; by right|].
  apply commit_pool_ok; [done| |done]. apply Hl. by left.
Qed.

Lemma fill_shifts_pool_ok h0 preferring l st :
  (forall s, s ∈ l -> s ∈ shifts) ->
  (forall person, person ∈ preferring -> person ∈ staff) ->
  pool_ok staff shifts h0 st ->
  pool_ok staff shifts h0 (foldl (fill_shift get_preferences preferring) st l).
Proof.
  intros Hl Hpref. revert st. induction l as [|s l IH]; intros st Hok; simpl; [done|].
  apply IH; [intros x Hx; apply Hl; by right|].
  apply fill_shift_pool_ok; [apply Hl; by left|done|done].
Qed.

Lemma day_night_assign_all_reset_equal h :
  reset_equal staff shifts h (assign_all get_preferences h staff shifts).1.
Proof.
  unfold assign_all.
  apply fill_shifts_pool_ok.
  - intros s. unfold night_shifts. rewrite list_elem_of_filter. tauto.
  - apply elem_of_staff_of.
  - apply fill_shifts_pool_ok.
    + intros s. unfold day_shifts. rewrite list_elem_of_filter. tauto.
    + apply elem_of_staff_of.
    + split; [apply reset_equal_refl|apply elem_of_staff_of].
Qed.

Lemma day_night_rerun h sd ed sd' ed' :
  generate_schedule get_preferences
    (generate_schedule get_preferences h staff shifts sd ed).2 staff shifts sd' ed'
  = generate_schedule get_preferences h staff shifts sd ed.
Proof.
  unfold generate_schedule.
  pose proof (day_night_assign_all_reset_equal (_reset_assignments h staff shifts)) as H1.
  pose proof (reset_twice h) as H2. unfold reset_equal in H1, H2.
  destruct (assign_all get_preferences (_reset_assignments h staff shifts) staff shifts)
    as [h1 n1] eqn:E1.
  simpl in *. rewrite H1, H2, E1. done.
Qed.
End DayNight.
End Rerun.

(** ** The neutral pool of [DayNightDistributeStrategy] *)

Lemma foldl_insert_lookup `{Countable K} {V} (ks : list K) (v : V) (m : gmap K V) k :
  k ∈ ks -> foldl (fun m k => <[k := v]> m) m ks !! k = Some v.
Proof.
  intros Hin. apply list_elem_of_split in Hin as (l1 & l2 & ->).
  rewrite foldl_app. simpl.
  generalize (foldl (fun m k => <[k := v]> m) m l1) as m'. intros m'.
  assert (<[k := v]> m' !! k = Some v) as Hk by apply lookup_insert_eq.
  revert Hk. generalize (<[k := v]> m') as m''.
  induction l2 as [|k' l2 IH]; intros m'' Hk; simpl; [done|].
  apply IH. destruct (decide (k' = k)) as [->|Hne].
  - apply lookup_insert_eq.
  - by rewrite lookup_insert_ne.
Qed.

Lemma remove_first_NoDup x l : NoDup l -> NoDup (remove_first x l).
Proof.
  induction 1 as [|y l Hy Hl IH]; simpl; [constructor|].
  case_decide; [done|]. constructor; [|done].
  intros Hin. apply Hy. revert Hin. clear.
  induction l as [|z l IH]; simpl; [done|].
  case_decide; intros Hin; [by right|].
  apply elem_of_cons in Hin as [->|Hin]; [left|right; auto].
Qed.

Lemma elem_of_remove_first_ne x y l : x <> y -> x ∈ l -> x ∈ remove_first y l.
Proof.
  intros Hne. induction l as [|z l IH]; simpl; [done|].
  intros Hin. case_decide as Hz.
  - apply elem_of_cons in Hin as [->|Hin]; [congruence|done].
  - apply elem_of_cons in Hin as [->|Hin]; [left|right; auto].
Qed.

Lemma not_elem_of_remove_first x l : NoDup l -> x ∉ remove_first x l.
Proof.
  induction 1 as [|y l Hy Hl IH]; simpl; [by intros ?%elem_of_nil|].
  case_decide as Hxy; [by subst|].
  intros Hin. apply elem_of_cons in Hin as [->|Hin]; [done|by apply IH].
Qed.

Section NeutralPool.
Import DayNightDistributeStrategy.
Variable get_preferences : Z -> pref_lookup.
Variable staff : list Z.
Hypothesis staff_NoDup : NoDup staff.

Local Notation "'neutral' p" :=
  (categorize get_preferences p = NeutralStaff) (at level 10, p at level 9).

Lemma shift_count_assign h person shift p :
  shift_count (_assign_shift h person shift) p
  = if decide (p = person) then S (shift_count h p) else shift_count h p.
Proof.
  unfold shift_count, _assign_shift. simpl. case_decide as Hp.
  - subst. rewrite lookup_insert_eq. simpl. rewrite length_app. simpl. lia.
  - by rewrite lookup_insert_ne.
Qed.

Lemma commit_pool_inv shift st person :
  pool_inv get_preferences staff st -> (neutral person -> person ∈ st.2) ->
  pool_inv get_preferences staff (commit get_preferences shift st person)
  /\ (forall p, p <> person -> p ∈ st.2 -> p ∈ (commit get_preferences shift st person).2).
Proof.
  intros (Hnd & Hpool & Hcount) Hperson. destruct st as [h pool].
  unfold commit, _assign_if_available. cbn [fst snd] in *.
  destruct (Qle_bool _ _); [|split; [by split|done]].
  destruct (bool_decide_reflect (person ∈ pool)) as [Hin|Hout];
    unfold pool_inv; cbn [fst snd].
  - destruct (Hpool person Hin) as (Hn & Hs & H0).
    split; [split; [|split]|].
    + by apply remove_first_NoDup.
    + intros p Hp. pose proof (not_elem_of_remove_first person pool Hnd) as Hnot.
      assert (p <> person) as Hne by (intros ->; done).
      apply elem_of_remove_first in Hp. destruct (Hpool p Hp) as (? & ? & ?).
      rewrite shift_count_assign, decide_False by done. done.
    + intros p Hp Hnp. rewrite shift_count_assign. case_decide as Hpe.
      * subst. rewrite H0. lia.
      * by apply Hcount.
    + intros p Hne Hp. by apply elem_of_remove_first_ne.
  - split; [split; [|split]|]; try done.
    + intros p Hp. destruct (Hpool p Hp) as (? & ? & ?).
      assert (p <> person) as Hne by (intros ->; done).
      rewrite shift_count_assign, decide_False by done. done.
    + intros p Hp Hnp. rewrite shift_count_assign. case_decide as Hpe.
      * subst. by apply Hperson in Hnp.
      * by apply Hcount.
Qed.

Lemma commit_all_pool_inv shift l st :
  NoDup l -> pool_inv get_preferences staff st ->
  (forall p, p ∈ l -> neutral p -> p ∈ st.2) ->
  pool_inv get_preferences staff (foldl (commit get_preferences shift) st l).
Proof.
  intros Hl. revert st. induction Hl as [|person l Hnotin Hl IH]; intros st Hinv Hin; simpl.
  - done.
  - destruct (commit_pool_inv shift st person Hinv) as [Hinv' Hkeep].
    { apply Hin. left. }
    apply IH; [done|].
    intros p Hp Hnp. apply Hkeep; [intros ->; done|]. apply Hin; [by right|done].
Qed.

Lemma fill_shift_pool_inv preferring st shift :
  NoDup preferring -> (forall p, p ∈ preferring -> ~ neutral p) ->
  pool_inv get_preferences staff st ->
  pool_inv get_preferences staff (fill_shift get_preferences preferring st shift).
Proof.
  intros Hnd Hpref Hinv. unfold fill_shift. destruct st as [h pool].
  case_match; [done|].
  pose proof Hinv as (Hpnd & Hpool & Hcount). cbn [fst snd] in *.
  apply commit_all_pool_inv; [|exact Hinv|].
  - eapply (sublist_NoDup (take _ _)); [|apply sublist_take].
    rewrite sorted_by_perm. apply NoDup_filter, NoDup_app. repeat split; [done| |done].
    intros p Hp Hp'. apply (Hpref p Hp). by apply Hpool.
  - intros p Hp Hnp. simpl.
    apply elem_of_take_inv, elem_of_sorted_by, list_elem_of_filter in Hp as [_ Hp].
    apply elem_of_app in Hp as [Hp|Hp]; [by apply Hpref in Hp|done].
Qed.

Lemma fill_shifts_pool_inv preferring l st :
  NoDup preferring -> (forall p, p ∈ preferring -> ~ neutral p) ->
  pool_inv get_preferences staff st ->
  pool_inv get_preferences staff (foldl (fill_shift get_preferences preferring) st l).
Proof.
  intros Hnd Hpref. revert st. induction l as [|s l IH]; intros st Hinv; simpl; [done|].
  apply IH. by apply fill_shift_pool_inv.
Qed.

Lemma staff_of_NoDup c : NoDup (staff_of get_preferences c staff).
Proof. by apply NoDup_filter. Qed.

Lemma staff_of_category c p :
  p ∈ staff_of get_preferences c staff -> categorize get_preferences p = c.
Proof. unfold staff_of. rewrite list_elem_of_filter. tauto. Qed.

Lemma assign_all_pool_inv h shifts :
  pool_inv get_preferences staff
    (assign_all get_preferences (_reset_assignments h staff shifts) staff shifts).
Proof.
  unfold assign_all.
  apply fill_shifts_pool_inv; [apply staff_of_NoDup|intros p Hp%staff_of_category; congruence|].
  apply fill_shifts_pool_inv; [apply staff_of_NoDup|intros p Hp%staff_of_category; congruence|].
  assert (forall p, p ∈ staff -> shift_count (_reset_assignments h staff shifts) p = O) as H0.
  { intros p Hp. unfold shift_count, _reset_assignments. simpl.
    by rewrite foldl_insert_lookup. }
  split; [apply staff_of_NoDup|split].
  - intros p Hp. simpl in *. pose proof (staff_of_category _ _ Hp).
    apply list_elem_of_filter in Hp as [_ Hp]. auto.
  - intros p Hp _. simpl. rewrite H0 by done. lia.
Qed.

End NeutralPool.

(** ** The hour cap in [DayNightDistributeStrategy] *)

Section HourCap.
Import DayNightDistributeStrategy.
Variable get_preferences : Z -> pref_lookup.
Variable staff : list Z.

Lemma commit_within_cap shift st person :
  within_cap get_preferences staff st.1 ->
  within_cap get_preferences staff (commit get_preferences shift st person).1.
Proof.
  intros Hcap. destruct st as [h pool]. unfold commit, _assign_if_available.
  cbn [fst snd] in *.
  destruct (Qle_bool _ _) eqn:Hle; [|done].
  assert (within_cap get_preferences staff (_assign_shift h person shift)) as Hcap'.
  { intros p Hp Hpos. unfold hours_of, _assign_shift. cbn [total_hours].
    destruct (decide (p = person)) as [->|Hne].
    - rewrite lookup_insert_eq. simpl. by apply Qle_bool_iff.
    - rewrite lookup_insert_ne by done. by apply Hcap. }
  by destruct (bool_decide _).
Qed.

Lemma fill_shift_within_cap preferring st shift :
  within_cap get_preferences staff st.1 ->
  within_cap get_preferences staff (fill_shift get_preferences preferring st shift).1.
Proof.
  intros Hcap. unfold fill_shift. destruct st as [h pool].
  case_match; [done|].
  generalize (take (Z.to_nat (needed h shift))
                (sorted_by (hours_leb h)
                   (filter (fun s => _can_work_shift get_preferences h s shift = true)
                           (preferring ++ pool)%list))) as l.
  intros l. revert Hcap. generalize (h, pool) as st.
  induction l as [|person l IH]; intros st Hcap; simpl; [done|].
  by apply IH, commit_within_cap.
Qed.

Lemma fill_shifts_within_cap preferring l st :
  within_cap get_preferences staff st.1 ->
  within_cap get_preferences staff (foldl (fill_shift get_preferences preferring) st l).1.
Proof.
  revert st. induction l as [|s l IH]; intros st Hcap; simpl; [done|].
  by apply IH, fill_shift_within_cap.
Qed.

(** Every assignment of [DayNightDistributeStrategy] goes through
    [_assign_if_available], which keeps each member within the cap. *)
Lemma day_night_within_cap h shifts start_date end_date :
  within_cap get_preferences staff
    (generate_schedule get_preferences h staff shifts start_date end_date).2.
Proof.
  unfold generate_schedule.
  pose proof (fill_shifts_within_cap (staff_of get_preferences NightStaff staff)
    (night_shifts (_reset_assignments h staff shifts) shifts)
    (foldl (fill_shift get_preferences (staff_of get_preferences DayStaff staff))
       (_reset_assignments h staff shifts, staff_of get_preferences NeutralStaff staff)
       (day_shifts (_reset_assignments h staff shifts) shifts))) as H.
  unfold assign_all. destruct (foldl _ (foldl _ _ _) _) as [h1 n1]. apply H.
  apply fill_shifts_within_cap. cbn [fst].
  intros p Hp Hpos. unfold hours_of, _reset_assignments. cbn [total_hours].
  by rewrite foldl_insert_lookup.
Qed.

End HourCap.

(** * The claims *)

(** C1 (the code departs from the claim).  One staff member without a
    preference record (cap 40) and four twelve-hour shifts:
    [PreferenceBasedStrategy.generate_schedule] filters candidates on
    [current_hours < max_hours] and assigns without adding the duration, so
    the fourth shift is assigned at 36 hours and [total_hours] ends at 48. *)
Theorem preference_based_exceeds_cap :
  let run := PreferenceBasedStrategy.generate_schedule Examples.no_prefs
               Examples.long_shifts_heap [1] [0; 1; 2; 3]%nat
               Examples.day0 (Examples.day0 + 3) in
  let max_hours :=
    default 40%Q (max_hours_per_week
      (default empty_prefs
         (PreferenceBasedStrategy.load_preferences Examples.no_prefs [1] !! 1))) in
  max_hours = 40%Q
  /\ total_hours run.2 !! 1 = Some 48%Q
  /\ assigned_shifts run.2 !! 1 = Some [0; 1; 2; 3]%nat
  /\ (max_hours < hours_of run.2 1)%Q.
Proof. vm_compute. repeat split; reflexivity. Qed.

(** C2 (the code departs from the claim).  A shift starting at 08:00 has the
    derived type "day"; the bucket test looks for "morning" and "evening", so
    the shift is put in the night bucket and staffed in the second pass by the
    night-preferring member, past the member who prefers mornings. *)
Theorem day_typed_shift_in_night_bucket :
  let h := Examples.morning_shift_heap in
  let gp := Examples.day_and_night_prefs in
  DayNightDistributeStrategy._get_shift_type h 0 = "day"
  /\ DayNightDistributeStrategy.day_shifts h [0%nat] = []
  /\ DayNightDistributeStrategy.night_shifts h [0%nat] = [0%nat]
  /\ DayNightDistributeStrategy.categorize gp 1 = DayNightDistributeStrategy.DayStaff
  /\ DayNightDistributeStrategy.categorize gp 2 = DayNightDistributeStrategy.NightStaff
  /\ assigned_staff (DayNightDistributeStrategy.generate_schedule gp h [1; 2] [0%nat]
                      Examples.day0 Examples.day0).2 !! 0%nat = Some [2].
Proof. vm_compute. repeat split; reflexivity. Qed.

(** Which shifts the bucket test of [DayNightDistributeStrategy] puts in the
    day bucket: those that start from 14h to before 18h. *)
Lemma in_day_bucket_iff h shift :
  DayNightDistributeStrategy.in_day_bucket h shift = true
  <-> exists t, shift_attr h shift start_time = Some t /\ 14 <= dt_hour t < 18.
Proof.
  unfold DayNightDistributeStrategy.in_day_bucket, DayNightDistributeStrategy._get_shift_type.
  destruct (shift_attr h shift start_time) as [t|].
  - destruct (Z.leb_spec 6 (dt_hour t)), (Z.ltb_spec (dt_hour t) 18),
      (Z.ltb_spec (dt_hour t) 14); simpl;
      (split; [intros Hb; first [by vm_compute in Hb | exists t; split; [done|lia]]
              |intros (t' & [= <-] & Ht); first [lia | by vm_compute]]).
  - split; [by vm_compute|by intros (t & ? & _)].
Qed.

(** C3, as worded, fails on two runs.  With an empty staff list the call
    raises instead of returning a failure outcome.  With an unregistered
    strategy name it returns a failure outcome, but the persisted row of the
    window, deleted and committed by [_clear_existing_shifts] before the
    strategy is looked up, stays deleted after the rollback. *)
Lemma auto_populate_failures_break_contract :
  let w := Examples.world_with_old_row in
  let run1 := Examples.auto_populate_example "preference-based" [] 2 "mixed" w in
  let run2 := Examples.auto_populate_example "nope" [1] 2 "mixed" w in
  (failed run1 /\ run1.1 = Raise (ValueError "Staff list cannot be empty")
   /\ ~ failing_run_contract w run1)
  /\ (failed run2
      /\ run2.1 = Return (Failure "Failed to auto-generate schedule: Unknown strategy: nope")
      /\ committed (db w) = [Examples.old_row] /\ committed (db run2.2) = []
      /\ ~ failing_run_contract w run2).
Proof.
  cbv zeta. split.
  - split; [by vm_compute|]. split; [by vm_compute|].
    intros [(msg & Hmsg) _]. vm_compute in Hmsg. discriminate.
  - split; [by vm_compute|]. split; [by vm_compute|]. split; [done|]. split; [by vm_compute|].
    intros [_ Hdb]. vm_compute in Hdb. discriminate.
Qed.

(** C3, amended.  An input rejected by the checks before the [try] (empty
    staff list, start after end, non-positive shifts per day) raises
    [ValueError] to the caller and leaves the world as it was.  Every other
    run returns an outcome and never raises.  Step by step through the [try]:
    an error raised by the clearing of the window, by the catalog, by the
    strategy lookup or the strategy, by the saving of the rows, by the balance
    validation or by the listing of the assignments is returned as the
    failure outcome that carries that error's text; when no step raises, the
    outcome is the success outcome built from the results of the steps. *)
Theorem auto_populate_failure_outcomes
    (get_preferences : Z -> pref_lookup)
    (EvenDistributeStrategy MinimizeDaysStrategy : strategy)
    (admin_id schedule_id : Z) (strategy_name : string) (staff_list : list Z)
    (start_date end_date shifts_per_day : Z) (shift_type : string) (w : world) :
  let run := auto_populate get_preferences EvenDistributeStrategy MinimizeDaysStrategy
               admin_id schedule_id strategy_name staff_list start_date end_date
               shifts_per_day shift_type w in
  let failure := fun e : exn =>
    Return (Failure ("Failed to auto-generate schedule: " ++ exn_str e)) in
  (rejected staff_list start_date end_date shifts_per_day ->
   exists msg, run = (Raise (ValueError msg), w))
  /\ (~ rejected staff_list start_date end_date shifts_per_day ->
      (exists o, run.1 = Return o)
      /\ (forall e d,
            _clear_existing_shifts schedule_id start_date end_date (db w) = (Raise e, d) ->
            run.1 = failure e)
      /\ forall deleted d1,
           _clear_existing_shifts schedule_id start_date end_date (db w)
           = (Return deleted, d1) ->
           (forall e,
              Catalog._generate_shifts_for_period schedule_id start_date end_date
                shifts_per_day shift_type = Raise e ->
              run.1 = failure e)
           /\ forall objs refs h1,
                Catalog._generate_shifts_for_period schedule_id start_date end_date
                  shifts_per_day shift_type = Return objs ->
                alloc_shifts (objects w) objs = (refs, h1) ->
                (forall e h2,
                   ScheduleClient_generate_schedule get_preferences EvenDistributeStrategy
                     MinimizeDaysStrategy h1 strategy_name staff_list refs start_date end_date
                   = (Raise e, h2) ->
                   run.1 = failure e)
                /\ forall res h2,
                     ScheduleClient_generate_schedule get_preferences EvenDistributeStrategy
                       MinimizeDaysStrategy h1 strategy_name staff_list refs start_date
                       end_date
                     = (Return res, h2) ->
                     (forall e w3,
                        _save_shifts_to_db schedule_id refs (mk_world d1 h2) = (Raise e, w3) ->
                        run.1 = failure e)
                     /\ forall created w3,
                          _save_shifts_to_db schedule_id refs (mk_world d1 h2)
                          = (Return created, w3) ->
                          (forall e,
                             _validate_schedule_results (default ∅ (res_summary res))
                               (Z.of_nat (length staff_list)) = Raise e ->
                             run.1 = failure e)
                          /\ (_validate_schedule_results (default ∅ (res_summary res))
                                (Z.of_nat (length staff_list)) = Return () ->
                              (forall e,
                                 _get_assignments_list (objects w3) refs = Raise e ->
                                 run.1 = failure e)
                              /\ forall assignments,
                                   _get_assignments_list (objects w3) refs
                                   = Return assignments ->
                                   run = (Return
                                            (Success schedule_id created deleted
                                               (default 0%Q
                                                  (dict_get (res_scores res) "score"))
                                               (default ∅ (res_summary res))
                                               assignments strategy_name),
                                          w3))).
Proof.
  cbv zeta. split; [apply auto_populate_rejected|]. intros Hacc.
  rewrite auto_populate_accepted by done. split.
  { destruct (populate _ _ _ _ _ _ _ _ _ _ w) as [[o|e|] w'] eqn:E; simpl; eauto.
    pose proof (populate_completes get_preferences EvenDistributeStrategy
      MinimizeDaysStrategy schedule_id strategy_name staff_list start_date end_date
      shifts_per_day shift_type w) as Hc.
    by rewrite E in Hc. }
  unfold populate, mbind, M_bind, on_db, on_heap, lift, read_heap, mret, M_ret.
  split.
  { intros e d ->. reflexivity. }
  intros deleted d1 ->. cbn [db objects]. split.
  { intros e ->. reflexivity. }
  intros objs refs h1 -> ->. cbn [db objects]. split.
  { intros e h2 ->. reflexivity. }
  intros res h2 ->. cbn [db objects]. split.
  { intros e w3 ->. reflexivity. }
  intros created w3 ->. split.
  { intros e ->. reflexivity. }
  intros ->. split.
  { intros e ->. reflexivity. }
  intros assignments ->. reflexivity.
Qed.

Lemma auto_populate_failure_outcomes_witness :
  (rejected [] Examples.day0 Examples.day0 2
   /\ exists msg,
        Examples.auto_populate_example "preference-based" [] 2 "mixed"
          Examples.world_with_old_row
        = (Raise (ValueError msg), Examples.world_with_old_row))
  /\ (~ rejected [1] Examples.day0 Examples.day0 2
      /\ (Examples.auto_populate_example "nope" [1] 2 "mixed" Examples.world_with_old_row).1
         = Return (Failure "Failed to auto-generate schedule: Unknown strategy: nope")).
Proof.
  assert (rejected [] Examples.day0 Examples.day0 2) as Hrej by (left; reflexivity).
  assert (~ rejected [1] Examples.day0 Examples.day0 2) as Hacc.
  { unfold rejected. intros [H|[H|H]]; [discriminate H|lia|lia]. }
  split.
  - split; [exact Hrej|].
    exact (proj1 (auto_populate_failure_outcomes Examples.no_prefs Examples.absent_strategy
                    Examples.absent_strategy 0 1 "preference-based" [] Examples.day0
                    Examples.day0 2 "mixed" Examples.world_with_old_row) Hrej).
  - split; [exact Hacc|].
    destruct (_clear_existing_shifts 1 Examples.day0 Examples.day0
                (db Examples.world_with_old_row)) as [[deleted| |] d1] eqn:E1;
      try (vm_compute in E1; discriminate).
    destruct (Catalog._generate_shifts_for_period 1 Examples.day0 Examples.day0 2 "mixed")
      as [objs| |] eqn:E2; try (vm_compute in E2; discriminate).
    destruct (alloc_shifts (objects Examples.world_with_old_row) objs) as [refs h1] eqn:E3.
    exact (proj1 (proj2 (proj2 (proj2 (proj2
             (auto_populate_failure_outcomes Examples.no_prefs Examples.absent_strategy
                Examples.absent_strategy 0 1 "nope" [1] Examples.day0 Examples.day0 2
                "mixed" Examples.world_with_old_row) Hacc)) deleted d1 E1)
             objs refs h1 E2 E3)
             (ValueError "Unknown strategy: nope") h1 eq_refl).
Defined.

(** C4, as worded, fails for [ScheduleClient.generate_schedule]: its message
    for the unregistered name "nope" lists no registered name. *)
Lemma client_unknown_strategy_lists_nothing :
  (Examples.client_generate_example "nope").1 = Raise (ValueError "Unknown strategy: nope")
  /\ ~ unknown_strategy_failure
         (dict_keys (ScheduleClient_strategies Examples.no_prefs Examples.absent_strategy
                       Examples.absent_strategy))
         Examples.empty_heap (Examples.client_generate_example "nope").
Proof.
  split; [by vm_compute|].
  intros (msg & Hrun & _ & Hlist). vm_compute in Hrun.
  injection Hrun as <-. vm_compute in Hlist. discriminate.
Qed.

(** C4, amended.  For a name that is not registered, [Scheduler.generate_schedule]
    raises [ValueError] with the message "Unknown strategy: NAME. Available
    strategies: " followed by the list of its five registered names, and
    [ScheduleClient.generate_schedule] raises [ValueError] with the message
    "Unknown strategy: NAME", which names no registered strategy; both leave
    every staff member and shift as they were. *)
Theorem unknown_strategy_errors
    (get_preferences : Z -> pref_lookup)
    (EvenDistributeStrategy MinimizeDaysStrategy ShiftTypeStrategy : strategy)
    (h : heap) (strategy_name : string) (staff : list Z) (shifts : list nat)
    (start_date end_date : Z) :
  let scheduler_names :=
    dict_keys (Scheduler_strategies get_preferences EvenDistributeStrategy
                 MinimizeDaysStrategy ShiftTypeStrategy) in
  let client_names :=
    dict_keys (ScheduleClient_strategies get_preferences EvenDistributeStrategy
                 MinimizeDaysStrategy) in
  (strategy_name ∉ scheduler_names ->
   Scheduler_generate_schedule get_preferences EvenDistributeStrategy MinimizeDaysStrategy
     ShiftTypeStrategy h strategy_name staff shifts start_date end_date
   = (Raise (ValueError ("Unknown strategy: " ++ strategy_name ++ ". Available strategies: "
                         ++ "['even_distribute', 'minimize_days', 'shift_type_optimize', "
                         ++ "'preference_based', 'day_night_distribute']")), h)
   /\ unknown_strategy_failure scheduler_names h
        (Scheduler_generate_schedule get_preferences EvenDistributeStrategy
           MinimizeDaysStrategy ShiftTypeStrategy h strategy_name staff shifts
           start_date end_date))
  /\ (strategy_name ∉ client_names ->
      ScheduleClient_generate_schedule get_preferences EvenDistributeStrategy
        MinimizeDaysStrategy h strategy_name staff shifts start_date end_date
      = (Raise (ValueError ("Unknown strategy: " ++ strategy_name)), h)).
Proof.
  cbv zeta. split.
  - intros Hn. unfold Scheduler_generate_schedule. rewrite dict_get_None by done.
    split; [reflexivity|].
    eexists. split; [reflexivity|]. split.
    + apply (occurs_app_l "Unknown strategy" (": " ++ strategy_name ++ _)).
    + change ("Unknown strategy: " ++ strategy_name ++ ?t)
        with ("Unknown strategy: " ++ (strategy_name ++ t)).
      unfold lists_names. apply forallb_forall. intros name Hin.
      apply occurs_app_r, occurs_app_r.
      simpl in Hin. repeat (destruct Hin as [<-|Hin]; [by vm_compute|]). done.
  - intros Hn. unfold ScheduleClient_generate_schedule. by rewrite dict_get_None.
Qed.

Lemma unknown_strategy_errors_witness :
  ("nope" ∉ dict_keys (ScheduleClient_strategies Examples.no_prefs Examples.absent_strategy
                         Examples.absent_strategy))
  /\ Examples.client_generate_example "nope"
     = (Raise (ValueError "Unknown strategy: nope"), Examples.empty_heap).
Proof.
  assert ("nope" ∉ dict_keys (ScheduleClient_strategies Examples.no_prefs
                                Examples.absent_strategy Examples.absent_strategy)) as Hn.
  { apply (bool_decide_unpack _). vm_compute. reflexivity. }
  split; [exact Hn|].
  exact (proj2 (unknown_strategy_errors Examples.no_prefs Examples.absent_strategy
                  Examples.absent_strategy Examples.absent_strategy Examples.empty_heap
                  "nope" [] [] Examples.day0 Examples.day0) Hn).
Defined.

(** C5, as worded, fails where rounding decides: with a maximum of 16.0 and
    an average of 10.666666666666666 the maximum exceeds one and a half times
    the average, by less than the spacing of the doubles below 16; the product
    the code computes is 16.0 and the validation passes. *)
Lemma balance_validation_rounds :
  too_uneven Examples.rounding_summary
  /\ _validate_schedule_results Examples.rounding_summary 3 = Return ()
  /\ ~ fails_exactly_when_worded Examples.rounding_summary 3.
Proof.
  assert (too_uneven Examples.rounding_summary) as Hu by (vm_compute; reflexivity).
  assert (_validate_schedule_results Examples.rounding_summary 3 = Return ()) as Hv
    by (vm_compute; reflexivity).
  split; [exact Hu|]. split; [exact Hv|].
  unfold fails_exactly_when_worded. rewrite Hv. intros [_ H].
  specialize (H (or_intror (or_intror Hu))). discriminate.
Qed.

(** C5, amended.  An empty summary passes.  A summary with data fails exactly
    when the hour spread, the rounded difference of the two doubles, exceeds
    20, or fewer shifts than staff were assigned, or the maximum exceeds the
    rounded product of the average and 1.5; the error reported is that of the
    first of these conditions that holds. *)
Theorem balance_validation_cases (summary : gmap string Q) (staff_count : Z) :
  (summary = ∅ -> _validate_schedule_results summary staff_count = Return ())
  /\ (summary <> ∅ ->
      (raises (_validate_schedule_results summary staff_count) = true
       <-> spread_exceeds_20 summary \/ not_enough_shifts summary staff_count
           \/ exceeds_rounded_average summary)
      /\ (spread_exceeds_20 summary ->
          _validate_schedule_results summary staff_count
          = Raise (ValueError "Schedule too unbalanced - hour difference exceeds 20 hours"))
      /\ (~ spread_exceeds_20 summary -> not_enough_shifts summary staff_count ->
          _validate_schedule_results summary staff_count
          = Raise (ValueError "Not enough shifts assigned - some staff may have no shifts"))
      /\ (~ spread_exceeds_20 summary -> ~ not_enough_shifts summary staff_count ->
          exceeds_rounded_average summary ->
          _validate_schedule_results summary staff_count
          = Raise (ValueError "Schedule distribution too uneven"))
      /\ (~ spread_exceeds_20 summary -> ~ not_enough_shifts summary staff_count ->
          ~ exceeds_rounded_average summary ->
          _validate_schedule_results summary staff_count = Return ())).
Proof.
  split.
  - intros ->. reflexivity.
  - intros Hne. destruct (validate_cases summary staff_count Hne) as (HA & HB & HC & HD).
    split; [|done].
    destruct (Qlt_le_dec 20 (float_sub (summary_float summary "max_hours")
                                       (summary_float summary "min_hours"))) as [A|nA].
    { rewrite (HA A). split; [by left|done]. }
    apply Qle_not_lt in nA.
    destruct (Qlt_le_dec (summary_get summary "total_shifts_assigned") (inject_Z staff_count))
      as [B|nB].
    { rewrite (HB nA B). split; [by right; left|done]. }
    apply Qle_not_lt in nB.
    destruct (Qlt_le_dec (float_mul (summary_float summary "average_hours_per_staff") (3 # 2))
                         (summary_float summary "max_hours")) as [C|nC].
    { rewrite (HC nA nB C). split; [by right; right|done]. }
    apply Qle_not_lt in nC.
    rewrite (HD nA nB nC). split; [done|]. intros [?|[?|?]]; done.
Qed.

(** Scenario D of the specification, one member at 0 hours and one at 24,
    and the summary on which rounding decides. *)
Lemma balance_validation_cases_witness :
  (Examples.scenario_d <> ∅
   /\ spread_exceeds_20 Examples.scenario_d
   /\ _validate_schedule_results Examples.scenario_d 2
      = Raise (ValueError "Schedule too unbalanced - hour difference exceeds 20 hours"))
  /\ (Examples.rounding_summary <> ∅
      /\ ~ spread_exceeds_20 Examples.rounding_summary
      /\ ~ not_enough_shifts Examples.rounding_summary 3
      /\ ~ exceeds_rounded_average Examples.rounding_summary
      /\ _validate_schedule_results Examples.rounding_summary 3 = Return ()).
Proof.
  assert (Examples.scenario_d <> ∅) as Hne by (vm_compute; discriminate).
  assert (spread_exceeds_20 Examples.scenario_d) as Hun by (vm_compute; reflexivity).
  assert (Examples.rounding_summary <> ∅) as Hne' by (vm_compute; discriminate).
  assert (~ spread_exceeds_20 Examples.rounding_summary) as HA
    by (apply Qle_not_lt; vm_compute; discriminate).
  assert (~ not_enough_shifts Examples.rounding_summary 3) as HB
    by (apply Qle_not_lt; vm_compute; discriminate).
  assert (~ exceeds_rounded_average Examples.rounding_summary) as HC
    by (apply Qle_not_lt; vm_compute; discriminate).
  split.
  - split; [exact Hne|]. split; [exact Hun|].
    exact (proj1 (proj2 (proj2 (balance_validation_cases Examples.scenario_d 2) Hne)) Hun).
  - split; [exact Hne'|]. split; [exact HA|]. split; [exact HB|]. split; [exact HC|].
    exact (proj2 (proj2 (proj2 (proj2 (proj2 (balance_validation_cases
             Examples.rounding_summary 3) Hne')))) HA HB HC).
Defined.

(** C6, as worded, fails for three night shifts a day: the third start hour
    is 24 and the catalog is not produced. *)
Lemma night_catalog_of_three_fails :
  raises (Catalog._generate_shifts_for_period 1 Examples.day0 Examples.day0 3 "night") = true
  /\ ~ catalog_follows_rule 1 Examples.day0 Examples.day0 3 "night".
Proof.
  split; [by vm_compute|]. unfold catalog_follows_rule. intros H. vm_compute in H. discriminate.
Qed.

(** C6, amended.  For dates within the calendar, at most 8 shifts a day of
    type "day" and at most 2 of type "night", the catalog holds, day by day
    and for each [shift_num] below [shifts_per_day], exactly the shift of the
    time-slicing rule; "day" and "night" slots last 8 hours; and a one-day
    "mixed" range with two shifts a day yields 08:00-16:00 and 16:00-23:59. *)
Theorem catalog_in_range_follows_rule
    (schedule_id start_date end_date shifts_per_day : Z) (shift_type : string) :
  (CatalogSpec.in_range start_date end_date shifts_per_day shift_type ->
   catalog_follows_rule schedule_id start_date end_date shifts_per_day shift_type)
  /\ (forall day shift_num,
        shift_type = "day" \/ shift_type = "night" ->
        let t := CatalogSpec.slot shift_type day shift_num in
        hours_between (Catalog.st_start t) (Catalog.st_end t) = 8%Q)
  /\ (1 <= start_date < MAXORDINAL -> shift_type <> "day" -> shift_type <> "night" ->
      Catalog._generate_shifts_for_period schedule_id start_date start_date 2 shift_type
      = Return [Catalog.MockShift shift_type (mk_datetime start_date 8 0 0 0)
                                  (mk_datetime start_date 16 0 0 0);
                Catalog.MockShift shift_type (mk_datetime start_date 16 0 0 0)
                                  (mk_datetime start_date 23 59 0 0)]).
Proof.
  assert (forall s e spd ty, CatalogSpec.in_range s e spd ty ->
            catalog_follows_rule schedule_id s e spd ty) as Hrule.
  { intros s e spd ty (Hs & He & Hday & Hnight). unfold catalog_follows_rule.
    unfold Catalog._generate_shifts_for_period.
    by rewrite period_loop_catalog by first [assumption | unfold Catalog.period_fuel; lia]. }
  split; [apply Hrule|]. split.
  - intros day n Hty. cbv zeta. unfold CatalogSpec.slot, hours_between, total_seconds.
    assert (forall x, micros (CatalogSpec.at_hour day (x + 8))
                      - micros (CatalogSpec.at_hour day x) = 28800000000) as Hd.
    { intros x. unfold micros, CatalogSpec.at_hour. simpl.
      pose proof (Z.div_mod x 24 ltac:(lia)). pose proof (Z.div_mod (x + 8) 24 ltac:(lia)).
      lia. }
    destruct Hty as [->| ->]; cbn [String.eqb Ascii.eqb Bool.eqb Catalog.st_start
      Catalog.st_end]; rewrite Hd; vm_compute; reflexivity.
  - intros Hd Hn1 Hn2. rewrite Hrule.
    2:{ repeat split; try lia; intros ->; done. }
    f_equal. unfold CatalogSpec.catalog, CatalogSpec.days.
    replace (start_date - start_date + 1) with 1 by lia. simpl.
    unfold CatalogSpec.slot_shift, CatalogSpec.slot.
    apply String.eqb_neq in Hn1, Hn2. rewrite Hn1, Hn2. simpl.
    by rewrite Z.add_0_r.
Qed.

Lemma catalog_in_range_follows_rule_witness :
  CatalogSpec.in_range Examples.day0 (Examples.day0 + 1) 2 "night"
  /\ catalog_follows_rule 1 Examples.day0 (Examples.day0 + 1) 2 "night".
Proof.
  assert (CatalogSpec.in_range Examples.day0 (Examples.day0 + 1) 2 "night") as Hin.
  { unfold CatalogSpec.in_range. vm_compute. repeat split; discriminate. }
  split; [exact Hin|].
  exact (proj1 (catalog_in_range_follows_rule 1 Examples.day0 (Examples.day0 + 1) 2 "night")
           Hin).
Defined.

(** C7.  [_can_work_shift] of either strategy is true exactly when the shift
    has a start time, its weekday is not among the member's unavailable days,
    and every required skill is among the member's skills; so it is false for
    an unavailable weekday whatever the skills, false for a missing skill,
    and false for a shift without start time. *)
Theorem can_work_shift_iff_workable :
  (forall h staff shift preferences,
     PreferenceBasedStrategy._can_work_shift h staff shift preferences = true
     <-> workable h shift
           (default [] (unavailable_days (default empty_prefs (preferences !! staff))))
           (default [] (skills (default empty_prefs (preferences !! staff)))))
  /\ (forall get_preferences h staff shift,
        DayNightDistributeStrategy._can_work_shift get_preferences h staff shift = true
        <-> workable h shift
              (default [] (unavailable_days (prefs_of_lookup (get_preferences staff))))
              (default [] (skills (prefs_of_lookup (get_preferences staff))))).
Proof.
  split.
  - apply preference_based_can_work.
  - apply day_night_can_work.
Qed.

(** C9, as worded, fails when the roster lists a member twice: the pool then
    holds the member twice, [remove] drops one entry, and the member is
    assigned both shifts of the day. *)
Lemma repeated_neutral_member_assigned_twice :
  shift_count (DayNightDistributeStrategy.generate_schedule Examples.no_prefs
                 Examples.mixed_day_heap [1; 1] [0; 1]%nat Examples.day0 Examples.day0).2 1
  = 2%nat
  /\ ~ neutral_at_most_once Examples.no_prefs Examples.mixed_day_heap [1; 1] [0; 1]%nat
         Examples.day0 Examples.day0.
Proof.
  split; [by vm_compute|]. intros H. specialize (H 1).
  assert (1 ∈ DayNightDistributeStrategy.staff_of Examples.no_prefs
                DayNightDistributeStrategy.NeutralStaff [1; 1]) as Hin by (vm_compute; left).
  apply H in Hin. vm_compute in Hin. lia.
Qed.

(** C9, amended.  On a roster without repeated members, every member
    categorized as neutral holds at most one assignment after a run of
    [DayNightDistributeStrategy], and whoever is still in the neutral pool at
    the end holds none. *)
Theorem neutral_member_assigned_at_most_once
    (get_preferences : Z -> pref_lookup) (h : heap) (staff : list Z) (shifts : list nat)
    (start_date end_date : Z) :
  NoDup staff ->
  neutral_at_most_once get_preferences h staff shifts start_date end_date
  /\ forall p,
       p ∈ (DayNightDistributeStrategy.assign_all get_preferences
              (_reset_assignments h staff shifts) staff shifts).2 ->
       shift_count (DayNightDistributeStrategy.generate_schedule
                      get_preferences h staff shifts start_date end_date).2 p = O.
Proof.
  intros Hnd.
  pose proof (assign_all_pool_inv get_preferences staff Hnd h shifts) as (_ & Hpool & Hcount).
  unfold neutral_at_most_once, DayNightDistributeStrategy.generate_schedule.
  destruct (DayNightDistributeStrategy.assign_all _ _ _ _) as [h1 pool]. simpl in *.
  split.
  - intros p Hp. apply Hcount.
    + by apply list_elem_of_filter in Hp as [_ Hp].
    + by apply list_elem_of_filter in Hp as [Hp _].
  - intros p Hp. by apply Hpool.
Qed.

Lemma neutral_member_assigned_at_most_once_witness :
  NoDup [1; 2]
  /\ neutral_at_most_once Examples.no_prefs Examples.mixed_day_heap [1; 2] [0; 1]%nat
       Examples.day0 Examples.day0.
Proof.
  assert (NoDup [1; 2]) as Hnd by (apply (bool_decide_unpack _); vm_compute; reflexivity).
  split; [exact Hnd|].
  exact (proj1 (neutral_member_assigned_at_most_once Examples.no_prefs
                  Examples.mixed_day_heap [1; 2] [0; 1]%nat Examples.day0 Examples.day0
                  Hnd)).
Defined.

(** C10.  [_get_shift_times] for "night" returns only for [shift_num] up to
    1, returns for 0 and 1, and fails from 2 on, where the start hour
    [22 + shift_num] is 24 or more; so the catalog of a non-empty period with
    3 or more night shifts a day is not produced, and [auto_populate] with
    such parameters never reports success. *)
Theorem night_shift_times_partial :
  (forall date shift_num shifts_per_day t,
     Catalog._get_shift_times date shift_num shifts_per_day "night" = Return t ->
     shift_num <= 1)
  /\ (forall date shift_num shifts_per_day,
        1 <= date < MAXORDINAL -> 0 <= shift_num <= 1 ->
        Catalog._get_shift_times date shift_num shifts_per_day "night"
        = Return (CatalogSpec.slot "night" date shift_num))
  /\ (forall date shift_num shifts_per_day,
        2 <= shift_num ->
        raises (Catalog._get_shift_times date shift_num shifts_per_day "night") = true)
  /\ (forall schedule_id start_date end_date shifts_per_day,
        start_date <= end_date -> 3 <= shifts_per_day ->
        raises (Catalog._generate_shifts_for_period schedule_id start_date end_date
                  shifts_per_day "night") = true)
  /\ (forall get_preferences EvenDistributeStrategy MinimizeDaysStrategy
             admin_id schedule_id strategy_name staff_list start_date end_date
             shifts_per_day w o w',
        3 <= shifts_per_day ->
        auto_populate get_preferences EvenDistributeStrategy MinimizeDaysStrategy
          admin_id schedule_id strategy_name staff_list start_date end_date
          shifts_per_day "night" w = (Return o, w') ->
        success o = false).
Proof.
  split; [|split; [|split; [|split]]].
  - intros date n spd t Ht. apply get_shift_times_night_defined in Ht. lia.
  - intros date n spd Hd Hn. apply get_shift_times_slot; (done || lia).
  - intros date n spd Hn. by apply get_shift_times_night_hour.
  - intros sid sd ed spd Hle Hspd. by apply generate_night_shifts_raises.
  - intros gp E M aid sid name staff sd ed spd w o w' Hspd Hrun.
    destruct (decide (staff = [])) as [Hs|Hs].
    { destruct (auto_populate_rejected gp E M aid sid name staff sd ed spd "night" w)
        as [msg Hmsg]; [by left|]. congruence. }
    destruct (decide (ed < sd)) as [Hd|Hd].
    { destruct (auto_populate_rejected gp E M aid sid name staff sd ed spd "night" w)
        as [msg Hmsg]; [by right; left|]. congruence. }
    rewrite auto_populate_accepted in Hrun by (intros [?|[?|?]]; (done || lia)).
    pose proof (populate_night_raises gp E M sid name staff sd ed spd w ltac:(lia) Hspd) as Hr.
    destruct (populate gp E M sid name staff sd ed spd "night" w) as [[o'|e|] w'']; try done.
    by injection Hrun as <- _.
Qed.

Lemma night_shift_times_partial_witness :
  Examples.day0 <= Examples.day0 /\ 3 <= 3
  /\ raises (Catalog._generate_shifts_for_period 1 Examples.day0 Examples.day0 3 "night")
     = true.
Proof.
  assert (Examples.day0 <= Examples.day0) as Hd by lia.
  assert (3 <= 3) as Hs by lia.
  split; [exact Hd|]. split; [exact Hs|].
  exact (proj1 (proj2 (proj2 (proj2 night_shift_times_partial)))
           1 Examples.day0 Examples.day0 3 Hd Hs).
Defined.

(** * Further properties of the code *)

(** ** The catalog, whatever the parameters *)

Section CatalogShape.
Import Catalog.

Lemma replace_hour_inv dt h t :
  replace_hour dt h = Return t ->
  0 <= h <= 23
  /\ t = mk_datetime (dt_ordinal dt) h (dt_minute dt) (dt_second dt) (dt_microsecond dt).
Proof. unfold replace_hour. case_decide; [|done]. by intros [= <-]. Qed.

Lemma date_add_days_inv d n d' :
  date_add_days d n = Return d' -> d' = d + n /\ 1 <= d + n <= MAXORDINAL.
Proof. unfold date_add_days. case_decide; [|done]. by intros [= <-]. Qed.

(** The hours between two datetimes that are [c] microseconds apart. *)
Lemma hours_between_le (a b : datetime) (c n : Z) :
  micros b - micros a = c ->
  Qle_bool (float_div (int_true_div c 1000000) 3600) (inject_Z n) = true ->
  (hours_between a b <= inject_Z n)%Q.
Proof.
  intros Hc Hle. unfold hours_between, total_seconds. rewrite Hc. by apply Qle_bool_iff.
Qed.

(** What a returned [_get_shift_times] holds, for the shift numbers a
    [range] yields. *)
Lemma get_shift_times_shape date n spd ty t :
  0 <= n ->
  _get_shift_times date n spd ty = Return t ->
  dt_ordinal (st_start t) = date
  /\ valid_time (st_start t) /\ valid_time (st_end t)
  /\ micros (st_start t) < micros (st_end t)
  /\ (hours_between (st_start t) (st_end t) <= 8)%Q.
Proof.
  intros Hn. unfold _get_shift_times.
  destruct (String.eqb ty "day"); [|destruct (String.eqb ty "night")].
  - destruct (replace_hour (combine_min date) (8 + n)) as [s| |] eqn:Es; simpl; try done.
    destruct (replace_hour (combine_min date) (8 + n + 8)) as [e| |] eqn:Ee; simpl; try done.
    intros [= <-]. simpl.
    apply replace_hour_inv in Es as [Hs ->]. apply replace_hour_inv in Ee as [He ->].
    unfold valid_time, combine_min. simpl. repeat split; try lia.
    + unfold micros. simpl. lia.
    + apply (hours_between_le _ _ 28800000000 8); [unfold micros; simpl; lia|].
      vm_compute. reflexivity.
  - destruct (date_add_days date 1) as [d'| |] eqn:Ed; simpl; try done.
    destruct (replace_hour (combine_min date) (22 + n)) as [s| |] eqn:Es; simpl; try done.
    destruct (replace_hour (combine_min d') ((22 + n + 8) mod 24)) as [e| |] eqn:Ee;
      simpl; try done.
    intros [= <-]. simpl.
    apply date_add_days_inv in Ed as [-> Hd].
    apply replace_hour_inv in Es as [Hs ->]. apply replace_hour_inv in Ee as [He ->].
    assert ((22 + n + 8) mod 24 = 6 + n) as Hm.
    { replace (22 + n + 8) with ((6 + n) + 1 * 24) by lia.
      rewrite Z.mod_add by lia. apply Z.mod_small. lia. }
    rewrite Hm in *.
    unfold valid_time, combine_min. simpl. repeat split; try lia.
    + unfold micros. simpl. lia.
    + apply (hours_between_le _ _ 28800000000 8); [unfold micros; simpl; lia|].
      vm_compute. reflexivity.
  - destruct (n =? 0); simpl; intros [= <-]; simpl;
      (unfold valid_time, combine_min; simpl; repeat split; try lia;
       [unfold micros; simpl; lia
       |first [apply (hours_between_le _ _ 28800000000 8);
                 [unfold micros; simpl; lia|vm_compute; reflexivity]
              |apply (hours_between_le _ _ 28740000000 8);
                 [unfold micros; simpl; lia|vm_compute; reflexivity]]]).
Qed.

Lemma day_loop_returns date spd ty nums acc l :
  (forall n, n ∈ nums -> 0 <= n) ->
  day_loop date spd ty nums acc = Return l ->
  exists new, l = (acc ++ new)%list /\ length new = length nums
              /\ Forall (catalog_shift ty date date) new.
Proof.
  revert acc. induction nums as [|n nums IH]; intros acc Hpos; simpl.
  - intros [= <-]. exists []. by rewrite app_nil_r.
  - destruct (_get_shift_times date n spd ty) as [t| |] eqn:Et; simpl; try done.
    intros Hl. apply IH in Hl as (new & -> & Hlen & Hall).
    2:{ intros m Hm. apply Hpos. by right. }
    exists (MockShift ty (st_start t) (st_end t) :: new). split; [by rewrite <- app_assoc|].
    split; [simpl; by rewrite Hlen|]. constructor; [|done].
    apply get_shift_times_shape in Et as (Hd & Hs & He & Hlt & Hdur); [|apply Hpos; by left].
    exists (st_start t), (st_end t). split; [done|]. split; [lia|]. done.
Qed.

Lemma catalog_shift_weaken ty a b a' b' s :
  a' <= a -> b <= b' -> catalog_shift ty a b s -> catalog_shift ty a' b' s.
Proof.
  intros Ha Hb (x & y & -> & Hd & H). exists x, y. split; [done|]. split; [lia|exact H].
Qed.

Lemma period_loop_returns fuel cur end_date spd ty acc l :
  period_loop fuel cur end_date spd ty acc = Return l ->
  exists new, l = (acc ++ new)%list
              /\ length new = (Z.to_nat (end_date - cur + 1) * Z.to_nat spd)%nat
              /\ Forall (catalog_shift ty cur end_date) new.
Proof.
  revert cur acc. induction fuel as [|fuel IH]; intros cur acc; simpl.
  - case_decide; [done|]. intros [= <-]. exists []. rewrite app_nil_r.
    replace (Z.to_nat (end_date - cur + 1)) with O by lia. done.
  - case_decide as Hle.
    + destruct (day_loop cur spd ty (range spd) acc) as [l1| |] eqn:E1; simpl; try done.
      destruct (date_add_days cur 1) as [next| |] eqn:E2; simpl; try done.
      apply date_add_days_inv in E2 as [-> _].
      intros Hl. apply IH in Hl as (new2 & -> & Hlen2 & Hall2).
      apply day_loop_returns in E1 as (new1 & -> & Hlen1 & Hall1).
      2:{ intros n Hn. apply range_spec in Hn. lia. }
      exists (new1 ++ new2)%list. split; [by rewrite app_assoc|]. split.
      * rewrite length_app, Hlen1, Hlen2. unfold range. rewrite length_map, length_seq.
        replace (Z.to_nat (end_date - cur + 1))
          with (S (Z.to_nat (end_date - (cur + 1) + 1))) by lia.
        lia.
      * apply Forall_app. split.
        -- eapply Forall_impl; [exact Hall1|]. intros s. apply catalog_shift_weaken; lia.
        -- eapply Forall_impl; [exact Hall2|]. intros s. apply catalog_shift_weaken; lia.
    + intros [= <-]. exists []. rewrite app_nil_r.
      replace (Z.to_nat (end_date - cur + 1)) with O by lia. done.
Qed.

End CatalogShape.

(** X1.  Catalog generation is all or nothing: whenever
    [_generate_shifts_for_period] returns, for any parameters, the catalog has
    exactly one shift per day of the window and shift number, that is
    [days * shifts_per_day] shifts. *)
Theorem catalog_size (schedule_id start_date end_date shifts_per_day : Z)
    (shift_type : string) (shifts : list Shift) :
  Catalog._generate_shifts_for_period schedule_id start_date end_date shifts_per_day
    shift_type = Return shifts ->
  length shifts
  = (Z.to_nat (end_date - start_date + 1) * Z.to_nat shifts_per_day)%nat.
Proof.
  intros H. apply period_loop_returns in H as (new & -> & Hlen & _). exact Hlen.
Qed.

Lemma catalog_size_witness :
  Catalog._generate_shifts_for_period 1 Examples.day0 (Examples.day0 + 2) 2 "night"
  = Return (CatalogSpec.catalog Examples.day0 (Examples.day0 + 2) 2 "night")
  /\ length (CatalogSpec.catalog Examples.day0 (Examples.day0 + 2) 2 "night") = 6%nat.
Proof.
  assert (Catalog._generate_shifts_for_period 1 Examples.day0 (Examples.day0 + 2) 2 "night"
          = Return (CatalogSpec.catalog Examples.day0 (Examples.day0 + 2) 2 "night")) as H
    by (vm_compute; reflexivity).
  split; [exact H|].
  exact (catalog_size 1 Examples.day0 (Examples.day0 + 2) 2 "night" _ H).
Defined.

(** X2.  Every shift of a returned catalog is a [MockShift] (capacity 1, no
    required skills, the requested type tag) that starts on a day of the
    window, at a valid time of day, and ends strictly later and at most 8
    hours later. *)
Theorem catalog_shifts_shape (schedule_id start_date end_date shifts_per_day : Z)
    (type_tag : string) (shifts : list Shift) :
  Catalog._generate_shifts_for_period schedule_id start_date end_date shifts_per_day
    type_tag = Return shifts ->
  Forall (fun s => catalog_shift type_tag start_date end_date s
                   /\ required_staff s = Some 1
                   /\ required_skills s = Some []
                   /\ shift_type s = Some type_tag) shifts.
Proof.
  intros H. apply period_loop_returns in H as (new & -> & _ & Hall). simpl.
  eapply Forall_impl; [exact Hall|].
  intros s Hs. split; [done|]. by destruct Hs as (a & b & -> & _).
Qed.

Lemma catalog_shifts_shape_witness :
  Catalog._generate_shifts_for_period 1 Examples.day0 Examples.day0 2 "mixed"
  = Return (CatalogSpec.catalog Examples.day0 Examples.day0 2 "mixed")
  /\ Forall (fun s => catalog_shift "mixed" Examples.day0 Examples.day0 s
                      /\ required_staff s = Some 1
                      /\ required_skills s = Some []
                      /\ shift_type s = Some "mixed")
            (CatalogSpec.catalog Examples.day0 Examples.day0 2 "mixed").
Proof.
  assert (Catalog._generate_shifts_for_period 1 Examples.day0 Examples.day0 2 "mixed"
          = Return (CatalogSpec.catalog Examples.day0 Examples.day0 2 "mixed")) as H
    by (vm_compute; reflexivity).
  split; [exact H|].
  exact (catalog_shifts_shape 1 Examples.day0 Examples.day0 2 "mixed" _ H).
Defined.

(** ** The deletion window and the persisted table *)

Lemma in_window_days sid sd ed row :
  valid_time (row_start row) ->
  in_window sid sd ed row = true <-> row_in_days sid sd ed row.
Proof.
  intros (Hh & Hm & Hs & Hu). unfold in_window, row_in_days, dt_leb, combine_min, combine_max.
  rewrite !andb_true_iff, Z.eqb_eq, !Z.leb_le. unfold micros. simpl. split.
  - intros [[-> H1] H2]. split; [done|].
    split.
    + destruct (Z_le_gt_dec sd (dt_ordinal (row_start row))); [done|lia].
    + destruct (Z_le_gt_dec (dt_ordinal (row_start row)) ed); [done|lia].
  - intros [-> H]. repeat split; lia.
Qed.

Lemma length_filter_split {A} (f : A -> bool) (l : list A) :
  length l
  = (length (filter (fun x => f x = false) l) + length (filter (fun x => f x = true) l))%nat.
Proof.
  induction l as [|x l IH]; [done|].
  rewrite !filter_cons. destruct (f x) eqn:E.
  - rewrite decide_False, decide_True by done. simpl. lia.
  - rewrite decide_True, decide_False by done. simpl. lia.
Qed.

Lemma session_commit_inv d r d' :
  session_commit d = (r, d') ->
  (r = Return () /\ committed d' = session d /\ session d' = session d)
  \/ ((exists e, r = Raise e) /\ committed d' = committed d /\ session d' = session d).
Proof.
  unfold session_commit. destruct (commit_faults d) as [|[] faults]; intros [= <- <-]; simpl.
  - by left.
  - right. split; [by eexists|done].
  - by left.
Qed.

Lemma clear_existing_shifts_inv sid sd ed d r d' :
  _clear_existing_shifts sid sd ed d = (r, d') ->
  session d' = filter (fun row => in_window sid sd ed row = false) (session d)
  /\ ((r = Return (Z.of_nat (length (filter (fun row => in_window sid sd ed row = true)
                                            (session d))))
       /\ committed d' = session d')
      \/ ((exists e, r = Raise e) /\ committed d' = committed d)).
Proof.
  unfold _clear_existing_shifts.
  destruct (session_commit _) as [r1 d1] eqn:E. intros [= <- <-].
  apply session_commit_inv in E as [(-> & Hc & Hs)|((e & ->) & Hc & Hs)]; simpl in *.
  - split; [done|]. left. split; [done|congruence].
  - split; [done|]. right. split; [by eexists|done].
Qed.

(** X3.  When [_clear_existing_shifts] returns, the persisted table holds
    exactly the rows the session saw that belong to another schedule or start
    on a day outside [[start_date, end_date]] (whole days, both ends
    included), and the count returned is the number of rows removed. *)
Theorem clear_existing_shifts_whole_days (schedule_id start_date end_date : Z)
    (d d' : database) (n : Z) :
  _clear_existing_shifts schedule_id start_date end_date d = (Return n, d') ->
  (forall row, valid_time (row_start row) ->
     (row ∈ committed d'
      <-> row ∈ session d /\ ~ row_in_days schedule_id start_date end_date row))
  /\ Z.of_nat (length (session d)) = Z.of_nat (length (committed d')) + n.
Proof.
  intros H. apply clear_existing_shifts_inv in H as [Hs [[[= ->] Hc]|[[e [=]] _]]].
  rewrite Hc, Hs. split.
  - intros row Hv. rewrite list_elem_of_filter, <- in_window_days by done.
    destruct (in_window _ _ _ row); split; intros [? ?]; (done || by split).
  - rewrite <- Nat2Z.inj_add. f_equal. apply length_filter_split.
Qed.

Lemma clear_existing_shifts_whole_days_witness :
  _clear_existing_shifts 1 Examples.day0 Examples.day0
    (db Examples.world_with_old_row)
  = (Return 1, Examples.empty_db)
  /\ Z.of_nat (length (session (db Examples.world_with_old_row)))
     = Z.of_nat (length (committed Examples.empty_db)) + 1.
Proof.
  assert (_clear_existing_shifts 1 Examples.day0 Examples.day0
            (db Examples.world_with_old_row) = (Return 1, Examples.empty_db)) as H
    by (vm_compute; reflexivity).
  split; [exact H|].
  exact (proj2 (clear_existing_shifts_whole_days 1 Examples.day0 Examples.day0 _ _ 1 H)).
Defined.

(** ** Runs of [auto_populate] *)

Lemma session_add_all d rows :
  committed (foldl (fun d row => session_add row d) d rows) = committed d
  /\ session (foldl (fun d row => session_add row d) d rows) = (session d ++ rows)%list
  /\ commit_faults (foldl (fun d row => session_add row d) d rows) = commit_faults d.
Proof.
  revert d. induction rows as [|row rows IH]; intros d; simpl.
  - by rewrite app_nil_r.
  - destruct (IH (session_add row d)) as (-> & -> & ->). simpl.
    by rewrite <- app_assoc.
Qed.

Lemma get_assignments_cons h s shifts l :
  _get_assignments_list h (s :: shifts) = Return l ->
  exists entries more,
    l = (entries ++ more)%list /\ _get_assignments_list h shifts = Return more
    /\ ((default [] (assigned_staff h !! s) = [] /\ entries = [])
        \/ exists a b, shift_attr h s start_time = Some a /\ shift_attr h s end_time = Some b
                       /\ entries = map (fun p => mk_assignment p (Some a) (Some b))
                                        (default [] (assigned_staff h !! s))).
Proof.
  cbn [_get_assignments_list]. unfold assignments_of.
  destruct (default [] (assigned_staff h !! s)) as [|p ps] eqn:Es.
  - simpl. destruct (_get_assignments_list h shifts) as [more| |]; simpl; try done.
    intros [= <-]. exists [], more. split; [done|]. split; [done|]. by left.
  - destruct (shift_attr h s start_time) as [a|], (shift_attr h s end_time) as [b|];
      simpl; try done.
    destruct (_get_assignments_list h shifts) as [more| |]; simpl; try done.
    intros [= <-].
    exists (map (fun p => mk_assignment p (Some a) (Some b)) (p :: ps)), more.
    split; [done|]. split; [done|]. right. by exists a, b.
Qed.

Lemma rows_of_assignments h sid shifts l :
  _get_assignments_list h shifts = Return l ->
  rows_to_save h sid shifts = omap (row_of_assignment sid) l.
Proof.
  unfold rows_to_save. revert l.
  induction shifts as [|s shifts IH]; intros l; [by intros [= <-]|].
  intros (entries & more & -> & Hmore & Hs)%get_assignments_cons. cbn [flat_map].
  rewrite omap_app, <- (IH more Hmore). f_equal.
  destruct Hs as [[-> ->]|(a & b & -> & -> & ->)]; [done|].
  generalize (default [] (assigned_staff h !! s)) as ps. intros ps.
  induction ps as [|p ps IHp]; [done|]. cbn [flat_map map app].
  by rewrite IHp.
Qed.

Lemma rows_to_save_schedule h sid shifts :
  Forall (fun row => row_schedule_id row = sid) (rows_to_save h sid shifts).
Proof.
  unfold rows_to_save. apply Forall_forall. intros row Hin.
  apply list_elem_of_In, in_flat_map in Hin as (s & _ & Hin).
  apply in_flat_map in Hin as (p & _ & Hin).
  destruct (shift_attr h s start_time), (shift_attr h s end_time); simpl in Hin; try tauto.
  by destruct Hin as [<-|[]].
Qed.

Section PopulateRuns.

Variable get_preferences : Z -> pref_lookup.
Variables EvenDistributeStrategy MinimizeDaysStrategy : strategy.

Local Notation "'run_populate'" :=
  (populate get_preferences EvenDistributeStrategy MinimizeDaysStrategy).
Local Notation "'run_auto_populate'" :=
  (auto_populate get_preferences EvenDistributeStrategy MinimizeDaysStrategy).
Local Notation "'client_generate'" :=
  (ScheduleClient_generate_schedule get_preferences EvenDistributeStrategy
     MinimizeDaysStrategy).

(** The rows kept by the clearing step. *)
Local Notation "'kept' sid sd ed w" :=
  (filter (fun row => in_window sid sd ed row = false) (session (db w)))
  (at level 10, sid at level 9, sd at level 9, ed at level 9, w at level 9).

(** What a run of the [try] body leaves in the database, by outcome. *)
Lemma populate_inv sid name staff sd ed spd ty w r w' :
  run_populate sid name staff sd ed spd ty w = (r, w') ->
  match r with
  | Return o =>
      exists objs refs h1 res,
        Catalog._generate_shifts_for_period sid sd ed spd ty = Return objs
        /\ alloc_shifts (objects w) objs = (refs, h1)
        /\ client_generate h1 name staff refs sd ed = (Return res, objects w')
        /\ committed (db w') = (kept sid sd ed w ++ rows_to_save (objects w') sid refs)%list
        /\ session (db w') = committed (db w')
        /\ exists assignments,
             _get_assignments_list (objects w') refs = Return assignments
             /\ o = Success sid (Z.of_nat (length (rows_to_save (objects w') sid refs)))
                      (Z.of_nat (length (filter (fun row => in_window sid sd ed row = true)
                                                (session (db w)))))
                      (default 0%Q (dict_get (res_scores res) "score"))
                      (default ∅ (res_summary res))
                      assignments name
  | Raise e =>
      committed (db w') = committed (db w)
      \/ (exists rows, Forall (fun row => row_schedule_id row = sid) rows
                       /\ committed (db w') = (kept sid sd ed w ++ rows)%list)
  | OutOfFuel => False
  end.
Proof.
  unfold populate, mbind, M_bind, on_db, on_heap, lift, read_heap, mret, M_ret,
    _save_shifts_to_db.
  destruct (_clear_existing_shifts sid sd ed (db w)) as [r1 d1] eqn:E1.
  apply clear_existing_shifts_inv in E1 as [Hs1 [[-> Hc1]|[[e ->] Hc1]]]; simpl.
  2:{ intros [= <- <-]. by left. }
  destruct (Catalog._generate_shifts_for_period sid sd ed spd ty) as [objs| |] eqn:E2; simpl.
  2:{ intros [= <- <-]. simpl. right. exists []. rewrite app_nil_r. split; [done|congruence]. }
  2:{ by apply generate_shifts_completes in E2. }
  destruct (alloc_shifts (objects w) objs) as [refs h1] eqn:E3. simpl.
  destruct (client_generate h1 name staff refs sd ed) as [[res|e|] h2] eqn:E4; simpl.
  2:{ intros [= <- <-]. simpl. right. exists []. rewrite app_nil_r. split; [done|congruence]. }
  2:{ by apply client_generate_completes in E4. }
  destruct (session_commit (foldl _ _ _)) as [r5 d5] eqn:E5.
  pose proof (session_add_all d1 (rows_to_save h2 sid refs)) as (Ha1 & Ha2 & _).
  apply session_commit_inv in E5 as [(-> & Hc5 & Hs5)|((e & ->) & Hc5 & Hs5)]; simpl.
  2:{ intros [= <- <-]. simpl. right. exists []. rewrite app_nil_r. split; [done|congruence]. }
  destruct (_validate_schedule_results _ _) as [[]| |] eqn:E6; simpl.
  - destruct (_get_assignments_list h2 refs) as [l|e|] eqn:E7; simpl.
    + intros [= <- <-]. simpl. exists objs, refs, h1, res.
      split; [done|]. split; [done|]. split; [done|]. split; [congruence|].
      split; [congruence|]. by exists l.
    + intros [= <- <-]. simpl. right. exists (rows_to_save h2 sid refs).
      split; [apply rows_to_save_schedule|congruence].
    + by apply get_assignments_completes in E7.
  - intros [= <- <-]. simpl. right. exists (rows_to_save h2 sid refs).
    split; [apply rows_to_save_schedule|congruence].
  - by apply validate_completes in E6.
Qed.

End PopulateRuns.

Lemma in_window_other_schedule sid sd ed row :
  row_schedule_id row <> sid -> in_window sid sd ed row = false.
Proof.
  intros Hne. unfold in_window. destruct (Z.eqb_spec (row_schedule_id row) sid); [done|].
  reflexivity.
Qed.

Lemma other_schedule_kept sid sd ed rows new row :
  row_schedule_id row <> sid ->
  Forall (fun r => row_schedule_id r = sid) new ->
  row ∈ (filter (fun r => in_window sid sd ed r = false) rows ++ new)%list <-> row ∈ rows.
Proof.
  intros Hne Hnew. rewrite elem_of_app, list_elem_of_filter. split.
  - intros [[_ ?]|Hin]; [done|]. rewrite Forall_forall in Hnew. by apply Hnew in Hin.
  - intros Hin. left. split; [by apply in_window_other_schedule|done].
Qed.

(** The outcome and final world of an accepted call, from the run of its
    [try] body. *)
Lemma auto_populate_run gp E M aid sid name staff sd ed spd ty w r w' :
  auto_populate gp E M aid sid name staff sd ed spd ty w = (r, w') ->
  (rejected staff sd ed spd /\ w' = w /\ exists msg, r = Raise (ValueError msg))
  \/ (~ rejected staff sd ed spd
      /\ exists r0 w0,
           populate gp E M sid name staff sd ed spd ty w = (r0, w0)
           /\ match r0 with
              | Return o => r = Return o /\ w' = w0
              | Raise e =>
                  r = Return (Failure ("Failed to auto-generate schedule: " ++ exn_str e))
                  /\ w' = {| db := session_rollback (db w0); objects := objects w0 |}
              | OutOfFuel => False
              end).
Proof.
  intros Hrun.
  assert (Decision (rejected staff sd ed spd)) as [Hrej|Hacc].
  { unfold rejected. apply _. }
  - left. destruct (auto_populate_rejected gp E M aid sid name staff sd ed spd ty w Hrej)
      as [msg Hmsg].
    rewrite Hmsg in Hrun. injection Hrun as <- <-. split; [done|]. split; [done|by eexists].
  - right. split; [done|]. rewrite auto_populate_accepted in Hrun by done.
    destruct (populate gp E M sid name staff sd ed spd ty w) as [r0 w0] eqn:E0.
    exists r0, w0. split; [done|].
    destruct r0 as [o|e|]; try (by injection Hrun as <- <-).
    pose proof (populate_completes gp E M sid name staff sd ed spd ty w) as Hc.
    by rewrite E0 in Hc.
Qed.

(** X4.  What a successful [auto_populate] leaves persisted: the rows the
    session saw outside the cleared window, followed by one row per reported
    assignment that carries both times, in the order reported; nothing is
    left pending, and the two counts returned are the numbers of rows created
    and deleted. *)
Theorem auto_populate_success_accounting
    (get_preferences : Z -> pref_lookup)
    (EvenDistributeStrategy MinimizeDaysStrategy : strategy)
    (admin_id schedule_id : Z) (strategy_name : string) (staff_list : list Z)
    (start_date end_date shifts_per_day : Z) (type_tag : string) (w w' : world)
    (sid created deleted : Z) (score : Q) (summary : gmap string Q)
    (assignments : list assignment) (used : string) :
  auto_populate get_preferences EvenDistributeStrategy MinimizeDaysStrategy
    admin_id schedule_id strategy_name staff_list start_date end_date shifts_per_day
    type_tag w
  = (Return (Success sid created deleted score summary assignments used), w') ->
  sid = schedule_id /\ used = strategy_name
  /\ committed (db w')
     = (filter (fun row => in_window schedule_id start_date end_date row = false)
               (session (db w))
        ++ omap (row_of_assignment schedule_id) assignments)%list
  /\ session (db w') = committed (db w')
  /\ created = Z.of_nat (length (omap (row_of_assignment schedule_id) assignments))
  /\ deleted = Z.of_nat (length (filter (fun row => in_window schedule_id start_date
                                                      end_date row = true)
                                        (session (db w)))).
Proof.
  intros Hrun. apply auto_populate_run in Hrun as [(_ & _ & msg & [=])|(_ & r0 & w0 & Hp & Hr)].
  destruct r0 as [o|e|]; [|by destruct Hr|done]. destruct Hr as [[= <-] ->].
  apply populate_inv in Hp
    as (objs & refs & h1 & res & _ & _ & _ & Hc & Hs & l & Hl & [= -> -> -> -> -> -> ->]).
  rewrite <- (rows_of_assignments _ _ _ _ Hl). by repeat split.
Qed.

Lemma auto_populate_success_accounting_witness :
  match MoreExamples.success_run with
  | (Return (Success sid created deleted _ _ assignments used), w') =>
      sid = 1 /\ used = "preference-based"
      /\ committed (db w') = omap (row_of_assignment 1) assignments
      /\ created = 2 /\ deleted = 1
  | _ => False
  end.
Proof.
  unfold MoreExamples.success_run, Examples.auto_populate_example.
  destruct (auto_populate _ _ _ _ _ _ _ _ _ _ _ _)
    as [[[sid created deleted score summary assignments used|msg]|e|] w'] eqn:E;
    try (vm_compute in E; discriminate).
  pose proof (auto_populate_success_accounting _ _ _ _ _ _ _ _ _ _ _ _ _ _ _ _ _ _ _ _ E)
    as (Hsid & Hused & Hc & _ & _ & _).
  vm_compute in E. injection E as <- <- <- _ _ _ _ _.
  repeat split; done.
Defined.

(** X5.  For the two strategies of the sources that the client registers,
    the [score] a successful [auto_populate] reports is 0 whatever the
    schedule: the client reads the key ["score"], and these strategies return
    their score under ["preference_score"] and ["distribution_score"]. *)
Theorem auto_populate_score_is_zero
    (get_preferences : Z -> pref_lookup)
    (EvenDistributeStrategy MinimizeDaysStrategy : strategy)
    (admin_id schedule_id : Z) (strategy_name : string) (staff_list : list Z)
    (start_date end_date shifts_per_day : Z) (type_tag : string) (w w' : world)
    (sid created deleted : Z) (score : Q) (summary : gmap string Q)
    (assignments : list assignment) (used : string) :
  strategy_name = "preference-based" \/ strategy_name = "day-night-distribute" ->
  auto_populate get_preferences EvenDistributeStrategy MinimizeDaysStrategy
    admin_id schedule_id strategy_name staff_list start_date end_date shifts_per_day
    type_tag w
  = (Return (Success sid created deleted score summary assignments used), w') ->
  score = 0%Q.
Proof.
  intros Hname Hrun.
  apply auto_populate_run in Hrun as [(_ & _ & msg & [=])|(_ & r0 & w0 & Hp & Hr)].
  destruct r0 as [o|e|]; [|by destruct Hr|done]. destruct Hr as [[= <-] ->].
  apply populate_inv in Hp
    as (objs & refs & h1 & res & _ & _ & Hg & _ & _ & l & _ & [= _ _ _ -> _ _ _]).
  unfold ScheduleClient_generate_schedule in Hg.
  destruct Hname as [-> | ->]; simpl in Hg.
  - unfold call, PreferenceBased, total_strategy in Hg.
    destruct (PreferenceBasedStrategy.generate_schedule _ _ _ _ _ _) as [r h2] eqn:Eg.
    injection Hg as <- _. unfold PreferenceBasedStrategy.generate_schedule in Eg.
    by injection Eg as <- _.
  - unfold call, DayNightDistribute, total_strategy in Hg.
    destruct (DayNightDistributeStrategy.generate_schedule _ _ _ _ _ _) as [r h2] eqn:Eg.
    injection Hg as <- _. unfold DayNightDistributeStrategy.generate_schedule in Eg.
    destruct (DayNightDistributeStrategy.assign_all _ _ _ _) as [h3 pool].
    by injection Eg as <- _.
Qed.

Lemma auto_populate_score_is_zero_witness :
  match MoreExamples.success_run with
  | (Return (Success _ _ _ score _ _ _), _) => score = 0%Q
  | _ => False
  end.
Proof.
  unfold MoreExamples.success_run, Examples.auto_populate_example.
  destruct (auto_populate _ _ _ _ _ _ _ _ _ _ _ _)
    as [[[sid created deleted score summary assignments used|msg]|e|] w'] eqn:E;
    try (vm_compute in E; discriminate).
  exact (auto_populate_score_is_zero _ _ _ _ _ _ _ _ _ _ _ _ _ _ _ _ _ _ _ _
           (or_introl eq_refl) E).
Defined.

(** X6.  A call that returns a failure outcome leaves no pending change in
    the session: the transaction view equals the persisted table. *)
Theorem auto_populate_failure_leaves_session_clean
    (get_preferences : Z -> pref_lookup)
    (EvenDistributeStrategy MinimizeDaysStrategy : strategy)
    (admin_id schedule_id : Z) (strategy_name : string) (staff_list : list Z)
    (start_date end_date shifts_per_day : Z) (type_tag : string) (w w' : world)
    (message : string) :
  auto_populate get_preferences EvenDistributeStrategy MinimizeDaysStrategy
    admin_id schedule_id strategy_name staff_list start_date end_date shifts_per_day
    type_tag w
  = (Return (Failure message), w') ->
  session (db w') = committed (db w').
Proof.
  intros Hrun.
  apply auto_populate_run in Hrun as [(_ & _ & msg & [=])|(_ & r0 & w0 & Hp & Hr)].
  destruct r0 as [o|e|]; [| |done].
  - destruct Hr as [[= <-] ->]. by apply populate_returns_success in Hp.
  - destruct Hr as [_ ->]. reflexivity.
Qed.

Lemma auto_populate_failure_leaves_session_clean_witness :
  match MoreExamples.failure_run with
  | (Return (Failure _), w') => session (db w') = committed (db w')
  | _ => False
  end.
Proof.
  unfold MoreExamples.failure_run, Examples.auto_populate_example.
  destruct (auto_populate _ _ _ _ _ _ _ _ _ _ _ _)
    as [[[sid created deleted score summary assignments used|msg]|e|] w'] eqn:E;
    try (vm_compute in E; discriminate).
  exact (auto_populate_failure_leaves_session_clean _ _ _ _ _ _ _ _ _ _ _ _ _ _ E).
Defined.

(** X7.  Started with nothing pending, a call to [auto_populate] changes no
    persisted row of another schedule, whatever its outcome. *)
Theorem auto_populate_keeps_other_schedules
    (get_preferences : Z -> pref_lookup)
    (EvenDistributeStrategy MinimizeDaysStrategy : strategy)
    (admin_id schedule_id : Z) (strategy_name : string) (staff_list : list Z)
    (start_date end_date shifts_per_day : Z) (type_tag : string) (w : world) :
  session (db w) = committed (db w) ->
  forall row, row_schedule_id row <> schedule_id ->
    row ∈ committed (db (auto_populate get_preferences EvenDistributeStrategy
                           MinimizeDaysStrategy admin_id schedule_id strategy_name
                           staff_list start_date end_date shifts_per_day type_tag w).2)
    <-> row ∈ committed (db w).
Proof.
  intros Hclean row Hrow.
  destruct (auto_populate _ _ _ _ _ _ _ _ _ _ _ _) as [r w'] eqn:Hrun. simpl.
  apply auto_populate_run in Hrun as [(_ & -> & _)|(_ & r0 & w0 & Hp & Hr)]; [done|].
  apply populate_inv in Hp. destruct r0 as [o|e|]; [| |done].
  - destruct Hr as [_ ->].
    destruct Hp as (objs & refs & h1 & res & _ & _ & _ & -> & _).
    rewrite Hclean. apply other_schedule_kept; [done|apply rows_to_save_schedule].
  - destruct Hr as [_ ->]. simpl.
    destruct Hp as [-> | (rows & Hrows & ->)]; [done|].
    rewrite Hclean. by apply other_schedule_kept.
Qed.

(** ** Assignment traces *)

Section Traces.
Import DayNightDistributeStrategy.

Lemma preference_based_assign_shift :
  PreferenceBasedStrategy._assign_shift = _assign_shift.
Proof. reflexivity. Qed.

Lemma assigns_weaken (G G' : heap -> Z -> nat -> Prop) h h' :
  (forall h p s, G h p s -> G' h p s) -> assigns G h h' -> assigns G' h h'.
Proof. intros HG. induction 1; [constructor|]. constructor; auto. Qed.

Lemma assigns_trans G h1 h2 h3 : assigns G h1 h2 -> assigns G h2 h3 -> assigns G h1 h3.
Proof. intros H12 H23. induction H23; [done|]. constructor; auto. Qed.

Lemma assigns_one (G : heap -> Z -> nat -> Prop) h p s :
  G h p s -> assigns G h (_assign_shift h p s).
Proof. intros HG. constructor; [constructor|done]. Qed.

Lemma assigns_shift_attrs G h h' : assigns G h h' -> shift_attrs h' = shift_attrs h.
Proof. induction 1; [done|]. simpl. done. Qed.

Lemma assigned_to_assign h p s s' :
  assigned_to (_assign_shift h p s) s'
  = if decide (s' = s) then (assigned_to h s' ++ [p])%list else assigned_to h s'.
Proof.
  unfold assigned_to, _assign_shift. simpl. case_decide as Hs.
  - subst. by rewrite lookup_insert_eq.
  - by rewrite lookup_insert_ne.
Qed.

Lemma shifts_of_assign h p s p' :
  shifts_of (_assign_shift h p s) p'
  = if decide (p' = p) then (shifts_of h p' ++ [s])%list else shifts_of h p'.
Proof.
  unfold shifts_of, _assign_shift. simpl. case_decide as Hp.
  - subst. by rewrite lookup_insert_eq.
  - by rewrite lookup_insert_ne.
Qed.

Lemma hours_of_assign h p s p' :
  hours_of (_assign_shift h p s) p'
  = if decide (p' = p) then float_add (hours_of h p') (_get_shift_duration h s)
    else hours_of h p'.
Proof.
  unfold hours_of, _assign_shift. simpl. case_decide as Hp.
  - subst. by rewrite lookup_insert_eq.
  - by rewrite lookup_insert_ne.
Qed.

(** What reads only the written-once attributes of shifts is the same in two
    heaps with the same shift objects. *)
Lemma shift_attr_same {A} h h' s (f : Shift -> option A) :
  shift_attrs h' = shift_attrs h -> shift_attr h' s f = shift_attr h s f.
Proof. unfold shift_attr. by intros ->. Qed.

Lemma duration_same h h' s :
  shift_attrs h' = shift_attrs h -> _get_shift_duration h' s = _get_shift_duration h s.
Proof. intros H. unfold _get_shift_duration. by rewrite !(shift_attr_same h h') by done. Qed.

Lemma capacity_same h h' s :
  shift_attrs h' = shift_attrs h -> capacity h' s = capacity h s.
Proof. intros H. unfold capacity. by rewrite (shift_attr_same h h'). Qed.

Lemma hours_sum_same h h' l :
  shift_attrs h' = shift_attrs h -> hours_sum h' l = hours_sum h l.
Proof.
  intros H. unfold hours_sum. f_equal. apply map_ext. intros s. by apply duration_same.
Qed.

Lemma in_day_bucket_same h h' s :
  shift_attrs h' = shift_attrs h -> in_day_bucket h' s = in_day_bucket h s.
Proof.
  intros H. unfold in_day_bucket, _get_shift_type. by rewrite (shift_attr_same h h').
Qed.

Lemma day_night_can_work_same gp h h' p s :
  shift_attrs h' = shift_attrs h -> _can_work_shift gp h' p s = _can_work_shift gp h p s.
Proof. intros H. unfold _can_work_shift. by rewrite !(shift_attr_same h h') by done. Qed.

Lemma preference_based_can_work_same h h' p s prefs :
  shift_attrs h' = shift_attrs h ->
  PreferenceBasedStrategy._can_work_shift h' p s prefs
  = PreferenceBasedStrategy._can_work_shift h p s prefs.
Proof.
  intros H. unfold PreferenceBasedStrategy._can_work_shift.
  by rewrite !(shift_attr_same h h') by done.
Qed.

(** No shift is filled past the room the guard asks for. *)
Lemma assigns_capacity G h h' s :
  (forall h p s, G h p s -> Z.of_nat (length (assigned_to h s)) < capacity h s) ->
  assigns G h h' ->
  Z.of_nat (length (assigned_to h' s))
  <= Z.max (Z.of_nat (length (assigned_to h s))) (capacity h s).
Proof.
  intros HG. induction 1 as [h|h h' p s0 Hassigns IH Hguard]; [lia|].
  rewrite assigned_to_assign. case_decide as Hs; [|done]. subst.
  rewrite length_app. simpl. apply HG in Hguard.
  rewrite (capacity_same h h') in Hguard by (by eapply assigns_shift_attrs). lia.
Qed.

(** The hours of a member stay the sum of the durations of their shifts. *)
Lemma assigns_hours G h h' p :
  assigns G h h' ->
  total_hours h !! p = Some (hours_sum h (shifts_of h p)) ->
  total_hours h' !! p = Some (hours_sum h' (shifts_of h' p)).
Proof.
  intros Hassigns H0. induction Hassigns as [h|h h' p0 s0 Hassigns IH]; [done|].
  specialize (IH H0).
  rewrite (hours_sum_same h' (_assign_shift h' p0 s0)) by done.
  rewrite shifts_of_assign. unfold _assign_shift at 1. simpl.
  case_decide as Hp.
  - subst. rewrite lookup_insert_eq, IH. simpl. f_equal.
    unfold hours_sum. by rewrite map_app, foldl_app.
  - by rewrite lookup_insert_ne.
Qed.

(** Every shift a member holds was there before or was assigned under the
    guard, in a heap with the same shift objects. *)
Lemma assigns_shifts_of G h h' p s :
  assigns G h h' -> s ∈ shifts_of h' p ->
  s ∈ shifts_of h p \/ exists h1, shift_attrs h1 = shift_attrs h /\ G h1 p s.
Proof.
  induction 1 as [h|h h' p0 s0 Hassigns IH Hguard]; [by left|].
  rewrite shifts_of_assign. case_decide as Hp; [|done]. subst.
  intros [Hin| ->%list_elem_of_singleton]%elem_of_app; [by apply IH|].
  right. exists h'. split; [by eapply assigns_shift_attrs|done].
Qed.

(** Both sides of the graph list the same pairs. *)
Lemma assigns_linked G (staff : list Z) (shifts : list nat) h h' :
  (forall h p s, G h p s -> p ∈ staff /\ s ∈ shifts) ->
  assigns G h h' ->
  (forall p s, p ∈ staff -> s ∈ shifts -> s ∈ shifts_of h p <-> p ∈ assigned_to h s) ->
  forall p s, p ∈ staff -> s ∈ shifts -> s ∈ shifts_of h' p <-> p ∈ assigned_to h' s.
Proof.
  intros HG Hassigns H0. induction Hassigns as [h|h h' p0 s0 Hassigns IH Hguard]; [done|].
  intros p s Hp Hs. specialize (IH H0 p s Hp Hs).
  rewrite shifts_of_assign, assigned_to_assign.
  destruct (decide (p = p0)) as [->|Hp0], (decide (s = s0)) as [->|Hs0];
    rewrite ?elem_of_app, ?list_elem_of_singleton; tauto.
Qed.

(** The last shift of a member was assigned under the guard, in a heap where
    the member held the shifts before it. *)
Lemma assigns_last G h h' p l s :
  assigns G h h' -> shifts_of h p = [] -> shifts_of h' p = (l ++ [s])%list ->
  exists h1, assigns G h h1 /\ shifts_of h1 p = l /\ G h1 p s.
Proof.
  intros Hassigns H0. revert l s.
  induction Hassigns as [h|h h' p0 s0 Hassigns IH Hguard]; intros l s.
  - rewrite H0. by destruct l.
  - rewrite shifts_of_assign. case_decide as Hp; [|by apply IH]. subst p0.
    intros Heq. apply app_inj_tail in Heq as [Hl Hs]. subst l s0. by exists h'.
Qed.

End Traces.

(** ** The trace of [PreferenceBasedStrategy] *)

Section PreferenceBasedTrace.
Import PreferenceBasedStrategy.
Variable get_preferences : Z -> pref_lookup.
Variables (staff : list Z) (shifts : list nat).

Local Notation "'prefs'" := (load_preferences get_preferences staff).
Local Notation "'guard'" := (guard_preference_based get_preferences staff shifts).

Lemma candidates_of_persons h s :
  map (fun x : Z * Z * Q => x.1.1) (candidates_of h staff s prefs) `sublist_of` staff.
Proof.
  unfold candidates_of. generalize prefs as d. intros d.
  induction staff as [|p l IH]; simpl; [done|]. rewrite map_app.
  repeat case_match; simpl; first [by apply sublist_skip | by apply sublist_cons].
Qed.

Lemma candidates_of_facts h s x :
  x ∈ candidates_of h staff s prefs ->
  x.1.1 ∈ staff /\ _can_work_shift h x.1.1 s prefs = true
  /\ (hours_of h x.1.1 < preference_based_cap get_preferences staff x.1.1)%Q.
Proof.
  unfold candidates_of. rewrite list_elem_of_In, in_flat_map.
  intros (person & Hp & Hx). apply list_elem_of_In in Hp.
  destruct (_can_work_shift h person s prefs) eqn:Ecan; simpl in Hx; [|done].
  destruct (Qlt_bool _ _) eqn:Elt; simpl in Hx; [|done].
  destruct Hx as [<-|[]]. simpl. repeat split; try done.
  by apply Qlt_bool_iff in Elt.
Qed.

Lemma assign_candidates_trace s (l : list (Z * Z * Q)) h :
  s ∈ shifts ->
  Z.of_nat (length (assigned_to h s)) + Z.of_nat (length l) <= capacity h s ->
  (forall x, x ∈ l -> x.1.1 ∈ staff /\ _can_work_shift h x.1.1 s prefs = true) ->
  (NoDup staff ->
   NoDup (map (fun x : Z * Z * Q => x.1.1) l)
   /\ forall x, x ∈ l ->
        (hours_of h x.1.1 < preference_based_cap get_preferences staff x.1.1)%Q) ->
  assigns guard h (foldl (fun h '(person, _, _) => _assign_shift h person s) h l).
Proof.
  intros Hs. revert h. induction l as [|[[p sc] hr] l IH]; intros h Hroom Hcan Hcap;
    cbn [foldl].
  - constructor.
  - destruct (Hcan (p, sc, hr)) as [Hp Hw]; [left|]. simpl in Hp, Hw.
    assert (guard h p s) as Hg.
    { repeat split; try done; [simpl in Hroom; lia|].
      intros Hnd. apply (proj2 (Hcap Hnd) (p, sc, hr)). left. }
    apply (assigns_trans _ h (DayNightDistributeStrategy._assign_shift h p s));
      [by apply assigns_one|].
    change (_assign_shift h p s) with (DayNightDistributeStrategy._assign_shift h p s).
    apply IH.
    + rewrite assigned_to_assign, decide_True by done.
      rewrite length_app. simpl in *. unfold capacity, shift_attr in *. simpl. lia.
    + intros x Hx. destruct (Hcan x) as [? ?]; [by right|]. split; [done|].
      by rewrite (preference_based_can_work_same h).
    + intros Hnd. destruct (Hcap Hnd) as [Hnd' Hlt]. simpl in Hnd'.
      apply NoDup_cons in Hnd' as [Hnotin Hnd']. split; [done|].
      intros x Hx. rewrite hours_of_assign.
      rewrite decide_False; [apply Hlt; by right|].
      intros Heq. apply Hnotin. rewrite <- Heq. apply list_elem_of_fmap. by exists x.
Qed.

Lemma fill_shift_trace h s :
  s ∈ shifts -> assigns guard h (fill_shift staff prefs h s).
Proof.
  intros Hs. unfold fill_shift. destruct (Z.leb_spec (needed h s) 0) as [|Hpos]; [constructor|].
  set (sorted := sorted_by candidate_leb (candidates_of h staff s prefs)).
  apply assign_candidates_trace; [done| | |].
  - rewrite length_take. unfold needed, capacity, assigned_to in *. lia.
  - intros x Hx. apply elem_of_take_inv, elem_of_sorted_by, candidates_of_facts in Hx. tauto.
  - intros Hnd. split.
    + eapply (sublist_NoDup (map _ (take _ sorted)));
        [|apply (fmap_sublist (fun x : Z * Z * Q => x.1.1)), sublist_take].
      unfold sorted.
      rewrite (fmap_Permutation (fun x : Z * Z * Q => x.1.1) _ _ (sorted_by_perm _ _)).
      eapply sublist_NoDup; [exact Hnd|apply candidates_of_persons].
    + intros x Hx. apply elem_of_take_inv, elem_of_sorted_by, candidates_of_facts in Hx. tauto.
Qed.

Lemma preference_based_trace h :
  assigns guard h (assign_all get_preferences h staff shifts).
Proof.
  unfold assign_all.
  assert (forall s, s ∈ sorted_by (shift_leb h) shifts -> s ∈ shifts) as Hl.
  { intros s. by rewrite elem_of_sorted_by. }
  revert Hl. generalize (sorted_by (shift_leb h) shifts) as l. intros l.
  revert h. induction l as [|s l IH]; intros h Hl; simpl; [constructor|].
  eapply assigns_trans; [apply fill_shift_trace, Hl; by left|].
  apply IH. intros x Hx. apply Hl. by right.
Qed.

End PreferenceBasedTrace.

(** ** The trace of [DayNightDistributeStrategy] *)

Section DayNightTrace.
Import DayNightDistributeStrategy.
Variable get_preferences : Z -> pref_lookup.
Variables (staff : list Z) (shifts : list nat).

Local Notation "'guard'" := (guard_day_night get_preferences staff shifts).
Lemma commit_trace b s st p :
  s ∈ shifts -> in_day_bucket st.1 s = b -> fits get_preferences staff b p ->
  _can_work_shift get_preferences st.1 p s = true ->
  Z.of_nat (length (assigned_to st.1 s)) < capacity st.1 s ->
  neutral_pool get_preferences staff st.2 ->
  assigns guard st.1 (commit get_preferences s st p).1
  /\ neutral_pool get_preferences staff (commit get_preferences s st p).2
  /\ Z.of_nat (length (assigned_to (commit get_preferences s st p).1 s))
     <= Z.of_nat (length (assigned_to st.1 s)) + 1.
Proof.
  intros Hs Hb (Hp & Hday & Hnight) Hcan Hroom Hpool. destruct st as [h pool].
  unfold commit, _assign_if_available. cbn [fst snd] in *.
  destruct (Qle_bool _ _) eqn:Hle.
  - assert (assigns guard h (_assign_shift h p s)) as Ha.
    { apply assigns_one. repeat split; try done.
      - by apply Qle_bool_iff in Hle.
      - intros Hc. rewrite Hb. by apply Hday.
      - intros Hc. rewrite Hb. by apply Hnight. }
    assert (Z.of_nat (length (assigned_to (_assign_shift h p s) s))
            <= Z.of_nat (length (assigned_to h s)) + 1) as Hlen.
    { rewrite assigned_to_assign, decide_True, length_app by done. simpl. lia. }
    destruct (bool_decide _); cbn [fst snd]; (split; [done|split; [|done]]); [|done].
    intros q Hq. apply Hpool. by eapply elem_of_remove_first.
  - cbn [fst snd]. split; [constructor|]. split; [done|lia].
Qed.

Lemma commit_all_trace b s l st :
  s ∈ shifts -> in_day_bucket st.1 s = b ->
  Z.of_nat (length (assigned_to st.1 s)) + Z.of_nat (length l) <= capacity st.1 s ->
  (forall p, p ∈ l -> fits get_preferences staff b p /\ _can_work_shift get_preferences st.1 p s = true) ->
  neutral_pool get_preferences staff st.2 ->
  assigns guard st.1 (foldl (commit get_preferences s) st l).1
  /\ neutral_pool get_preferences staff (foldl (commit get_preferences s) st l).2.
Proof.
  intros Hs. revert st. induction l as [|p l IH]; intros st Hb Hroom Hl Hpool; cbn [foldl].
  - split; [constructor|done].
  - destruct (Hl p) as [Hfit Hcan]; [left|].
    destruct (commit_trace b s st p) as (Ha & Hpool' & Hlen); try done.
    { simpl in Hroom. lia. }
    pose proof (assigns_shift_attrs _ _ _ Ha) as Hattrs.
    destruct (IH (commit get_preferences s st p)) as [Ha' Hpool''].
    + by rewrite (in_day_bucket_same st.1).
    + rewrite (capacity_same st.1) by done. simpl in Hroom. lia.
    + intros q Hq. destruct (Hl q) as [? ?]; [by right|]. split; [done|].
      by rewrite (day_night_can_work_same _ st.1).
    + done.
    + split; [by eapply assigns_trans|done].
Qed.

Lemma day_night_fill_shift_trace b preferring st s :
  (forall p, p ∈ preferring -> fits get_preferences staff b p) ->
  s ∈ shifts -> in_day_bucket st.1 s = b -> neutral_pool get_preferences staff st.2 ->
  assigns guard st.1 (fill_shift get_preferences preferring st s).1
  /\ neutral_pool get_preferences staff (fill_shift get_preferences preferring st s).2.
Proof.
  intros Hpref Hs Hb Hpool. unfold fill_shift. destruct st as [h pool]. cbn [fst snd] in *.
  destruct (Z.leb_spec (needed h s) 0) as [|Hpos]; [split; [constructor|done]|].
  apply (commit_all_trace b s _ (h, pool)); try done; cbn [fst snd].
  - rewrite length_take. unfold needed, capacity, assigned_to in *. lia.
  - intros p Hp.
    apply elem_of_take_inv, elem_of_sorted_by, list_elem_of_filter in Hp as [Hcan Hp].
    split; [|done]. apply elem_of_app in Hp as [Hp|Hp]; [by apply Hpref|].
    destruct (Hpool p Hp) as [? Hn]. unfold fits. rewrite Hn. by repeat split.
Qed.

Lemma pass_trace b preferring l st :
  (forall p, p ∈ preferring -> fits get_preferences staff b p) ->
  (forall s, s ∈ l -> s ∈ shifts /\ in_day_bucket st.1 s = b) ->
  neutral_pool get_preferences staff st.2 ->
  assigns guard st.1 (foldl (fill_shift get_preferences preferring) st l).1
  /\ neutral_pool get_preferences staff (foldl (fill_shift get_preferences preferring) st l).2.
Proof.
  intros Hpref. revert st. induction l as [|s l IH]; intros st Hl Hpool; cbn [foldl].
  - split; [constructor|done].
  - destruct (Hl s) as [Hs Hb]; [left|].
    destruct (day_night_fill_shift_trace b preferring st s) as [Ha Hpool']; try done.
    pose proof (assigns_shift_attrs _ _ _ Ha) as Hattrs.
    destruct (IH (fill_shift get_preferences preferring st s)) as [Ha' Hpool'']; [|done|].
    + intros s' Hs'. destruct (Hl s') as [? ?]; [by right|]. split; [done|].
      by rewrite (in_day_bucket_same st.1).
    + split; [by eapply assigns_trans|done].
Qed.

Lemma day_night_trace h :
  assigns guard h (assign_all get_preferences h staff shifts).1.
Proof.
  unfold assign_all.
  destruct (pass_trace true (staff_of get_preferences DayStaff staff)
              (day_shifts h shifts)
              (h, staff_of get_preferences NeutralStaff staff)) as [Ha Hpool].
  { intros p [Hc Hp]%list_elem_of_filter. unfold fits. rewrite Hc. by repeat split. }
  { intros s [Hb Hs]%list_elem_of_filter. by split. }
  { intros p [Hc Hp]%list_elem_of_filter. by split. }
  cbn [fst] in Ha. pose proof (assigns_shift_attrs _ _ _ Ha) as Hattrs.
  destruct (pass_trace false (staff_of get_preferences NightStaff staff)
              (night_shifts h shifts)
              (foldl (fill_shift get_preferences (staff_of get_preferences DayStaff staff))
                     (h, staff_of get_preferences NeutralStaff staff)
                     (day_shifts h shifts))) as [Ha' _]; [| |done|].
  { intros p [Hc Hp]%list_elem_of_filter. unfold fits. rewrite Hc. by repeat split. }
  { intros s [Hb Hs]%list_elem_of_filter. split; [done|].
    by rewrite (in_day_bucket_same h). }
  by eapply assigns_trans.
Qed.

Lemma day_night_final_heap h sd ed :
  (generate_schedule get_preferences h staff shifts sd ed).2
  = (assign_all get_preferences (_reset_assignments h staff shifts) staff shifts).1.
Proof.
  unfold generate_schedule. by destruct (assign_all _ _ _ _).
Qed.

End DayNightTrace.

(** ** What every run of the two strategies keeps *)

Section AfterReset.
Variables (h : heap) (staff : list Z) (shifts : list nat).

Lemma reset_assigned_to s :
  s ∈ shifts -> assigned_to (_reset_assignments h staff shifts) s = [].
Proof.
  intros Hs. unfold assigned_to, _reset_assignments. simpl.
  by rewrite foldl_insert_lookup.
Qed.

Lemma reset_shifts_of p :
  p ∈ staff -> shifts_of (_reset_assignments h staff shifts) p = [].
Proof.
  intros Hp. unfold shifts_of, _reset_assignments. simpl.
  by rewrite foldl_insert_lookup.
Qed.

Lemma reset_total_hours p :
  p ∈ staff -> total_hours (_reset_assignments h staff shifts) !! p = Some 0%Q.
Proof.
  intros Hp. unfold _reset_assignments. simpl. by rewrite foldl_insert_lookup.
Qed.

End AfterReset.

Lemma load_preferences_lookup gp (staff : list Z) p :
  p ∈ staff ->
  PreferenceBasedStrategy.load_preferences gp staff !! p
  = Some match gp p with
         | PrefReturns r => prefs_or r PreferenceBasedStrategy.default_prefs
         | PrefRaises => PreferenceBasedStrategy.default_prefs
         end.
Proof.
  unfold PreferenceBasedStrategy.load_preferences.
  generalize (∅ : gmap Z Prefs) as m. intros m Hin. revert m.
  induction staff as [|q l IH] using rev_ind; intros m; [by apply elem_of_nil in Hin|].
  rewrite foldl_app. simpl. destruct (decide (q = p)) as [->|Hne].
  - apply lookup_insert_eq.
  - rewrite lookup_insert_ne by done. apply IH.
    apply elem_of_app in Hin as [?|Hin]; [done|].
    apply list_elem_of_singleton in Hin. congruence.
Qed.

(** Both strategies read the same unavailable days and skills. *)
Lemma preference_based_reads gp (staff : list Z) p :
  p ∈ staff ->
  default [] (unavailable_days
                (default empty_prefs (PreferenceBasedStrategy.load_preferences gp staff !! p)))
  = default [] (unavailable_days (prefs_of_lookup (gp p)))
  /\ default [] (skills
                   (default empty_prefs
                      (PreferenceBasedStrategy.load_preferences gp staff !! p)))
     = default [] (skills (prefs_of_lookup (gp p))).
Proof.
  intros Hp. rewrite load_preferences_lookup by done. simpl. unfold prefs_of_lookup.
  destruct (gp p) as [|[[[a|] [b|] [c|] [d|]]|]]; by split.
Qed.

Section Kept.
Variable get_preferences : Z -> pref_lookup.
Variables (h : heap) (staff : list Z) (shifts : list nat) (start_date end_date : Z).

Lemma preference_based_run_trace :
  assigns (guard_preference_based get_preferences staff shifts)
    (_reset_assignments h staff shifts)
    (PreferenceBasedStrategy.generate_schedule get_preferences h staff shifts
       start_date end_date).2.
Proof. apply preference_based_trace. Qed.

Lemma day_night_run_trace :
  assigns (guard_day_night get_preferences staff shifts)
    (_reset_assignments h staff shifts)
    (DayNightDistributeStrategy.generate_schedule get_preferences h staff shifts
       start_date end_date).2.
Proof. rewrite day_night_final_heap. apply day_night_trace. Qed.

(** Either run is a trace under the guard common to both. *)
Lemma either_run_trace hp :
  hp = (PreferenceBasedStrategy.generate_schedule get_preferences h staff shifts
          start_date end_date).2
  \/ hp = (DayNightDistributeStrategy.generate_schedule get_preferences h staff shifts
             start_date end_date).2 ->
  exists can_work,
    assigns (guard_basic staff shifts can_work) (_reset_assignments h staff shifts) hp.
Proof.
  intros [-> | ->]; eexists.
  - eapply assigns_weaken; [|apply preference_based_run_trace]. intros ? ? ? H. apply H.
  - eapply assigns_weaken; [|apply day_night_run_trace]. intros ? ? ? H. apply H.
Qed.

End Kept.

(** X8.  After a run of [PreferenceBasedStrategy] or of
    [DayNightDistributeStrategy], no listed shift has more assignees than its
    [required_staff] (none, when that is not positive). *)
Theorem shifts_never_overfilled
    (get_preferences : Z -> pref_lookup) (h : heap) (staff : list Z) (shifts : list nat)
    (start_date end_date : Z) (hp : heap) (s : nat) :
  hp = (PreferenceBasedStrategy.generate_schedule get_preferences h staff shifts
          start_date end_date).2
  \/ hp = (DayNightDistributeStrategy.generate_schedule get_preferences h staff shifts
             start_date end_date).2 ->
  s ∈ shifts ->
  Z.of_nat (length (assigned_to hp s)) <= Z.max 0 (capacity hp s).
Proof.
  intros Hrun Hs. apply either_run_trace in Hrun as [can_work Ha].
  pose proof (assigns_capacity _ _ _ s (fun h p s Hg => proj2 (proj2 (proj2 Hg))) Ha) as Hc.
  rewrite reset_assigned_to in Hc by done.
  by rewrite (capacity_same hp) in Hc by (symmetry; by eapply assigns_shift_attrs).
Qed.

(** X9.  After either run, the [total_hours] of every roster member is the
    sum, in assignment order, of the durations of the shifts in their
    [assigned_shifts]. *)
Theorem hours_match_assigned_shifts
    (get_preferences : Z -> pref_lookup) (h : heap) (staff : list Z) (shifts : list nat)
    (start_date end_date : Z) (hp : heap) (p : Z) :
  hp = (PreferenceBasedStrategy.generate_schedule get_preferences h staff shifts
          start_date end_date).2
  \/ hp = (DayNightDistributeStrategy.generate_schedule get_preferences h staff shifts
             start_date end_date).2 ->
  p ∈ staff ->
  total_hours hp !! p = Some (hours_sum hp (shifts_of hp p)).
Proof.
  intros Hrun Hp. apply either_run_trace in Hrun as [can_work Ha].
  apply (assigns_hours _ _ _ p Ha).
  by rewrite reset_total_hours, reset_shifts_of.
Qed.

(** X10.  After either run, every shift a roster member holds is a listed
    shift that the member can work: it has a start time, its weekday is not
    among the member's unavailable days and the member holds every required
    skill. *)
Theorem assigned_shifts_are_workable
    (get_preferences : Z -> pref_lookup) (h : heap) (staff : list Z) (shifts : list nat)
    (start_date end_date : Z) (hp : heap) (p : Z) (s : nat) :
  hp = (PreferenceBasedStrategy.generate_schedule get_preferences h staff shifts
          start_date end_date).2
  \/ hp = (DayNightDistributeStrategy.generate_schedule get_preferences h staff shifts
             start_date end_date).2 ->
  p ∈ staff -> s ∈ shifts_of hp p ->
  s ∈ shifts
  /\ workable hp s
       (default [] (unavailable_days (prefs_of_lookup (get_preferences p))))
       (default [] (skills (prefs_of_lookup (get_preferences p)))).
Proof.
  intros Hrun Hp Hs. destruct Hrun as [-> | ->].
  - pose proof (preference_based_run_trace get_preferences h staff shifts start_date
                  end_date) as Ha.
    destruct (assigns_shifts_of _ _ _ p s Ha Hs) as [Hin|(h1 & Hattrs & Hg)].
    { rewrite reset_shifts_of in Hin by done. by apply elem_of_nil in Hin. }
    destruct Hg as [(_ & Hshift & Hcan & _) _]. split; [done|].
    destruct (preference_based_reads get_preferences staff p Hp) as [<- <-].
    apply preference_based_can_work.
    rewrite <- Hcan. apply preference_based_can_work_same.
    rewrite Hattrs. by eapply assigns_shift_attrs.
  - pose proof (day_night_run_trace get_preferences h staff shifts start_date end_date)
      as Ha.
    destruct (assigns_shifts_of _ _ _ p s Ha Hs) as [Hin|(h1 & Hattrs & Hg)].
    { rewrite reset_shifts_of in Hin by done. by apply elem_of_nil in Hin. }
    destruct Hg as [(_ & Hshift & Hcan & _) _]. split; [done|].
    apply day_night_can_work.
    rewrite <- Hcan. apply day_night_can_work_same.
    rewrite Hattrs. by eapply assigns_shift_attrs.
Qed.

(** X11.  After either run the two sides of the graph agree: for a roster
    member and a listed shift, the shift is in the member's
    [assigned_shifts] exactly when the member is in the shift's
    [assigned_staff]. *)
Theorem assignments_are_mutual
    (get_preferences : Z -> pref_lookup) (h : heap) (staff : list Z) (shifts : list nat)
    (start_date end_date : Z) (hp : heap) (p : Z) (s : nat) :
  hp = (PreferenceBasedStrategy.generate_schedule get_preferences h staff shifts
          start_date end_date).2
  \/ hp = (DayNightDistributeStrategy.generate_schedule get_preferences h staff shifts
             start_date end_date).2 ->
  p ∈ staff -> s ∈ shifts ->
  s ∈ shifts_of hp p <-> p ∈ assigned_to hp s.
Proof.
  intros Hrun Hp Hs. apply either_run_trace in Hrun as [can_work Ha].
  apply (assigns_linked _ staff shifts _ _ (fun h p s Hg => conj (proj1 Hg) (proj1 (proj2 Hg)))
           Ha); [|done|done].
  intros p' s' Hp' Hs'. rewrite reset_shifts_of, reset_assigned_to by done.
  split; intros Hin; by apply elem_of_nil in Hin.
Qed.

(** X12.  After a run of [DayNightDistributeStrategy], every roster member
    whose cap is not negative is within it. *)
Theorem day_night_hours_within_cap
    (get_preferences : Z -> pref_lookup) (h : heap) (staff : list Z) (shifts : list nat)
    (start_date end_date : Z) (p : Z) :
  p ∈ staff ->
  (0 <= DayNightDistributeStrategy.max_hours_of get_preferences p)%Q ->
  (hours_of (DayNightDistributeStrategy.generate_schedule get_preferences h staff shifts
               start_date end_date).2 p
   <= DayNightDistributeStrategy.max_hours_of get_preferences p)%Q.
Proof. intros Hp Hcap. by apply day_night_within_cap. Qed.

(** X13.  After a run of [PreferenceBasedStrategy] on a roster without
    repetition, the hours of the shifts a member held before their last one,
    added up in order as [total_hours += duration] does, are less than the
    member's cap, and [total_hours] is that sum plus the duration of the last
    shift: only the last assignment can take a member past the cap. *)
Theorem preference_based_overshoot_bound
    (get_preferences : Z -> pref_lookup) (h : heap) (staff : list Z) (shifts : list nat)
    (start_date end_date : Z) (p : Z) (l : list nat) (s : nat) :
  let hp := (PreferenceBasedStrategy.generate_schedule get_preferences h staff shifts
               start_date end_date).2 in
  NoDup staff -> p ∈ staff -> shifts_of hp p = (l ++ [s])%list ->
  (hours_sum hp l < preference_based_cap get_preferences staff p)%Q
  /\ total_hours hp !! p
     = Some (float_add (hours_sum hp l)
                       (DayNightDistributeStrategy._get_shift_duration hp s)).
Proof.
  intros hp Hnd Hp Hl.
  pose proof (preference_based_run_trace get_preferences h staff shifts start_date end_date)
    as Ha. fold hp in Ha.
  destruct (assigns_last _ _ _ p l s Ha (reset_shifts_of h staff shifts p Hp) Hl)
    as (h1 & Ha1 & Hl1 & [_ Hcap]).
  pose proof (assigns_hours _ _ _ p Ha1) as Hh1.
  rewrite reset_total_hours, reset_shifts_of in Hh1 by done. specialize (Hh1 eq_refl).
  assert (shift_attrs hp = shift_attrs h1) as Hattrs.
  { rewrite (assigns_shift_attrs _ _ _ Ha). symmetry. by eapply assigns_shift_attrs. }
  split.
  - specialize (Hcap Hnd). unfold hours_of in Hcap. rewrite Hh1, Hl1 in Hcap. simpl in Hcap.
    by rewrite (hours_sum_same h1 hp).
  - pose proof (assigns_hours _ _ _ p Ha) as Hh.
    rewrite reset_total_hours, reset_shifts_of in Hh by done. rewrite (Hh eq_refl), Hl.
    unfold hours_sum. by rewrite map_app, foldl_app.
Qed.

(** X14.  After a run of [DayNightDistributeStrategy], a day-preferring
    roster member holds shifts of the day bucket only and a night-preferring
    one shifts of the night bucket only. *)
Theorem day_night_preferences_respected
    (get_preferences : Z -> pref_lookup) (h : heap) (staff : list Z) (shifts : list nat)
    (start_date end_date : Z) (p : Z) (s : nat) :
  let hp := (DayNightDistributeStrategy.generate_schedule get_preferences h staff shifts
               start_date end_date).2 in
  p ∈ staff -> s ∈ shifts_of hp p ->
  (DayNightDistributeStrategy.categorize get_preferences p
   = DayNightDistributeStrategy.DayStaff ->
   DayNightDistributeStrategy.in_day_bucket hp s = true)
  /\ (DayNightDistributeStrategy.categorize get_preferences p
      = DayNightDistributeStrategy.NightStaff ->
      DayNightDistributeStrategy.in_day_bucket hp s = false).
Proof.
  intros hp Hp Hs.
  pose proof (day_night_run_trace get_preferences h staff shifts start_date end_date) as Ha.
  fold hp in Ha.
  destruct (assigns_shifts_of _ _ _ p s Ha Hs) as [Hin|(h1 & Hattrs & Hg)].
  { rewrite reset_shifts_of in Hin by done. by apply elem_of_nil in Hin. }
  destruct Hg as (_ & _ & Hday & Hnight).
  assert (shift_attrs hp = shift_attrs h1) as Hsame.
  { rewrite Hattrs. by eapply assigns_shift_attrs. }
  rewrite (in_day_bucket_same h1 hp) by done. by split.
Qed.

(** ** Scores *)

(** X15.  The distribution score of [DayNightDistributeStrategy] lies
    between 0 and 100, whatever the four counts. *)
Theorem distribution_score_bounds (day_shifts night_shifts day_staff night_staff : Z) :
  (0 <= DayNightDistributeStrategy._calculate_distribution_score
          day_shifts night_shifts day_staff night_staff <= 100)%Q.
Proof.
  unfold DayNightDistributeStrategy._calculate_distribution_score.
  destruct (day_shifts + night_shifts =? 0); [split; lra|].
  destruct (day_staff + night_staff =? 0); [split; lra|].
  set (dev := Qabs _). pose proof (Qabs_nonneg (inject_Z day_staff
    / inject_Z (day_staff + night_staff)
    - (if 0 <? day_shifts + night_shifts
       then inject_Z day_shifts / inject_Z (day_shifts + night_shifts) else 0))) as Hdev.
  fold dev in Hdev.
  destruct (Qlt_bool 0 (100 - dev * 200)) eqn:E.
  - apply Qlt_bool_iff in E. split; lra.
  - split; lra.
Qed.

(** X16.  When no roster member states a day or night preference, the
    distribution score of the run is 0, whatever was assigned. *)
Theorem all_neutral_scores_zero
    (get_preferences : Z -> pref_lookup) (h : heap) (staff : list Z) (shifts : list nat)
    (start_date end_date : Z) :
  (forall p, p ∈ staff ->
     DayNightDistributeStrategy.categorize get_preferences p
     = DayNightDistributeStrategy.NeutralStaff) ->
  res_scores (DayNightDistributeStrategy.generate_schedule get_preferences h staff shifts
                start_date end_date).1
  = [("distribution_score", 0%Q)].
Proof.
  intros Hall. unfold DayNightDistributeStrategy.generate_schedule.
  destruct (DayNightDistributeStrategy.assign_all _ _ _ _) as [h1 pool]. simpl.
  assert (forall c, c <> DayNightDistributeStrategy.NeutralStaff ->
            DayNightDistributeStrategy.staff_of get_preferences c staff = []) as Hnone.
  { intros c Hc. unfold DayNightDistributeStrategy.staff_of.
    induction staff as [|p l IH]; [done|]. rewrite filter_cons.
    rewrite decide_False.
    - apply IH. intros q Hq. apply Hall. by right.
    - rewrite Hall by left. congruence. }
  rewrite !Hnone by done. simpl.
  unfold DayNightDistributeStrategy._calculate_distribution_score.
  by destruct (_ =? 0).
Qed.

Section PreferenceScore.
Import PreferenceBasedStrategy.

Lemma preference_ratio_bounds (k n : nat) :
  (k <= n)%nat -> (0 < n)%nat ->
  (0 <= inject_Z (Z.of_nat k) / inject_Z (Z.of_nat n) * 100 <= 100)%Q.
Proof.
  intros Hk Hn.
  assert (0 < inject_Z (Z.of_nat n))%Q as Hpos.
  { unfold Qlt, inject_Z. simpl. lia. }
  assert (0 <= inject_Z (Z.of_nat k) / inject_Z (Z.of_nat n))%Q as H0.
  { apply Qle_shift_div_l; [done|]. unfold Qle, inject_Z. simpl. lia. }
  assert (inject_Z (Z.of_nat k) / inject_Z (Z.of_nat n) <= 1)%Q as H1.
  { apply Qle_shift_div_r; [done|]. unfold Qle, inject_Z. simpl. lia. }
  split; lra.
Qed.

(** The accumulator of the loop of [_calculate_overall_preference_score]. *)
Lemma preference_score_loop gp h staff total count :
  0 <= count -> (0 <= total <= 100 * inject_Z count)%Q ->
  let '(total', count') :=
    foldl (fun '(total_score, staff_count) person =>
             let assigned := default [] (assigned_shifts h !! person) in
             match assigned, gp person with
             | [], _ => (total_score, staff_count)
             | _, PrefRaises => (total_score, staff_count)
             | _, PrefReturns r =>
                 let prefs := prefs_or r empty_prefs in
                 let preferred_types := default [] (preferred_shift_types prefs) in
                 let preferred_count :=
                   length (filter (fun shift => _get_shift_type h shift ∈ preferred_types)
                                  assigned) in
                 ((total_score
                   + inject_Z (Z.of_nat preferred_count)
                     / inject_Z (Z.of_nat (length assigned)) * 100)%Q,
                  staff_count + 1)
             end) (total, count) staff in
  0 <= count' /\ (0 <= total' <= 100 * inject_Z count')%Q.
Proof.
  revert total count. induction staff as [|p l IH]; intros total count Hc Ht;
    cbn [foldl]; [done|].
  cbv zeta.
  destruct (default [] (assigned_shifts h !! p)) as [|s assigned] eqn:Ea; [by apply IH|].
  destruct (gp p) as [|r]; [by apply IH|].
  apply IH; [lia|].
  set (k := length (filter _ (s :: assigned))).
  pose proof (preference_ratio_bounds k (length (s :: assigned))) as Hr.
  assert (k <= length (s :: assigned))%nat as Hk by apply length_filter.
  assert (0 < length (s :: assigned))%nat as Hn by (cbn [length]; lia).
  specialize (Hr Hk Hn).
  rewrite inject_Z_plus. change (inject_Z 1) with 1%Q. split; lra.
Qed.

End PreferenceScore.

(** X17.  The preference score of [PreferenceBasedStrategy] lies between 0
    and 100, whatever the roster and the assignments. *)
Theorem preference_score_bounds (get_preferences : Z -> pref_lookup) (h : heap)
    (staff : list Z) :
  (0 <= PreferenceBasedStrategy._calculate_overall_preference_score get_preferences h staff
   <= 100)%Q.
Proof.
  unfold PreferenceBasedStrategy._calculate_overall_preference_score.
  destruct staff as [|p l]; [split; lra|].
  assert (0 <= 0 <= 100 * inject_Z 0)%Q as H00 by (split; unfold Qle; simpl; lia).
  pose proof (preference_score_loop get_preferences h (p :: l) 0 0 (Z.le_refl 0) H00) as H.
  destruct (foldl _ _ (p :: l)) as [total count]. destruct H as [Hc [H0 H1]].
  destruct (Z.ltb_spec 0 count) as [Hpos|]; [|split; lra].
  assert (0 < inject_Z count)%Q as Hq by (unfold Qlt, inject_Z; simpl; lia).
  split.
  - apply Qle_shift_div_l; [done|]. lra.
  - apply Qle_shift_div_r; [done|]. lra.
Qed.

(** X18.  Every candidate [PreferenceBasedStrategy] ranks for a shift has
    the preference score 3 when the type of the shift is among the member's
    preferred types and 0 otherwise: the penalty for an unavailable day never
    applies to a member [_can_work_shift] accepts. *)
Theorem candidate_scores_are_bonus_or_zero (h : heap) (staff : list Z) (shift : nat)
    (preferences : gmap Z Prefs) (person score : Z) (hours : Q) :
  (person, score, hours)
    ∈ PreferenceBasedStrategy.candidates_of h staff shift preferences ->
  score = (if bool_decide
                (PreferenceBasedStrategy._get_shift_type h shift
                 ∈ default [] (preferred_shift_types
                                 (default empty_prefs (preferences !! person))))
           then 3 else 0)
  /\ hours = hours_of h person.
Proof.
  unfold PreferenceBasedStrategy.candidates_of. rewrite list_elem_of_In, in_flat_map.
  intros (p & _ & Hx).
  destruct (PreferenceBasedStrategy._can_work_shift h p shift preferences) eqn:Ecan;
    simpl in Hx; [|done].
  destruct (Qlt_bool _ _); simpl in Hx; [|done].
  destruct Hx as [[= <- <- <-]|[]]. split; [|done].
  apply preference_based_can_work in Ecan as (t & Ht & Hday & _).
  unfold PreferenceBasedStrategy._calculate_preference_score. rewrite Ht. simpl.
  rewrite (bool_decide_eq_false_2 _ Hday). by destruct (bool_decide _).
Qed.

(** ** The buckets of [DayNightDistributeStrategy] *)

(** X19.  The bucket loop puts in the day bucket exactly the listed shifts
    that start from 14h to before 18h, and every other listed shift,
    those starting from 6h to before 14h included, in the night bucket. *)
Theorem day_bucket_is_afternoon (h : heap) (shifts : list nat) (s : nat) :
  (s ∈ DayNightDistributeStrategy.day_shifts h shifts
   <-> s ∈ shifts
       /\ exists t, shift_attr h s start_time = Some t /\ 14 <= dt_hour t < 18)
  /\ (s ∈ DayNightDistributeStrategy.night_shifts h shifts
      <-> s ∈ shifts
          /\ ~ exists t, shift_attr h s start_time = Some t /\ 14 <= dt_hour t < 18).
Proof.
  unfold DayNightDistributeStrategy.day_shifts, DayNightDistributeStrategy.night_shifts.
  rewrite !list_elem_of_filter, <- in_day_bucket_iff.
  destruct (DayNightDistributeStrategy.in_day_bucket h s); split; split;
    intros [? ?]; by split.
Qed.

(** ** Who is taken first *)

Section Sorting.
Context {A : Type} (leb : A -> A -> bool).
Hypothesis leb_total : forall x y, leb x y = true \/ leb y x = true.
Hypothesis leb_trans : forall x y z, leb x y = true -> leb y z = true -> leb x z = true.

Lemma insert_sorted_sorted x l :
  StronglySorted (fun a b => leb a b = true) l ->
  StronglySorted (fun a b => leb a b = true) (insert_sorted leb x l).
Proof.
  induction 1 as [|y l Hs IH Hall]; simpl.
  - repeat constructor.
  - destruct (leb x y) eqn:E.
    + constructor; [by constructor|]. constructor; [done|].
      eapply Forall_impl; [exact Hall|]. intros z Hz. simpl in Hz. eauto.
    + constructor; [done|]. rewrite insert_sorted_perm. constructor; [|done].
      destruct (leb_total x y); congruence.
Qed.

Lemma sorted_by_sorted l : StronglySorted (fun a b => leb a b = true) (sorted_by leb l).
Proof.
  unfold sorted_by. induction l as [|x l IH]; simpl; [constructor|].
  by apply insert_sorted_sorted.
Qed.

(** Whatever a slice [sorted(l)[:n]] leaves out ranks no lower than what it
    takes. *)
Lemma sorted_by_take_drop n l x y :
  x ∈ take n (sorted_by leb l) -> y ∈ drop n (sorted_by leb l) -> leb x y = true.
Proof.
  intros Hx Hy. pose proof (sorted_by_sorted l) as Hs.
  rewrite <- (take_drop n (sorted_by leb l)) in Hs.
  by apply (StronglySorted_app_1_elem_of _ _ _ _ _ Hs Hx Hy).
Qed.

Lemma sorted_by_take_or_drop n l x :
  x ∈ l -> x ∈ take n (sorted_by leb l) \/ x ∈ drop n (sorted_by leb l).
Proof.
  intros Hx. apply elem_of_app. rewrite take_drop. by apply elem_of_sorted_by.
Qed.

End Sorting.

Lemma Qle_bool_total a b : Qle_bool a b = true \/ Qle_bool b a = true.
Proof.
  rewrite !Qle_bool_iff. destruct (Qlt_le_dec a b) as [H|H]; [left|right]; lra.
Qed.

Lemma Qle_bool_trans a b c :
  Qle_bool a b = true -> Qle_bool b c = true -> Qle_bool a c = true.
Proof. rewrite !Qle_bool_iff. lra. Qed.

Lemma candidate_leb_total x y :
  PreferenceBasedStrategy.candidate_leb x y = true
  \/ PreferenceBasedStrategy.candidate_leb y x = true.
Proof.
  destruct x as [[px sx] hx], y as [[py sy] hy]. unfold PreferenceBasedStrategy.candidate_leb.
  destruct (decide (- sx = - sy)) as [E|E].
  - rewrite decide_True by done. apply Qle_bool_total.
  - rewrite decide_False by (intros E'; by apply E). rewrite !Z.ltb_lt. lia.
Qed.

Lemma candidate_leb_trans x y z :
  PreferenceBasedStrategy.candidate_leb x y = true ->
  PreferenceBasedStrategy.candidate_leb y z = true ->
  PreferenceBasedStrategy.candidate_leb x z = true.
Proof.
  destruct x as [[px sx] hx], y as [[py sy] hy], z as [[pz sz] hz].
  unfold PreferenceBasedStrategy.candidate_leb.
  destruct (decide (- sx = - sy)) as [E1|E1], (decide (- sy = - sz)) as [E2|E2],
    (decide (- sx = - sz)) as [E3|E3]; rewrite ?Z.ltb_lt; try lia; try done.
  apply Qle_bool_trans.
Qed.

Lemma candidate_leb_spec px sx hx py sy hy :
  PreferenceBasedStrategy.candidate_leb (px, sx, hx) (py, sy, hy) = true ->
  sy < sx \/ (sy = sx /\ (hx <= hy)%Q).
Proof.
  unfold PreferenceBasedStrategy.candidate_leb. case_decide.
  - rewrite Qle_bool_iff. right. split; [lia|done].
  - rewrite Z.ltb_lt. lia.
Qed.

Lemma assign_candidates_assigned_to h s (l : list (Z * Z * Q)) :
  assigned_to (foldl (fun h '(person, _, _) => PreferenceBasedStrategy._assign_shift h person s)
                     h l) s
  = (assigned_to h s ++ map (fun x : Z * Z * Q => x.1.1) l)%list.
Proof.
  revert h. induction l as [|[[p sc] hr] l IH]; intros h; cbn [foldl map].
  - by rewrite app_nil_r.
  - rewrite IH, preference_based_assign_shift, assigned_to_assign, decide_True by done.
    by rewrite <- app_assoc.
Qed.

(** X20.  A fill of [PreferenceBasedStrategy] takes the best-ranked
    candidates: a candidate it leaves without the shift has no higher
    preference score than a member it assigns, and with the same score no
    fewer hours. *)
Theorem preference_based_takes_best (h : heap) (staff : list Z) (shift : nat)
    (preferences : gmap Z Prefs) (p q sq : Z) (hq : Q) :
  p ∈ assigned_to (PreferenceBasedStrategy.fill_shift staff preferences h shift) shift ->
  p ∉ assigned_to h shift ->
  (q, sq, hq) ∈ PreferenceBasedStrategy.candidates_of h staff shift preferences ->
  q ∉ assigned_to (PreferenceBasedStrategy.fill_shift staff preferences h shift) shift ->
  exists sp hp,
    (p, sp, hp) ∈ PreferenceBasedStrategy.candidates_of h staff shift preferences
    /\ (sq < sp \/ (sq = sp /\ (hp <= hq)%Q)).
Proof.
  unfold PreferenceBasedStrategy.fill_shift.
  destruct (PreferenceBasedStrategy.needed h shift <=? 0); [done|].
  rewrite assign_candidates_assigned_to.
  set (n := Z.to_nat _). set (l := PreferenceBasedStrategy.candidates_of _ _ _ _).
  intros Hp Hp0 Hq Hq'.
  apply elem_of_app in Hp as [Hp|Hp]; [done|].
  apply list_elem_of_fmap in Hp as ([[p' sp] hp] & -> & Hx). simpl in *.
  exists sp, hp. split.
  { by apply elem_of_take_inv, elem_of_sorted_by in Hx. }
  apply candidate_leb_spec with (px := p') (py := q).
  apply (sorted_by_take_drop _ candidate_leb_total candidate_leb_trans n l); [done|].
  destruct (sorted_by_take_or_drop PreferenceBasedStrategy.candidate_leb n l _ Hq)
    as [Hin|Hin]; [|done].
  exfalso. apply Hq', elem_of_app. right.
  apply list_elem_of_fmap. by exists (q, sq, hq).
Qed.

Section DayNightOrder.
Import DayNightDistributeStrategy.
Variable get_preferences : Z -> pref_lookup.

Lemma hours_leb_total h x y : hours_leb h x y = true \/ hours_leb h y x = true.
Proof. apply Qle_bool_total. Qed.

Lemma hours_leb_trans h x y z :
  hours_leb h x y = true -> hours_leb h y z = true -> hours_leb h x z = true.
Proof. apply Qle_bool_trans. Qed.

Lemma commit_heap s st p :
  (commit get_preferences s st p).1 = st.1
  \/ ((commit get_preferences s st p).1 = _assign_shift st.1 p s
      /\ (float_add (hours_of st.1 p) (_get_shift_duration st.1 s)
          <= max_hours_of get_preferences p)%Q).
Proof.
  destruct st as [h pool]. unfold commit, _assign_if_available.
  destruct (Qle_bool _ _) eqn:E; [|by left].
  right. apply Qle_bool_iff in E. by destruct (bool_decide _).
Qed.

Lemma commit_fits s st p :
  (float_add (hours_of st.1 p) (_get_shift_duration st.1 s)
   <= max_hours_of get_preferences p)%Q ->
  (commit get_preferences s st p).1 = _assign_shift st.1 p s.
Proof.
  destruct st as [h pool]. unfold commit, _assign_if_available. intros H%Qle_bool_iff.
  unfold hours_of in H. cbn [fst] in *. rewrite H. by destruct (bool_decide _).
Qed.

Lemma commit_all_assigned_to s l st x :
  x ∈ assigned_to (foldl (commit get_preferences s) st l).1 s ->
  x ∈ assigned_to st.1 s \/ x ∈ l.
Proof.
  revert st. induction l as [|a l IH]; intros st; cbn [foldl]; [by left|].
  intros [H|H]%IH; [|right; by right].
  destruct (commit_heap s st a) as [E | [E _]]; rewrite E in H; [by left|].
  rewrite assigned_to_assign, decide_True in H by done.
  apply elem_of_app in H as [H| ->%list_elem_of_singleton]; [by left|right; by left].
Qed.

Lemma commit_all_keeps s l st x :
  x ∈ assigned_to st.1 s -> x ∈ assigned_to (foldl (commit get_preferences s) st l).1 s.
Proof.
  revert st. induction l as [|a l IH]; intros st; cbn [foldl]; [done|].
  intros H. apply IH.
  destruct (commit_heap s st a) as [-> | [-> _]]; [done|].
  rewrite assigned_to_assign, decide_True by done. apply elem_of_app. by left.
Qed.

Lemma commit_all_takes s l st q :
  q ∈ l ->
  (float_add (hours_of st.1 q) (_get_shift_duration st.1 s)
   <= max_hours_of get_preferences q)%Q ->
  q ∈ assigned_to (foldl (commit get_preferences s) st l).1 s.
Proof.
  revert st. induction l as [|a l IH]; intros st Hq Hfit; [by apply elem_of_nil in Hq|].
  cbn [foldl]. destruct (decide (a = q)) as [->|Hne].
  - apply commit_all_keeps. rewrite commit_fits by done.
    rewrite assigned_to_assign, decide_True by done. apply elem_of_app. right. by left.
  - apply elem_of_cons in Hq as [->|Hq]; [done|]. apply IH; [done|].
    destruct (commit_heap s st a) as [-> | [-> _]]; [done|].
    rewrite hours_of_assign, decide_False by done.
    by rewrite (duration_same st.1 (_assign_shift st.1 a s)).
Qed.

End DayNightOrder.

(** X21.  A fill of [DayNightDistributeStrategy] takes the least-loaded
    candidates: a candidate who can work the shift and passes the hour test
    of [_assign_if_available] for it, yet is left without it, has no fewer
    hours than any member the fill assigns. *)
Theorem day_night_takes_least_loaded (get_preferences : Z -> pref_lookup) (h : heap)
    (preferring pool : list Z) (shift : nat) (p q : Z) :
  p ∈ assigned_to
        (DayNightDistributeStrategy.fill_shift get_preferences preferring (h, pool) shift).1
        shift ->
  p ∉ assigned_to h shift ->
  q ∈ (preferring ++ pool)%list ->
  DayNightDistributeStrategy._can_work_shift get_preferences h q shift = true ->
  (float_add (hours_of h q) (DayNightDistributeStrategy._get_shift_duration h shift)
   <= DayNightDistributeStrategy.max_hours_of get_preferences q)%Q ->
  q ∉ assigned_to
        (DayNightDistributeStrategy.fill_shift get_preferences preferring (h, pool) shift).1
        shift ->
  (hours_of h p <= hours_of h q)%Q.
Proof.
  unfold DayNightDistributeStrategy.fill_shift.
  destruct (DayNightDistributeStrategy.needed h shift <=? 0); [done|].
  set (n := Z.to_nat _). set (l := filter _ _).
  intros Hp Hp0 Hq Hcan Hfit Hq'.
  apply commit_all_assigned_to in Hp as [Hp|Hp]; [done|].
  assert (q ∈ l) as Hql by (apply list_elem_of_filter; by split).
  apply Qle_bool_iff.
  apply (sorted_by_take_drop _ (hours_leb_total h) (hours_leb_trans h) n l p q Hp).
  destruct (sorted_by_take_or_drop (DayNightDistributeStrategy.hours_leb h) n l _ Hql)
    as [Hin|Hin]; [|done].
  exfalso. apply Hq'. by apply commit_all_takes.
Qed.

(** ** Concrete runs of the properties above *)

Lemma auto_populate_keeps_other_schedules_witness :
  session (db MoreExamples.world_with_two_schedules)
  = committed (db MoreExamples.world_with_two_schedules)
  /\ (MoreExamples.other_row
        ∈ committed (db (Examples.auto_populate_example "preference-based" [1; 2] 2 "mixed"
                           MoreExamples.world_with_two_schedules).2)
      <-> MoreExamples.other_row ∈ committed (db MoreExamples.world_with_two_schedules)).
Proof.
  split; [reflexivity|].
  apply (auto_populate_keeps_other_schedules Examples.no_prefs Examples.absent_strategy
           Examples.absent_strategy 0 1 "preference-based" [1; 2] Examples.day0 Examples.day0
           2 "mixed" MoreExamples.world_with_two_schedules eq_refl MoreExamples.other_row).
  simpl. lia.
Defined.

Lemma shifts_never_overfilled_witness :
  (0%nat ∈ [0; 1]%nat)
  /\ Z.of_nat (length (assigned_to MoreExamples.day_night_run 0%nat))
     <= Z.max 0 (capacity MoreExamples.day_night_run 0%nat).
Proof.
  assert (0%nat ∈ [0; 1]%nat) as Hs by (apply (bool_decide_unpack _); vm_compute; exact I).
  split; [exact Hs|].
  exact (shifts_never_overfilled Examples.day_and_night_prefs Examples.mixed_day_heap
           [1; 2] [0; 1]%nat Examples.day0 Examples.day0 MoreExamples.day_night_run 0%nat
           (or_intror eq_refl) Hs).
Defined.

Lemma hours_match_assigned_shifts_witness :
  (1 ∈ [1; 2])
  /\ total_hours MoreExamples.day_night_run !! 1
     = Some (hours_sum MoreExamples.day_night_run (shifts_of MoreExamples.day_night_run 1)).
Proof.
  assert (1 ∈ [1; 2]) as Hp by (apply (bool_decide_unpack _); vm_compute; exact I).
  split; [exact Hp|].
  exact (hours_match_assigned_shifts Examples.day_and_night_prefs Examples.mixed_day_heap
           [1; 2] [0; 1]%nat Examples.day0 Examples.day0 MoreExamples.day_night_run 1
           (or_intror eq_refl) Hp).
Defined.

Lemma assigned_shifts_are_workable_witness :
  (1 ∈ [1; 2]) /\ (1%nat ∈ shifts_of MoreExamples.day_night_run 1)
  /\ (1%nat ∈ [0; 1]%nat)
  /\ workable MoreExamples.day_night_run 1%nat
       (default [] (unavailable_days (prefs_of_lookup (Examples.day_and_night_prefs 1))))
       (default [] (skills (prefs_of_lookup (Examples.day_and_night_prefs 1)))).
Proof.
  assert (1 ∈ [1; 2]) as Hp by (apply (bool_decide_unpack _); vm_compute; exact I).
  assert (1%nat ∈ shifts_of MoreExamples.day_night_run 1) as Hs
    by (apply (bool_decide_unpack _); vm_compute; exact I).
  split; [exact Hp|]. split; [exact Hs|].
  exact (assigned_shifts_are_workable Examples.day_and_night_prefs Examples.mixed_day_heap
           [1; 2] [0; 1]%nat Examples.day0 Examples.day0 MoreExamples.day_night_run 1 1%nat
           (or_intror eq_refl) Hp Hs).
Defined.

Lemma assignments_are_mutual_witness :
  (1 ∈ [1; 2]) /\ (1%nat ∈ [0; 1]%nat)
  /\ (1%nat ∈ shifts_of MoreExamples.day_night_run 1
      <-> 1 ∈ assigned_to MoreExamples.day_night_run 1%nat).
Proof.
  assert (1 ∈ [1; 2]) as Hp by (apply (bool_decide_unpack _); vm_compute; exact I).
  assert (1%nat ∈ [0; 1]%nat) as Hs by (apply (bool_decide_unpack _); vm_compute; exact I).
  split; [exact Hp|]. split; [exact Hs|].
  exact (assignments_are_mutual Examples.day_and_night_prefs Examples.mixed_day_heap
           [1; 2] [0; 1]%nat Examples.day0 Examples.day0 MoreExamples.day_night_run 1 1%nat
           (or_intror eq_refl) Hp Hs).
Defined.

Lemma day_night_hours_within_cap_witness :
  (1 ∈ [1; 2])
  /\ (0 <= DayNightDistributeStrategy.max_hours_of Examples.day_and_night_prefs 1%Z)%Q
  /\ (hours_of MoreExamples.day_night_run 1%Z
      <= DayNightDistributeStrategy.max_hours_of Examples.day_and_night_prefs 1%Z)%Q.
Proof.
  assert (1 ∈ [1; 2]) as Hp by (apply (bool_decide_unpack _); vm_compute; exact I).
  assert (0 <= DayNightDistributeStrategy.max_hours_of Examples.day_and_night_prefs 1%Z)%Q
    as Hcap by (unfold Qle; simpl; lia).
  split; [exact Hp|]. split; [exact Hcap|].
  exact (day_night_hours_within_cap Examples.day_and_night_prefs Examples.mixed_day_heap
           [1; 2] [0; 1]%nat Examples.day0 Examples.day0 1 Hp Hcap).
Defined.

Lemma preference_based_overshoot_bound_witness :
  NoDup [1] /\ (1 ∈ [1])
  /\ shifts_of MoreExamples.preference_based_run 1 = ([0; 1; 2; 3; 4; 5] ++ [6])%nat%list
  /\ (hours_sum MoreExamples.preference_based_run [0; 1; 2; 3; 4; 5]%nat
      < preference_based_cap MoreExamples.cap_two_prefs [1%Z] 1%Z)%Q
  /\ total_hours MoreExamples.preference_based_run !! 1
     = Some (float_add (hours_sum MoreExamples.preference_based_run [0; 1; 2; 3; 4; 5]%nat)
                       (DayNightDistributeStrategy._get_shift_duration
                          MoreExamples.preference_based_run 6%nat)).
Proof.
  assert (NoDup [1]) as Hnd by (apply (bool_decide_unpack _); vm_compute; exact I).
  assert (1 ∈ [1]) as Hp by (apply (bool_decide_unpack _); vm_compute; exact I).
  assert (shifts_of MoreExamples.preference_based_run 1
          = ([0; 1; 2; 3; 4; 5] ++ [6])%nat%list) as Hl by (vm_compute; reflexivity).
  split; [exact Hnd|]. split; [exact Hp|]. split; [exact Hl|].
  exact (preference_based_overshoot_bound MoreExamples.cap_two_prefs
           MoreExamples.twenty_minute_heap [1] [0; 1; 2; 3; 4; 5; 6]%nat Examples.day0
           (Examples.day0 + 6) 1 [0; 1; 2; 3; 4; 5]%nat 6%nat Hnd Hp Hl).
Defined.

Lemma day_night_preferences_respected_witness :
  (1 ∈ [1; 2]) /\ (1%nat ∈ shifts_of MoreExamples.day_night_run 1)
  /\ DayNightDistributeStrategy.categorize Examples.day_and_night_prefs 1
     = DayNightDistributeStrategy.DayStaff
  /\ DayNightDistributeStrategy.in_day_bucket MoreExamples.day_night_run 1%nat = true.
Proof.
  assert (1 ∈ [1; 2]) as Hp by (apply (bool_decide_unpack _); vm_compute; exact I).
  assert (1%nat ∈ shifts_of MoreExamples.day_night_run 1) as Hs
    by (apply (bool_decide_unpack _); vm_compute; exact I).
  assert (DayNightDistributeStrategy.categorize Examples.day_and_night_prefs 1
          = DayNightDistributeStrategy.DayStaff) as Hc by (vm_compute; reflexivity).
  split; [exact Hp|]. split; [exact Hs|]. split; [exact Hc|].
  exact (proj1 (day_night_preferences_respected Examples.day_and_night_prefs
                  Examples.mixed_day_heap [1; 2] [0; 1]%nat Examples.day0 Examples.day0
                  1 1%nat Hp Hs) Hc).
Defined.

Lemma all_neutral_scores_zero_witness :
  (forall p, p ∈ [1; 2] ->
     DayNightDistributeStrategy.categorize Examples.no_prefs p
     = DayNightDistributeStrategy.NeutralStaff)
  /\ res_scores (DayNightDistributeStrategy.generate_schedule Examples.no_prefs
                   Examples.mixed_day_heap [1; 2] [0; 1]%nat Examples.day0 Examples.day0).1
     = [("distribution_score", 0%Q)].
Proof.
  assert (forall p, p ∈ [1; 2] ->
            DayNightDistributeStrategy.categorize Examples.no_prefs p
            = DayNightDistributeStrategy.NeutralStaff) as Hall by (intros p _; reflexivity).
  split; [exact Hall|].
  exact (all_neutral_scores_zero Examples.no_prefs Examples.mixed_day_heap [1; 2]
           [0; 1]%nat Examples.day0 Examples.day0 Hall).
Defined.

Lemma candidate_scores_are_bonus_or_zero_witness :
  ((1, 3, 0%Q)
     ∈ PreferenceBasedStrategy.candidates_of Examples.mixed_day_heap [1; 2] 0%nat
         MoreExamples.loaded_prefs)
  /\ 3 = (if bool_decide
               (PreferenceBasedStrategy._get_shift_type Examples.mixed_day_heap 0%nat
                ∈ default [] (preferred_shift_types
                                (default empty_prefs (MoreExamples.loaded_prefs !! 1))))
          then 3 else 0)
  /\ 0%Q = hours_of Examples.mixed_day_heap 1.
Proof.
  assert ((1, 3, 0%Q)
            ∈ PreferenceBasedStrategy.candidates_of Examples.mixed_day_heap [1; 2] 0%nat
                MoreExamples.loaded_prefs) as Hin by (vm_compute; left).
  split; [exact Hin|].
  exact (candidate_scores_are_bonus_or_zero Examples.mixed_day_heap [1; 2] 0%nat
           MoreExamples.loaded_prefs 1 3 0%Q Hin).
Defined.

Lemma preference_based_takes_best_witness :
  (1 ∈ assigned_to MoreExamples.preference_based_fill 0%nat)
  /\ (1 ∉ assigned_to Examples.mixed_day_heap 0%nat)
  /\ ((2, 0, 0%Q)
        ∈ PreferenceBasedStrategy.candidates_of Examples.mixed_day_heap [1; 2] 0%nat
            MoreExamples.loaded_prefs)
  /\ (2 ∉ assigned_to MoreExamples.preference_based_fill 0%nat)
  /\ exists sp hp,
       (1, sp, hp)
         ∈ PreferenceBasedStrategy.candidates_of Examples.mixed_day_heap [1; 2] 0%nat
             MoreExamples.loaded_prefs
       /\ (0 < sp \/ (0 = sp /\ (hp <= 0)%Q)).
Proof.
  assert (1 ∈ assigned_to MoreExamples.preference_based_fill 0%nat) as H1
    by (apply (bool_decide_unpack _); vm_compute; exact I).
  assert (1 ∉ assigned_to Examples.mixed_day_heap 0%nat) as H2
    by (apply (bool_decide_unpack _); vm_compute; exact I).
  assert ((2, 0, 0%Q)
            ∈ PreferenceBasedStrategy.candidates_of Examples.mixed_day_heap [1; 2] 0%nat
                MoreExamples.loaded_prefs) as H3 by (vm_compute; right; left).
  assert (2 ∉ assigned_to MoreExamples.preference_based_fill 0%nat) as H4
    by (apply (bool_decide_unpack _); vm_compute; exact I).
  split; [exact H1|]. split; [exact H2|]. split; [exact H3|]. split; [exact H4|].
  exact (preference_based_takes_best Examples.mixed_day_heap [1; 2] 0%nat
           MoreExamples.loaded_prefs 1 2 0 0%Q H1 H2 H3 H4).
Defined.

Lemma day_night_takes_least_loaded_witness :
  (1 ∈ assigned_to MoreExamples.day_night_fill.1 0%nat)
  /\ (1 ∉ assigned_to Examples.mixed_day_heap 0%nat)
  /\ (2 ∈ ([] ++ [1; 2])%list)
  /\ DayNightDistributeStrategy._can_work_shift Examples.no_prefs Examples.mixed_day_heap
       2 0%nat = true
  /\ (float_add (hours_of Examples.mixed_day_heap 2%Z)
                 (DayNightDistributeStrategy._get_shift_duration Examples.mixed_day_heap
                    0%nat)
      <= DayNightDistributeStrategy.max_hours_of Examples.no_prefs 2%Z)%Q
  /\ (2 ∉ assigned_to MoreExamples.day_night_fill.1 0%nat)
  /\ (hours_of Examples.mixed_day_heap 1%Z <= hours_of Examples.mixed_day_heap 2%Z)%Q.
Proof.
  assert (1 ∈ assigned_to MoreExamples.day_night_fill.1 0%nat) as H1
    by (apply (bool_decide_unpack _); vm_compute; exact I).
  assert (1 ∉ assigned_to Examples.mixed_day_heap 0%nat) as H2
    by (apply (bool_decide_unpack _); vm_compute; exact I).
  assert (2 ∈ ([] ++ [1; 2])%list) as H3
    by (apply (bool_decide_unpack _); vm_compute; exact I).
  assert (DayNightDistributeStrategy._can_work_shift Examples.no_prefs
            Examples.mixed_day_heap 2 0%nat = true) as H4 by (vm_compute; reflexivity).
  assert (float_add (hours_of Examples.mixed_day_heap 2%Z)
                    (DayNightDistributeStrategy._get_shift_duration
                       Examples.mixed_day_heap 0%nat)
          <= DayNightDistributeStrategy.max_hours_of Examples.no_prefs 2%Z)%Q as H5
    by (apply Qle_bool_iff; vm_compute; reflexivity).
  assert (2 ∉ assigned_to MoreExamples.day_night_fill.1 0%nat) as H6
    by (apply (bool_decide_unpack _); vm_compute; exact I).
  split; [exact H1|]. split; [exact H2|]. split; [exact H3|]. split; [exact H4|].
  split; [exact H5|]. split; [exact H6|].
  exact (day_night_takes_least_loaded Examples.no_prefs Examples.mixed_day_heap [] [1; 2]
           0%nat 1 2 H1 H2 H3 H4 H5 H6).
Defined.

(** ** From the catalog to the rows *)

Lemma alloc_shifts_refs objs : forall h refs h1,
  alloc_shifts h objs = (refs, h1) ->
  length refs = length objs
  /\ (next_ref h <= next_ref h1)%nat
  /\ (forall r, (r < next_ref h)%nat -> shift_attrs h1 !! r = shift_attrs h !! r)
  /\ forall r, r ∈ refs ->
       (next_ref h <= r)%nat /\ exists obj, obj ∈ objs /\ shift_attrs h1 !! r = Some obj.
Proof.
  induction objs as [|obj rest IH]; intros h refs h1; simpl.
  - intros [= <- <-]. split; [done|]. split; [lia|]. split; [done|].
    intros r Hr. by apply elem_of_nil in Hr.
  - destruct (alloc_shifts _ rest) as [rs h2] eqn:E. intros [= <- <-].
    apply IH in E as (Hlen & Hnext & Hold & Hrefs). simpl in *.
    split; [by rewrite Hlen|]. split; [lia|]. split.
    + intros r Hr. rewrite Hold by lia. apply lookup_insert_ne. lia.
    + intros r [->|Hr]%elem_of_cons.
      * split; [lia|]. exists obj. split; [by left|].
        rewrite Hold by lia. apply lookup_insert_eq.
      * destruct (Hrefs r Hr) as (Hle & o & Ho & Hlook).
        split; [lia|]. exists o. split; [by right|done].
Qed.

Lemma assigns_assigned_to G h h' p s :
  assigns G h h' -> p ∈ assigned_to h' s -> p ∈ assigned_to h s \/ exists h1, G h1 p s.
Proof.
  induction 1 as [h|h h' p0 s0 Hassigns IH Hguard]; [by left|].
  rewrite assigned_to_assign. case_decide as Hs; [|done]. subst.
  intros [Hin| ->%list_elem_of_singleton]%elem_of_app; [by apply IH|].
  right. by exists h'.
Qed.

(** The assignees of a listed shift after either run. *)
Lemma run_assignees gp h (staff : list Z) (shifts : list nat) sd ed hp s :
  hp = (PreferenceBasedStrategy.generate_schedule gp h staff shifts sd ed).2
  \/ hp = (DayNightDistributeStrategy.generate_schedule gp h staff shifts sd ed).2 ->
  s ∈ shifts ->
  (forall p, p ∈ assigned_to hp s -> p ∈ staff)
  /\ Z.of_nat (length (assigned_to hp s)) <= Z.max 0 (capacity h s)
  /\ shift_attrs hp = shift_attrs h.
Proof.
  intros Hrun Hs. apply either_run_trace in Hrun as [can_work Ha].
  pose proof (assigns_shift_attrs _ _ _ Ha) as Hattrs. simpl in Hattrs.
  split; [|split; [|done]].
  - intros p Hp. apply (assigns_assigned_to _ _ _ _ _ Ha) in Hp as [Hp|[h1 Hg]].
    + rewrite reset_assigned_to in Hp by done. by apply elem_of_nil in Hp.
    + apply Hg.
  - pose proof (assigns_capacity _ _ _ s (fun h p s Hg => proj2 (proj2 (proj2 Hg))) Ha) as Hc.
    rewrite reset_assigned_to in Hc by done.
    by rewrite (capacity_same h) in Hc.
Qed.

(** X22.  After a run of [PreferenceBasedStrategy] or of
    [DayNightDistributeStrategy], every assignee of a listed shift is a
    member of the roster passed to the run. *)
Theorem assignees_are_roster_members
    (get_preferences : Z -> pref_lookup) (h : heap) (staff : list Z) (shifts : list nat)
    (start_date end_date : Z) (hp : heap) (p : Z) (s : nat) :
  hp = (PreferenceBasedStrategy.generate_schedule get_preferences h staff shifts
          start_date end_date).2
  \/ hp = (DayNightDistributeStrategy.generate_schedule get_preferences h staff shifts
             start_date end_date).2 ->
  s ∈ shifts -> p ∈ assigned_to hp s -> p ∈ staff.
Proof.
  intros Hrun Hs Hp.
  by apply (proj1 (run_assignees get_preferences h staff shifts start_date end_date hp s
                     Hrun Hs)).
Qed.

Lemma assignments_list_bound h (staff : list Z) (refs : list nat) l :
  _get_assignments_list h refs = Return l ->
  (forall s, s ∈ refs ->
     (length (assigned_to h s) <= 1)%nat /\ forall p, p ∈ assigned_to h s -> p ∈ staff) ->
  (length l <= length refs)%nat /\ Forall (fun a => a_staff_id a ∈ staff) l.
Proof.
  revert l. induction refs as [|s refs IH]; intros l.
  - intros [= <-] _. split; [done|constructor].
  - intros (entries & more & -> & Hmore & Hs)%get_assignments_cons Hall.
    destruct (IH more Hmore) as [IHlen IHall]; [intros s' Hs'; apply Hall; by right|].
    destruct (Hall s ltac:(by left)) as [Hlen Hin]. unfold assigned_to in *.
    destruct Hs as [[_ ->]|(a & b & _ & _ & ->)].
    + split; [simpl; lia|done].
    + split.
      * rewrite length_app, length_map. simpl. lia.
      * apply Forall_app. split; [|done].
        apply Forall_forall. intros x (p & -> & Hp)%list_elem_of_fmap. simpl. by apply Hin.
Qed.

Lemma length_omap_le {A B} (f : A -> option B) l : (length (omap f l) <= length l)%nat.
Proof.
  induction l as [|x l IH]; [done|].
  change (omap f (x :: l)) with (match f x with Some y => y :: omap f l | None => omap f l end).
  destruct (f x); cbn [length]; lia.
Qed.

(** X23.  A successful [auto_populate] with either strategy of the sources
    reports at most one assignment per catalog shift, each of a member of the
    staff list, and creates no more rows than it reports assignments: at most
    [days * shifts_per_day]. *)
Theorem auto_populate_rows_bounded
    (get_preferences : Z -> pref_lookup)
    (EvenDistributeStrategy MinimizeDaysStrategy : strategy)
    (admin_id schedule_id : Z) (strategy_name : string) (staff_list : list Z)
    (start_date end_date shifts_per_day : Z) (type_tag : string) (w w' : world)
    (sid created deleted : Z) (score : Q) (summary : gmap string Q)
    (assignments : list assignment) (used : string) :
  strategy_name = "preference-based" \/ strategy_name = "day-night-distribute" ->
  auto_populate get_preferences EvenDistributeStrategy MinimizeDaysStrategy
    admin_id schedule_id strategy_name staff_list start_date end_date shifts_per_day
    type_tag w
  = (Return (Success sid created deleted score summary assignments used), w') ->
  created <= Z.of_nat (length assignments)
  /\ Z.of_nat (length assignments) <= (end_date - start_date + 1) * shifts_per_day
  /\ Forall (fun a => a_staff_id a ∈ staff_list) assignments.
Proof.
  intros Hname Hrun.
  apply auto_populate_run in Hrun as [(_ & _ & msg & [=])|(Hacc & r0 & w0 & Hp & Hr)].
  destruct r0 as [o|e|]; [|by destruct Hr|done]. destruct Hr as [[= <-] ->].
  apply populate_inv in Hp
    as (objs & refs & h1 & res & Hgen & Halloc & Hg & _ & _ & l & Hl
        & [= -> -> _ _ _ -> _]).
  rewrite (rows_of_assignments _ _ _ _ Hl).
  apply period_loop_returns in Hgen as (new & Hobjs & Hlen & Hshape). simpl in Hobjs.
  subst objs.
  apply alloc_shifts_refs in Halloc as (Hrefs & _ & _ & Hattr).
  assert (objects w0
          = (PreferenceBasedStrategy.generate_schedule get_preferences h1 staff_list refs
               start_date end_date).2
          \/ objects w0
             = (DayNightDistributeStrategy.generate_schedule get_preferences h1 staff_list
                  refs start_date end_date).2) as Hheap.
  { unfold ScheduleClient_generate_schedule in Hg.
    destruct Hname as [-> | ->]; simpl in Hg; [left|right].
    - unfold call, PreferenceBased, total_strategy in Hg.
      destruct (PreferenceBasedStrategy.generate_schedule _ _ _ _ _ _) as [r h2].
      by injection Hg as _ <-.
    - unfold call, DayNightDistribute, total_strategy in Hg.
      destruct (DayNightDistributeStrategy.generate_schedule _ _ _ _ _ _) as [r h2].
      by injection Hg as _ <-. }
  destruct (assignments_list_bound (objects w0) staff_list refs l Hl) as [Hcount Hstaff].
  { intros s Hs.
    destruct (run_assignees get_preferences h1 staff_list refs start_date end_date
                (objects w0) s Hheap Hs) as (Hin & Hcap & _).
    split; [|done].
    destruct (Hattr s Hs) as (_ & obj & Hobj & Hlook).
    rewrite Forall_forall in Hshape. apply Hshape in Hobj as (a & b & -> & _).
    unfold capacity, shift_attr in Hcap. rewrite Hlook in Hcap. simpl in Hcap. lia. }
  split; [|split; [|done]].
  - pose proof (length_omap_le (row_of_assignment schedule_id) l). lia.
  - rewrite Hrefs, Hlen in Hcount.
    assert (~ rejected staff_list start_date end_date shifts_per_day) as Hok by done.
    unfold rejected in Hok. nia.
Qed.

Lemma auto_populate_rows_bounded_witness :
  match MoreExamples.success_run with
  | (Return (Success _ created _ _ _ assignments _), _) =>
      created <= Z.of_nat (length assignments)
      /\ Z.of_nat (length assignments) <= (Examples.day0 - Examples.day0 + 1) * 2
      /\ Forall (fun a => a_staff_id a ∈ [1; 2]) assignments
  | _ => False
  end.
Proof.
  unfold MoreExamples.success_run, Examples.auto_populate_example.
  destruct (auto_populate _ _ _ _ _ _ _ _ _ _ _ _)
    as [[[sid created deleted score summary assignments used|msg]|e|] w'] eqn:E;
    try (vm_compute in E; discriminate).
  exact (auto_populate_rows_bounded _ _ _ _ _ _ _ _ _ _ _ _ _ _ _ _ _ _ _ _
           (or_introl eq_refl) E).
Defined.

Lemma assignees_are_roster_members_witness :
  (1%nat ∈ [0; 1]%nat) /\ (1 ∈ assigned_to MoreExamples.day_night_run 1%nat)
  /\ (1 ∈ [1; 2]).
Proof.
  assert (1%nat ∈ [0; 1]%nat) as Hs by (apply (bool_decide_unpack _); vm_compute; exact I).
  assert (1 ∈ assigned_to MoreExamples.day_night_run 1%nat) as Hp
    by (apply (bool_decide_unpack _); vm_compute; exact I).
  split; [exact Hs|]. split; [exact Hp|].
  exact (assignees_are_roster_members Examples.day_and_night_prefs Examples.mixed_day_heap
           [1; 2] [0; 1]%nat Examples.day0 Examples.day0 MoreExamples.day_night_run 1 1%nat
           (or_intror eq_refl) Hs Hp).
Defined.

(** ** The two registries *)

(** X24.  No strategy name is accepted by both facades: whatever the name,
    [Scheduler.generate_schedule] or [ScheduleClient.generate_schedule]
    raises the unknown-strategy error, without touching the object graph; the
    names of one registry are spelled with underscores, those of the other
    with hyphens. *)
Theorem facades_share_no_name
    (get_preferences : Z -> pref_lookup)
    (EvenDistributeStrategy MinimizeDaysStrategy ShiftTypeStrategy : strategy)
    (h : heap) (strategy_name : string) (staff : list Z) (shifts : list nat)
    (start_date end_date : Z) :
  (exists msg,
     Scheduler_generate_schedule get_preferences EvenDistributeStrategy MinimizeDaysStrategy
       ShiftTypeStrategy h strategy_name staff shifts start_date end_date
     = (Raise (ValueError msg), h))
  \/ ScheduleClient_generate_schedule get_preferences EvenDistributeStrategy
       MinimizeDaysStrategy h strategy_name staff shifts start_date end_date
     = (Raise (ValueError ("Unknown strategy: " ++ strategy_name)), h).
Proof.
  unfold ScheduleClient_generate_schedule, ScheduleClient_strategies. cbn [dict_get].
  destruct (String.eqb_spec "even-distribute" strategy_name) as [<-|_];
    [left; eexists; reflexivity|].
  destruct (String.eqb_spec "minimize-days" strategy_name) as [<-|_];
    [left; eexists; reflexivity|].
  destruct (String.eqb_spec "preference-based" strategy_name) as [<-|_];
    [left; eexists; reflexivity|].
  destruct (String.eqb_spec "day-night-distribute" strategy_name) as [<-|_];
    [left; eexists; reflexivity|].
  by right.
Qed.

(** ** Running a strategy again *)

(** X25.  For [PreferenceBasedStrategy] and [DayNightDistributeStrategy], with
    the same preference lookup, a second run on the staff and shifts as the
    first run left them returns the same result and leaves the same heap. *)
Theorem rerun_gives_same_result
    (get_preferences : Z -> pref_lookup) (h : heap) (staff : list Z) (shifts : list nat)
    (start_date end_date : Z) :
  (let first := PreferenceBasedStrategy.generate_schedule get_preferences h staff shifts
                  start_date end_date in
   PreferenceBasedStrategy.generate_schedule get_preferences first.2 staff shifts
     start_date end_date = first)
  /\ (let first := DayNightDistributeStrategy.generate_schedule get_preferences h staff shifts
                     start_date end_date in
      DayNightDistributeStrategy.generate_schedule get_preferences first.2 staff shifts
        start_date end_date = first).
Proof.
  split; cbv zeta.
  - apply preference_based_rerun.
  - apply day_night_rerun.
Qed.
